(** * shuttle: the Service, its error-page cache, the host router and the
      admin write path

    A shallow embedding of [shuttle/service.go], [shuttle/http.go] and
    [shuttle/admin.go].  Go pointers ([*Service], [*Backend], [*ErrorPage])
    are locations in a store, methods with pointer receivers read and write
    that store, and every call that leaves the program (dialing, listening,
    fetching a page, the balancer whose code lives in another file) is
    answered by the environment, whose answers are part of the state. *)

From Stdlib Require Import ZArith Ascii String.
From stdpp Require Import base option list gmap strings.

Open Scope Z_scope.
Open Scope string_scope.
Open Scope list_scope.

(** ** Machine integers and durations *)

Module Int64.

Definition modulus : Z := 2 ^ 64.
Definition half : Z := 2 ^ 63.

(** Two's-complement wrap-around of Go's [int64]. *)
Definition wrap (x : Z) : Z := (x + half) mod modulus - half.

Definition add (x y : Z) : Z := wrap (x + y).
Definition mul (x y : Z) : Z := wrap (x * y).

Definition in_range (x : Z) : Prop := - half <= x < half.

End Int64.

(** [time.Duration] counts nanoseconds in an [int64]. *)
Definition Millisecond : Z := 1000000.
Definition Second : Z := 1000000000.

(** ** Data *)

Definition loc := nat.

(** [client.BackendConfig]; the fields are those of its JSON form. *)
Record BackendConfig := mkBackendConfig {
  bc_Name : string;
  bc_Addr : string;
  bc_CheckAddr : string;
}.

(** [client.ServiceConfig].  [ErrorPages] is a Go map from location to status
    codes; it is kept as the list of its entries in the order in which the
    runtime ranges over them, [None] being the nil map. *)
Record ServiceConfig := mkServiceConfig {
  sc_Name : string;
  sc_Addr : string;
  sc_VirtualHosts : list string;
  sc_Backends : list BackendConfig;
  sc_Balance : string;
  sc_CheckInterval : Z;
  sc_Fall : Z;
  sc_Rise : Z;
  sc_ClientTimeout : Z;
  sc_ServerTimeout : Z;
  sc_DialTimeout : Z;
  sc_ErrorPages : option (list (string * list Z));
}.

(** The part of [Backend] that [service.go] reads and writes. *)
Record Backend := mkBackend {
  Name : string;
  Addr : string;
  CheckAddr : string;
  Sent : Z;
  Rcvd : Z;
  Errors : Z;
  Conns : Z;
  Active : Z;
  HTTPActive : Z;
  up : bool;
  rwTimeout : Z;
  dialTimeout : Z;
  checkInterval : Z;
}.

(** The [int64] fields of a backend whose address is taken. *)
Inductive Counter := cSent | cRcvd | cErrors | cConns | cHTTPActive.

Definition CounterRef : Type := loc * Counter.

Definition counter_get (c : Counter) (b : Backend) : Z :=
  match c with
  | cSent => Sent b
  | cRcvd => Rcvd b
  | cErrors => Errors b
  | cConns => Conns b
  | cHTTPActive => HTTPActive b
  end.

Definition counter_set (c : Counter) (v : Z) (b : Backend) : Backend :=
  match c with
  | cSent => mkBackend (Name b) (Addr b) (CheckAddr b) v (Rcvd b) (Errors b)
      (Conns b) (Active b) (HTTPActive b) (up b) (rwTimeout b) (dialTimeout b)
      (checkInterval b)
  | cRcvd => mkBackend (Name b) (Addr b) (CheckAddr b) (Sent b) v (Errors b)
      (Conns b) (Active b) (HTTPActive b) (up b) (rwTimeout b) (dialTimeout b)
      (checkInterval b)
  | cErrors => mkBackend (Name b) (Addr b) (CheckAddr b) (Sent b) (Rcvd b) v
      (Conns b) (Active b) (HTTPActive b) (up b) (rwTimeout b) (dialTimeout b)
      (checkInterval b)
  | cConns => mkBackend (Name b) (Addr b) (CheckAddr b) (Sent b) (Rcvd b)
      (Errors b) v (Active b) (HTTPActive b) (up b) (rwTimeout b)
      (dialTimeout b) (checkInterval b)
  | cHTTPActive => mkBackend (Name b) (Addr b) (CheckAddr b) (Sent b) (Rcvd b)
      (Errors b) (Conns b) (Active b) v (up b) (rwTimeout b) (dialTimeout b)
      (checkInterval b)
  end.

(** [net.Dialer]. *)
Record Dialer := mkDialer {
  Timeout : Z;
  KeepAlive : Z;
}.

(** The callbacks a reverse proxy can be given. *)
Inductive ProxyCallback :=
| cb_sslRedirect
| cb_logProxyRequest
| cb_errStats
| cb_CheckResponse.

(** [ReverseProxy] as [NewService] configures it. *)
Record ReverseProxy := mkReverseProxy {
  MaxIdleConnsPerHost : Z;
  FlushInterval : Z;
  OnRequest : list ProxyCallback;
  OnResponse : list ProxyCallback;
}.

(** The two methods [NewService] can install in [Service.next]. *)
Inductive Selector := roundRobin | leastConn.

(** [http.Header]. *)
Abbreviation Header := (gmap string (list string)).

(** [ErrorPage]: [body] is [None] for Go's nil slice. *)
Record ErrorPage := mkErrorPage {
  Location : string;
  StatusCodes : list Z;
  body : option string;
  header : option Header;
}.

(** [ErrorResponse]: the index from status code to [*ErrorPage]. *)
Record ErrorResponse := mkErrorResponse {
  pages : gmap Z loc;
}.

(** What [net.Listen] hands back, wrapped by [timeoutListener]. *)
Record Listener := mkListener {
  l_id : nat;
  l_rwTimeout : Z;
}.

Record Service := mkService {
  s_Name : string;
  s_Addr : string;
  s_VirtualHosts : list string;
  s_Backends : list loc;
  s_Balance : string;
  s_CheckInterval : Z;
  s_Fall : Z;
  s_Rise : Z;
  s_ClientTimeout : Z;
  s_ServerTimeout : Z;
  s_DialTimeout : Z;
  s_HTTPConns : Z;
  s_HTTPErrors : Z;
  s_HTTPActive : Z;
  next : option Selector;
  listener : option Listener;
  httpProxy : option ReverseProxy;
  errorPages : ErrorResponse;
  errPagesCfg : option (list (string * list Z));
  dialer : option Dialer;
}.

Definition set_Backends (v : list loc) (s : Service) : Service :=
  mkService (s_Name s) (s_Addr s) (s_VirtualHosts s) v (s_Balance s)
    (s_CheckInterval s) (s_Fall s) (s_Rise s) (s_ClientTimeout s)
    (s_ServerTimeout s) (s_DialTimeout s) (s_HTTPConns s) (s_HTTPErrors s)
    (s_HTTPActive s) (next s) (listener s) (httpProxy s) (errorPages s)
    (errPagesCfg s) (dialer s).

Definition set_CheckInterval (v : Z) (s : Service) : Service :=
  mkService (s_Name s) (s_Addr s) (s_VirtualHosts s) (s_Backends s)
    (s_Balance s) v (s_Fall s) (s_Rise s) (s_ClientTimeout s)
    (s_ServerTimeout s) (s_DialTimeout s) (s_HTTPConns s) (s_HTTPErrors s)
    (s_HTTPActive s) (next s) (listener s) (httpProxy s) (errorPages s)
    (errPagesCfg s) (dialer s).

Definition set_Fall (v : Z) (s : Service) : Service :=
  mkService (s_Name s) (s_Addr s) (s_VirtualHosts s) (s_Backends s)
    (s_Balance s) (s_CheckInterval s) v (s_Rise s) (s_ClientTimeout s)
    (s_ServerTimeout s) (s_DialTimeout s) (s_HTTPConns s) (s_HTTPErrors s)
    (s_HTTPActive s) (next s) (listener s) (httpProxy s) (errorPages s)
    (errPagesCfg s) (dialer s).

Definition set_Rise (v : Z) (s : Service) : Service :=
  mkService (s_Name s) (s_Addr s) (s_VirtualHosts s) (s_Backends s)
    (s_Balance s) (s_CheckInterval s) (s_Fall s) v (s_ClientTimeout s)
    (s_ServerTimeout s) (s_DialTimeout s) (s_HTTPConns s) (s_HTTPErrors s)
    (s_HTTPActive s) (next s) (listener s) (httpProxy s) (errorPages s)
    (errPagesCfg s) (dialer s).

Definition set_HTTP (conns active : Z) (s : Service) : Service :=
  mkService (s_Name s) (s_Addr s) (s_VirtualHosts s) (s_Backends s)
    (s_Balance s) (s_CheckInterval s) (s_Fall s) (s_Rise s)
    (s_ClientTimeout s) (s_ServerTimeout s) (s_DialTimeout s) conns
    (s_HTTPErrors s) active (next s) (listener s) (httpProxy s)
    (errorPages s) (errPagesCfg s) (dialer s).

Definition set_next (v : option Selector) (s : Service) : Service :=
  mkService (s_Name s) (s_Addr s) (s_VirtualHosts s) (s_Backends s)
    (s_Balance s) (s_CheckInterval s) (s_Fall s) (s_Rise s)
    (s_ClientTimeout s) (s_ServerTimeout s) (s_DialTimeout s) (s_HTTPConns s)
    (s_HTTPErrors s) (s_HTTPActive s) v (listener s) (httpProxy s)
    (errorPages s) (errPagesCfg s) (dialer s).

Definition set_listener (v : option Listener) (s : Service) : Service :=
  mkService (s_Name s) (s_Addr s) (s_VirtualHosts s) (s_Backends s)
    (s_Balance s) (s_CheckInterval s) (s_Fall s) (s_Rise s)
    (s_ClientTimeout s) (s_ServerTimeout s) (s_DialTimeout s) (s_HTTPConns s)
    (s_HTTPErrors s) (s_HTTPActive s) (next s) v (httpProxy s)
    (errorPages s) (errPagesCfg s) (dialer s).

Definition set_httpProxy (v : option ReverseProxy) (s : Service) : Service :=
  mkService (s_Name s) (s_Addr s) (s_VirtualHosts s) (s_Backends s)
    (s_Balance s) (s_CheckInterval s) (s_Fall s) (s_Rise s)
    (s_ClientTimeout s) (s_ServerTimeout s) (s_DialTimeout s) (s_HTTPConns s)
    (s_HTTPErrors s) (s_HTTPActive s) (next s) (listener s) v
    (errorPages s) (errPagesCfg s) (dialer s).

Definition set_dialer (v : option Dialer) (s : Service) : Service :=
  mkService (s_Name s) (s_Addr s) (s_VirtualHosts s) (s_Backends s)
    (s_Balance s) (s_CheckInterval s) (s_Fall s) (s_Rise s)
    (s_ClientTimeout s) (s_ServerTimeout s) (s_DialTimeout s) (s_HTTPConns s)
    (s_HTTPErrors s) (s_HTTPActive s) (next s) (listener s) (httpProxy s)
    (errorPages s) (errPagesCfg s) v.

(** ** HTTP values *)

(** [http.Request], as far as the router reads and writes it. *)
Record Request := mkRequest {
  Host : string;
  RequestURI : string;
  req_Header : Header;
}.

(** A response as it arrives from a backend or from an error-page origin.
    [resp_Body] is what [ioutil.ReadAll] returns for it: the bytes, or the
    text of a read error. *)
Record Response := mkResponse {
  StatusCode : Z;
  resp_Header : Header;
  resp_Body : string + string;
}.

(** [http.ResponseWriter]: the header map handed out by [Header()], the
    status line once written, and the bytes written so far. *)
Record ResponseWriter := mkResponseWriter {
  rw_header : Header;
  rw_status : option Z;
  rw_body : string;
}.

Definition new_ResponseWriter : ResponseWriter := mkResponseWriter ∅ None "".

(** [w.WriteHeader(code)]: only the first call counts. *)
Definition WriteHeader (code : Z) (w : ResponseWriter) : ResponseWriter :=
  match rw_status w with
  | Some _ => w
  | None => mkResponseWriter (rw_header w) (Some code) (rw_body w)
  end.

(** [w.Write(b)]: writes status 200 first when no status was written. *)
Definition Write (b : string) (w : ResponseWriter) : ResponseWriter :=
  let w' := WriteHeader 200 w in
  mkResponseWriter (rw_header w') (rw_status w') (rw_body w' +:+ b).

(** [ProxyRequest], the record threaded through the callback chain. *)
Record ProxyRequest := mkProxyRequest {
  pr_Request : Request;
  pr_ResponseWriter : ResponseWriter;
  pr_Response : option Response;
  pr_ProxyError : option string;
}.

Definition set_ResponseWriter (w : ResponseWriter) (pr : ProxyRequest)
  : ProxyRequest :=
  mkProxyRequest (pr_Request pr) w (pr_Response pr) (pr_ProxyError pr).

(** ** Effects *)

Inductive LogArg := AStr (s : string) | AInt (n : Z).

Inductive LogLevel := Info | Debug | Warn | Error.

(** Goroutines started with [go]; they are recorded, not run. *)
Inductive Task :=
| AcceptLoop (s : loc)
| FetchPage (p : loc)
| WriteStateConfig.

Inductive Event :=
| EvLog (lvl : LogLevel) (fmt : string) (args : list LogArg)
| EvDial (network addr : string) (d : Dialer)
| EvListen (addr : string)
| EvListenerClose (l : Listener)
| EvBackendStart (b : loc)
| EvBackendStop (b : loc)
| EvProxy (b : loc) (srv cli : nat)
| EvClose (cli : nat)
| EvGet (url : string)
| EvGo (t : Task)
| EvProxyServeHTTP (s : loc) (req : Request) (addrs : list string).

(** Modelled from the spec: the [ServiceRegistry] (registry.go is not among
    the sources), "two maps protected by one lock: name→Service,
    vhost→Service", a virtual host resolving "to zero or one Service". *)
Record ServiceRegistry := mkServiceRegistry {
  svcs : gmap string loc;
  vhosts : gmap string loc;
}.

(** The store and the environment.  [env_dial], [env_listen], [env_get],
    [env_close], [env_next] and [env_ids] hold the answers that the network,
    the balancer and the id generator give, in call order. *)
#[projections(primitive)]
Record State := mkState {
  services : gmap loc Service;
  backends : gmap loc Backend;
  errpages : gmap loc ErrorPage;
  Registry : ServiceRegistry;
  env_next : list (list loc);
  env_dial : list (nat + string);
  env_listen : list (nat + string);
  env_get : list (Response + string);
  env_close : list (option string);
  env_ids : list string;
  trace : list Event;
}.

Definition set_services (v : gmap loc Service) (st : State) : State :=
  mkState v (backends st) (errpages st) (Registry st) (env_next st)
    (env_dial st) (env_listen st) (env_get st) (env_close st) (env_ids st)
    (trace st).

Definition set_backends (v : gmap loc Backend) (st : State) : State :=
  mkState (services st) v (errpages st) (Registry st) (env_next st)
    (env_dial st) (env_listen st) (env_get st) (env_close st) (env_ids st)
    (trace st).

Definition set_errpages (v : gmap loc ErrorPage) (st : State) : State :=
  mkState (services st) (backends st) v (Registry st) (env_next st)
    (env_dial st) (env_listen st) (env_get st) (env_close st) (env_ids st)
    (trace st).

Definition set_Registry (v : ServiceRegistry) (st : State) : State :=
  mkState (services st) (backends st) (errpages st) v (env_next st)
    (env_dial st) (env_listen st) (env_get st) (env_close st) (env_ids st)
    (trace st).

Definition set_env_next (v : list (list loc)) (st : State) : State :=
  mkState (services st) (backends st) (errpages st) (Registry st) v
    (env_dial st) (env_listen st) (env_get st) (env_close st) (env_ids st)
    (trace st).

Definition set_env_dial (v : list (nat + string)) (st : State) : State :=
  mkState (services st) (backends st) (errpages st) (Registry st)
    (env_next st) v (env_listen st) (env_get st) (env_close st) (env_ids st)
    (trace st).

Definition set_env_listen (v : list (nat + string)) (st : State) : State :=
  mkState (services st) (backends st) (errpages st) (Registry st)
    (env_next st) (env_dial st) v (env_get st) (env_close st) (env_ids st)
    (trace st).

Definition set_env_get (v : list (Response + string)) (st : State) : State :=
  mkState (services st) (backends st) (errpages st) (Registry st)
    (env_next st) (env_dial st) (env_listen st) v (env_close st) (env_ids st)
    (trace st).

Definition set_env_close (v : list (option string)) (st : State) : State :=
  mkState (services st) (backends st) (errpages st) (Registry st)
    (env_next st) (env_dial st) (env_listen st) (env_get st) v (env_ids st)
    (trace st).

Definition set_env_ids (v : list string) (st : State) : State :=
  mkState (services st) (backends st) (errpages st) (Registry st)
    (env_next st) (env_dial st) (env_listen st) (env_get st) (env_close st) v
    (trace st).

Definition set_trace (v : list Event) (st : State) : State :=
  mkState (services st) (backends st) (errpages st) (Registry st)
    (env_next st) (env_dial st) (env_listen st) (env_get st) (env_close st)
    (env_ids st) v.

Definition empty_State : State :=
  mkState ∅ ∅ ∅ (mkServiceRegistry ∅ ∅) [] [] [] [] [] [] [].

(** A call either returns or panics (nil dereference, call of a nil func). *)
Inductive Res (A : Type) :=
| Ok (a : A)
| Panic (msg : string).
Arguments Ok {A} a.
Arguments Panic {A} msg.

Definition M (A : Type) : Type := State -> Res A * State.

Definition ret {A} (a : A) : M A := fun st => (Ok a, st).

Definition bind {A B} (m : M A) (f : A -> M B) : M B :=
  fun st =>
    match m st with
    | (Ok a, st') => f a st'
    | (Panic msg, st') => (Panic msg, st')
    end.

Definition panic {A} (msg : string) : M A := fun st => (Panic msg, st).

Declare Scope go_scope.
Delimit Scope go_scope with go.
Notation "x <~ m ;; k" := (bind m (fun x => k))
  (at level 100, m at next level, right associativity) : go_scope.
Notation "m ;;; k" := (bind m (fun _ => k))
  (at level 100, right associativity) : go_scope.
Open Scope go_scope.

Definition gets {A} (f : State -> A) : M A := fun st => (Ok (f st), st).
Definition modify (f : State -> State) : M unit := fun st => (Ok tt, f st).

Definition emit (e : Event) : M unit :=
  modify (fun st => set_trace (trace st ++ [e]) st).

Definition log (lvl : LogLevel) (fmt : string) (args : list LogArg) : M unit :=
  emit (EvLog lvl fmt args).

(** Dereferencing: a pointer that is nil or dangling panics. *)
Definition deref_service (sl : loc) : M Service :=
  fun st =>
    match services st !! sl with
    | Some s => (Ok s, st)
    | None => (Panic "nil pointer dereference", st)
    end.

Definition deref_backend (bl : loc) : M Backend :=
  fun st =>
    match backends st !! bl with
    | Some b => (Ok b, st)
    | None => (Panic "nil pointer dereference", st)
    end.

Definition deref_page (pl : loc) : M ErrorPage :=
  fun st =>
    match errpages st !! pl with
    | Some p => (Ok p, st)
    | None => (Panic "nil pointer dereference", st)
    end.

Definition store_service (sl : loc) (s : Service) : M unit :=
  modify (fun st => set_services (<[sl := s]> (services st)) st).

Definition store_backend (bl : loc) (b : Backend) : M unit :=
  modify (fun st => set_backends (<[bl := b]> (backends st)) st).

Definition store_page (pl : loc) (p : ErrorPage) : M unit :=
  modify (fun st => set_errpages (<[pl := p]> (errpages st)) st).

Definition alloc_service (s : Service) : M loc :=
  fun st =>
    let l := fresh (dom (services st)) in
    (Ok l, set_services (<[l := s]> (services st)) st).

Definition alloc_backend (b : Backend) : M loc :=
  fun st =>
    let l := fresh (dom (backends st)) in
    (Ok l, set_backends (<[l := b]> (backends st)) st).

Definition alloc_page (p : ErrorPage) : M loc :=
  fun st =>
    let l := fresh (dom (errpages st)) in
    (Ok l, set_errpages (<[l := p]> (errpages st)) st).

(** [atomic.AddInt64(&b.field, delta)]. *)
Definition atomic_AddInt64 (r : CounterRef) (delta : Z) : M unit :=
  b <~ deref_backend r.1 ;;
  store_backend r.1 (counter_set r.2 (Int64.add (counter_get r.2 b) delta) b).

(** [d.Dial(network, addr)]: the next answer of the network; a network that
    has no answer left refuses. *)
Definition Dialer_Dial (d : option Dialer) (network addr : string)
  : M (nat + string) :=
  match d with
  | None => panic "nil pointer dereference"
  | Some d =>
      emit (EvDial network addr d) ;;;
      fun st =>
        match env_dial st with
        | [] => (Ok (inr "connection refused"), st)
        | r :: rest => (Ok r, set_env_dial rest st)
        end
  end.

(** [net.Listen("tcp", addr)]. *)
Definition net_Listen (addr : string) : M (nat + string) :=
  emit (EvListen addr) ;;;
  fun st =>
    match env_listen st with
    | [] => (Ok (inr "address already in use"), st)
    | r :: rest => (Ok r, set_env_listen rest st)
    end.

(** [client.Get(url)] of the error-page client. *)
Definition client_Get (url : string) : M (Response + string) :=
  emit (EvGet url) ;;;
  fun st =>
    match env_get st with
    | [] => (Ok (inr "connection refused"), st)
    | r :: rest => (Ok r, set_env_get rest st)
    end.

(** [listener.Close()]. *)
Definition Listener_Close (l : Listener) : M (option string) :=
  emit (EvListenerClose l) ;;;
  fun st =>
    match env_close st with
    | [] => (Ok None, st)
    | r :: rest => (Ok r, set_env_close rest st)
    end.


(** ** Constructing a service: [NewService], [add], [NewErrorResponse] *)

(** Modelled from the spec: [NewBackend] (backend.go is not among the
    sources).  A backend is "one upstream endpoint" with a name, a dial
    address, a health-check URL and counters, which start at zero. *)
Definition NewBackend (cfg : BackendConfig) : M loc :=
  alloc_backend
    (mkBackend (bc_Name cfg) (bc_Addr cfg) (bc_CheckAddr cfg)
       0 0 0 0 0 0 false 0 0 0).

(** [backend.Start()] and [backend.Stop()] belong to backend.go; the calls
    are recorded. *)
Definition Backend_Start (bl : loc) : M unit := emit (EvBackendStart bl).
Definition Backend_Stop (bl : loc) : M unit := emit (EvBackendStop bl).

(** The [for i, b := range s.Backends] loop of [add]: replace the first
    backend of the same name. *)
Fixpoint add_replace (sl : loc) (s : Service) (bl : loc) (name : string)
    (i : nat) (rest : list loc) : M bool :=
  match rest with
  | [] => ret false
  | l :: rest' =>
      b <~ deref_backend l ;;
      if decide (Name b = name) then
        Backend_Stop l ;;;
        store_service sl (set_Backends (<[i := bl]> (s_Backends s)) s) ;;;
        Backend_Start bl ;;;
        ret true
      else add_replace sl s bl name (S i) rest'
  end.

Definition Service_add (sl : loc) (bl : loc) : M unit :=
  s <~ deref_service sl ;;
  backend <~ deref_backend bl ;;
  log Info "Adding TCP backend %s for %s at %s"
    [AStr (Addr backend); AStr (s_Name s); AStr (s_Addr s)] ;;;
  let backend' :=
    mkBackend (Name backend) (Addr backend) (CheckAddr backend)
      (Sent backend) (Rcvd backend) (Errors backend) (Conns backend)
      (Active backend) (HTTPActive backend)
      true (s_ServerTimeout s) (s_DialTimeout s)
      (Int64.mul (s_CheckInterval s) Millisecond) in
  store_backend bl backend' ;;;
  replaced <~ add_replace sl s bl (Name backend') 0 (s_Backends s) ;;
  if (replaced : bool) then ret tt
  else
    store_service sl (set_Backends (s_Backends s ++ [bl]) s) ;;;
    Backend_Start bl.

(** The inner loop of [Update]: [e.pages[code] = page]. *)
Definition index_codes (pl : loc) (codes : list Z) (idx : gmap Z loc)
  : gmap Z loc :=
  foldl (fun m code => <[code := pl]> m) idx codes.

Fixpoint Update_loop (cfg : list (string * list Z)) (idx : gmap Z loc)
  : M (gmap Z loc) :=
  match cfg with
  | [] => ret idx
  | (location, codes) :: cfg' =>
      pl <~ alloc_page (mkErrorPage location codes None None) ;;
      emit (EvGo (FetchPage pl)) ;;;
      Update_loop cfg' (index_codes pl codes idx)
  end.

(** [e.Update(pages)]: replaces all existing pages. *)
Definition ErrorResponse_Update (e : ErrorResponse)
    (cfg : list (string * list Z)) : M ErrorResponse :=
  idx <~ Update_loop cfg ∅ ;;
  ret (mkErrorResponse idx).

Definition NewErrorResponse (cfg : option (list (string * list Z)))
  : M ErrorResponse :=
  let errors := mkErrorResponse ∅ in
  match cfg with
  | Some pages => ErrorResponse_Update errors pages
  | None => ret errors
  end.

Fixpoint add_all (sl : loc) (cfgs : list BackendConfig) : M unit :=
  match cfgs with
  | [] => ret tt
  | b :: cfgs' =>
      bl <~ NewBackend b ;;
      Service_add sl bl ;;;
      add_all sl cfgs'
  end.

Definition NewService (cfg : ServiceConfig) : M loc :=
  ep <~ NewErrorResponse (sc_ErrorPages cfg) ;;
  let s0 :=
    mkService (sc_Name cfg) (sc_Addr cfg) (sc_VirtualHosts cfg) [] ""
      (sc_CheckInterval cfg) (sc_Fall cfg) (sc_Rise cfg)
      (Int64.mul (sc_ClientTimeout cfg) Millisecond)
      (Int64.mul (sc_ServerTimeout cfg) Millisecond)
      (Int64.mul (sc_DialTimeout cfg) Millisecond)
      0 0 0 None None None ep (sc_ErrorPages cfg) None in
  let s1 :=
    set_dialer (Some (mkDialer (s_DialTimeout s0) (30 * Second))) s0 in
  let s2 :=
    set_httpProxy
      (Some (mkReverseProxy 10 Second [cb_sslRedirect]
               [cb_logProxyRequest; cb_errStats; cb_CheckResponse])) s1 in
  let s3 :=
    if decide (s_CheckInterval s2 = 0) then set_CheckInterval 2000 s2
    else s2 in
  let s4 := if decide (s_Rise s3 = 0) then set_Rise 2 s3 else s3 in
  let s5 := if decide (s_Fall s4 = 0) then set_Fall 2 s4 else s4 in
  sl <~ alloc_service s5 ;;
  add_all sl (sc_Backends cfg) ;;;
  s <~ deref_service sl ;;
  (if decide (sc_Balance cfg = "RR" \/ sc_Balance cfg = "") then
     store_service sl (set_next (Some roundRobin) s)
   else if decide (sc_Balance cfg = "LC") then
     store_service sl (set_next (Some leastConn) s)
   else
     log Info "invalid balancing algorithm '%s'" [AStr (sc_Balance cfg)]) ;;;
  ret sl.

(** ** The service at run time: [start], [stop], [Dial], [connect] *)

Definition newTimeoutListener (addr : string) (timeout : Z)
  : M (option Listener * option string) :=
  r <~ net_Listen addr ;;
  match r with
  | inr err => ret (None, Some err)
  | inl l => ret (Some (mkListener l timeout), None)
  end.

(** [s.run()] starts the accept loop in a goroutine. *)
Definition Service_run (sl : loc) : M unit := emit (EvGo (AcceptLoop sl)).

(** [s.start()].  The assignment [s.listener, err = newTimeoutListener(..)]
    stores the listener before the error is looked at; a nil slice and an
    empty one are both [[]], so [make([]*Backend, 0)] changes nothing. *)
Definition Service_start (sl : loc) : M (option string) :=
  s <~ deref_service sl ;;
  log Info "Starting TCP listener for %s on %s"
    [AStr (s_Name s); AStr (s_Addr s)] ;;;
  r <~ newTimeoutListener (s_Addr s) (s_ClientTimeout s) ;;
  store_service sl (set_listener r.1 s) ;;;
  match r.2 with
  | Some err => ret (Some err)
  | None => Service_run sl ;;; ret None
  end.

Fixpoint stop_backends (bs : list loc) : M unit :=
  match bs with
  | [] => ret tt
  | bl :: bs' => Backend_Stop bl ;;; stop_backends bs'
  end.

(** [s.stop()]. *)
Definition Service_stop (sl : loc) : M unit :=
  s <~ deref_service sl ;;
  log Info "Stopping TCP listener for %s on %s"
    [AStr (s_Name s); AStr (s_Addr s)] ;;;
  stop_backends (s_Backends s) ;;;
  match listener s with
  | None => ret tt
  | Some l =>
      err <~ Listener_Close l ;;
      match err with
      | Some e => log Info "%s" [AStr e]
      | None => ret tt
      end
  end.

(** [s.next()]: calling the nil func value panics; otherwise the installed
    balancer (balance code is in another file) answers. *)
Definition call_next (s : Service) : M (list loc) :=
  match next s with
  | None => panic "invalid memory address or nil pointer dereference"
  | Some _ =>
      fun st =>
        match env_next st with
        | [] => (Ok [], st)
        | r :: rest => (Ok r, set_env_next rest st)
        end
  end.

(** The error type that marks a dial-phase failure. *)
Record DialError := mkDialError { de_error : string }.

(** Modelled from the spec: the connection wrapper built by [NewConn]
    (conn.go is not among the sources): it "wraps a TCP connection with a
    read/write timeout" and holds pointers to the counters it updates. *)
Record shuttleConn := NewConn {
  conn_TCPConn : nat;
  conn_rwTimeout : Z;
  conn_sent : CounterRef;
  conn_rcvd : CounterRef;
  conn_active : option CounterRef;
}.

(** The search loop of [Dial]: the first backend whose [Addr] is [addr]. *)
Fixpoint find_backend (addr : string) (bs : list loc) : M (option loc) :=
  match bs with
  | [] => ret None
  | bl :: bs' =>
      b <~ deref_backend bl ;;
      if decide (Addr b = addr) then ret (Some bl) else find_backend addr bs'
  end.

(** [s.Dial(nw, addr)]. *)
Definition Service_Dial (sl : loc) (nw addr : string)
  : M (shuttleConn + DialError) :=
  s <~ deref_service sl ;;
  found <~ find_backend addr (s_Backends s) ;;
  match found with
  | None => ret (inr (mkDialError ("no backend matching " +:+ addr)))
  | Some bl =>
      backend <~ deref_backend bl ;;
      r <~ Dialer_Dial (dialer s) "tcp" (Addr backend) ;;
      match r with
      | inr err =>
          log Error "ERROR: connecting to backend %s/%s: %s"
            [AStr (s_Name s); AStr (Name backend); AStr err] ;;;
          atomic_AddInt64 (bl, cErrors) 1 ;;;
          ret (inr (mkDialError err))
      | inl srvConn =>
          let conn :=
            NewConn srvConn (s_ServerTimeout s) (bl, cSent) (bl, cRcvd)
              (Some (bl, cHTTPActive)) in
          atomic_AddInt64 (bl, cConns) 1 ;;;
          atomic_AddInt64 (bl, cHTTPActive) 1 ;;;
          ret (inl conn)
      end
  end.

(** [b.Proxy(srvConn, cliConn)] belongs to backend.go; [cliConn.Close()]
    to the net package.  Both calls are recorded. *)
Definition Backend_Proxy (bl : loc) (srvConn cliConn : nat) : M unit :=
  emit (EvProxy bl srvConn cliConn).
Definition Conn_Close (cliConn : nat) : M unit := emit (EvClose cliConn).

(** The [for _, b := range backends] loop of [connect] and what follows it. *)
Fixpoint connect_loop (s : Service) (cliConn : nat) (bs : list loc)
  : M unit :=
  match bs with
  | [] =>
      log Error "ERROR: no backend for %s" [AStr (s_Name s)] ;;;
      Conn_Close cliConn
  | bl :: bs' =>
      b <~ deref_backend bl ;;
      r <~ Dialer_Dial (dialer s) "tcp" (Addr b) ;;
      match r with
      | inr err =>
          log Error "ERROR: connecting to backend %s/%s: %s"
            [AStr (s_Name s); AStr (Name b); AStr err] ;;;
          atomic_AddInt64 (bl, cErrors) 1 ;;;
          connect_loop s cliConn bs'
      | inl srvConn => Backend_Proxy bl srvConn cliConn
      end
  end.

(** [s.connect(cliConn)]. *)
Definition Service_connect (sl : loc) (cliConn : nat) : M unit :=
  s <~ deref_service sl ;;
  backends <~ call_next s ;;
  connect_loop s cliConn backends.

(** ** The error-page cache: [fetch], [Get], [CheckResponse] *)

(** List of headers we want to cache for ErrorPages. *)
Definition ErrorHeaders : list string :=
  ["Content-Type"; "Content-Encoding"; "Cache-Control"; "Last-Modified";
   "Retry-After"; "Set-Cookie"].

(** The first loop of [fetch]: a status that matches one of the page's
    registered codes becomes [http.StatusOK]. *)
Fixpoint effective_status (status : Z) (codes : list Z) : Z :=
  match codes with
  | [] => status
  | code :: codes' =>
      if decide (status = code) then 200 else effective_status status codes'
  end.

(** The second loop of [fetch]: copy the headers named in [keys]. *)
Fixpoint capture_headers (keys : list string) (src acc : Header) : Header :=
  match keys with
  | [] => acc
  | key :: keys' =>
      match src !! key with
      | Some hdr => capture_headers keys' src (<[key := hdr]> acc)
      | None => capture_headers keys' src acc
      end
  end.

(** [page.SetHeader(h)] and [page.SetBody(b)]. *)
Definition ErrorPage_SetHeader (pl : loc) (h : Header) : M unit :=
  p <~ deref_page pl ;;
  store_page pl (mkErrorPage (Location p) (StatusCodes p) (body p) (Some h)).

Definition ErrorPage_SetBody (pl : loc) (b : string) : M unit :=
  p <~ deref_page pl ;;
  store_page pl (mkErrorPage (Location p) (StatusCodes p) (Some b) (header p)).

(** [e.fetch(page)]. *)
Definition fetch (pl : loc) : M unit :=
  page <~ deref_page pl ;;
  log Debug "Fetching error page from %s" [AStr (Location page)] ;;;
  r <~ client_Get (Location page) ;;
  match r with
  | inr err =>
      log Warn "Could not fetch %s: %s" [AStr (Location page); AStr err]
  | inl resp =>
      let status := effective_status (StatusCode resp) (StatusCodes page) in
      if decide (status ≠ 200) then
        log Warn "Server returned %d when fetching %s"
          [AInt status; AStr (Location page)]
      else
        let header := capture_headers ErrorHeaders (resp_Header resp) ∅ in
        match resp_Body resp with
        | inr err =>
            log Warn "Error reading response from %s: %s"
              [AStr (Location page); AStr err]
        | inl body =>
            if decide (0 < String.length body)%nat then
              ErrorPage_SetHeader pl header ;;;
              ErrorPage_SetBody pl body
            else
              log Warn "Empty response from %s" [AStr (Location page)]
        end
  end.

(** [e.Get(code)]. *)
Definition ErrorResponse_Get (e : ErrorResponse) (code : Z)
  : M (option loc) :=
  match pages e !! code with
  | None => ret None
  | Some pl =>
      page <~ deref_page pl ;;
      match body page with
      | Some _ => ret (Some pl)
      | None => fetch pl ;;; ret (Some pl)
      end
  end.

(** [range] over a header map that may be nil. *)
Definition header_entries (h : option Header) : Header := default ∅ h.

(** [e.CheckResponse(pr)].  Copying [header[key] = val] for every entry of
    the page's header is the union that prefers the page's entries;
    [Write] of a nil slice writes no bytes. *)
Definition CheckResponse (e : ErrorResponse) (pr : ProxyRequest)
  : M (bool * ProxyRequest) :=
  match pr_Response pr with
  | None => panic "nil pointer dereference"
  | Some resp =>
      errPage <~ ErrorResponse_Get e (StatusCode resp) ;;
      match errPage with
      | Some pl =>
          p <~ deref_page pl ;;
          let w := pr_ResponseWriter pr in
          let w1 :=
            mkResponseWriter (header_entries (header p) ∪ rw_header w)
              (rw_status w) (rw_body w) in
          let w2 := WriteHeader (StatusCode resp) w1 in
          p' <~ deref_page pl ;;
          let w3 := Write (default "" (body p')) w2 in
          ret (false, set_ResponseWriter w3 pr)
      | None => ret (true, pr)
      end
  end.

(** [s.errStats(pr)]. *)
Definition Service_errStats (sl : loc) (pr : ProxyRequest)
  : M (bool * ProxyRequest) :=
  match pr_ProxyError pr with
  | Some _ =>
      s <~ deref_service sl ;;
      store_service sl
        (mkService (s_Name s) (s_Addr s) (s_VirtualHosts s) (s_Backends s)
           (s_Balance s) (s_CheckInterval s) (s_Fall s) (s_Rise s)
           (s_ClientTimeout s) (s_ServerTimeout s) (s_DialTimeout s)
           (s_HTTPConns s) (Int64.add (s_HTTPErrors s) 1) (s_HTTPActive s)
           (next s) (listener s) (httpProxy s) (errorPages s)
           (errPagesCfg s) (dialer s)) ;;;
      ret (true, pr)
  | None => ret (true, pr)
  end.

(** [logProxyRequest(pr)]: one access-log line; it reads
    [pr.Response.StatusCode] without a nil check.  Of the logged values the
    line keeps those the request and response records carry. *)
Definition logProxyRequest (pr : ProxyRequest) : M (bool * ProxyRequest) :=
  match pr_Response pr with
  | None => panic "nil pointer dereference"
  | Some resp =>
      log Info
        "id=%s method=%s clientIp=%s url=%s backend=%s status=%d duration=%s agent=%s, err=%s"
        [AStr (default "" (head (default [] (req_Header (pr_Request pr)
                                               !! "X-Request-Id"))));
         AStr (Host (pr_Request pr) +:+ RequestURI (pr_Request pr));
         AInt (StatusCode resp);
         AStr (default "<nil>" (pr_ProxyError pr))] ;;;
      ret (true, pr)
  end.

(** Modelled from the spec: steps 3 and 4 of the reverse-proxy pipeline
    (reverseproxy.go is not among the sources): "run OnResponse callbacks in
    order; any returning false terminates (callback owns the body write).
    Otherwise stream the response: copy headers (strip hop-by-hop), write
    status, and copy the body". *)
Definition hopHeaders : list string :=
  ["Connection"; "Keep-Alive"; "Proxy-Authenticate"; "Proxy-Authorization";
   "Te"; "Trailers"; "Transfer-Encoding"; "Upgrade"].

Definition run_callback (sl : loc) (e : ErrorResponse) (cb : ProxyCallback)
    (pr : ProxyRequest) : M (bool * ProxyRequest) :=
  match cb with
  | cb_sslRedirect => ret (true, pr)
  | cb_logProxyRequest => logProxyRequest pr
  | cb_errStats => Service_errStats sl pr
  | cb_CheckResponse => CheckResponse e pr
  end.

Fixpoint run_callbacks (sl : loc) (e : ErrorResponse)
    (cbs : list ProxyCallback) (pr : ProxyRequest)
  : M (bool * ProxyRequest) :=
  match cbs with
  | [] => ret (true, pr)
  | cb :: cbs' =>
      r <~ run_callback sl e cb pr ;;
      if r.1 then run_callbacks sl e cbs' r.2 else ret r
  end.

Definition stream_response (pr : ProxyRequest) : M ProxyRequest :=
  match pr_Response pr with
  | None => panic "nil pointer dereference"
  | Some resp =>
      let w := pr_ResponseWriter pr in
      let w1 :=
        mkResponseWriter
          (foldr delete (resp_Header resp) hopHeaders ∪ rw_header w)
          (rw_status w) (rw_body w) in
      let w2 := WriteHeader (StatusCode resp) w1 in
      let w3 :=
        match resp_Body resp with
        | inl b => Write b w2
        | inr _ => w2
        end in
      ret (set_ResponseWriter w3 pr)
  end.

Definition respond (sl : loc) (pr : ProxyRequest) : M ProxyRequest :=
  s <~ deref_service sl ;;
  match httpProxy s with
  | None => panic "nil pointer dereference"
  | Some proxy =>
      r <~ run_callbacks sl (errorPages s) (OnResponse proxy) pr ;;
      if r.1 then stream_response r.2 else ret r.2
  end.

(** ** Strings: the functions of [strings] and [net] that the code calls *)

(** [bytealg.IndexByteString]: index of the first [c], if any. *)
Fixpoint IndexByte (c : ascii) (s : string) : option nat :=
  match s with
  | EmptyString => None
  | String a s' =>
      if Ascii.eqb a c then Some 0%nat else S <$> IndexByte c s'
  end.

(** Index of the last [c], if any. *)
Fixpoint LastIndexByte (c : ascii) (s : string) : option nat :=
  match s with
  | EmptyString => None
  | String a s' =>
      match LastIndexByte c s' with
      | Some i => Some (S i)
      | None => if Ascii.eqb a c then Some 0%nat else None
      end
  end.

(** [s[i:]] and [s[:i]]. *)
Fixpoint slice_from (i : nat) (s : string) : string :=
  match i, s with
  | O, _ => s
  | S i', String _ s' => slice_from i' s'
  | S _, EmptyString => EmptyString
  end.

Fixpoint slice_to (i : nat) (s : string) : string :=
  match i, s with
  | O, _ => EmptyString
  | S i', String a s' => String a (slice_to i' s')
  | S _, EmptyString => EmptyString
  end.

(** [strings.Index(s, sep)]: -1 when [sep] does not occur. *)
Definition strings_Index (s sep : string) : Z :=
  match String.index 0 sep s with
  | Some n => Z.of_nat n
  | None => -1
  end.

(** [strings.Contains(s, ":")]. *)
Definition contains_colon (s : string) : bool :=
  bool_decide (is_Some (IndexByte ":" s)).

(** [strings.HasSuffix(s, suffix)]. *)
Definition strings_HasSuffix (s suffix : string) : bool :=
  bool_decide (String.length suffix <= String.length s)%nat
  && bool_decide
       (slice_from (String.length s - String.length suffix) s = suffix).

(** [net.SplitHostPort(hostport)]: host, port and the error, if any; on
    error both strings are empty. *)
Definition SplitHostPort (hostport : string)
  : string * string * option string :=
  let addrErr (why : string) := ("", "", Some why) in
  match LastIndexByte ":" hostport with
  | None => addrErr "missing port in address"
  | Some i =>
      let bracketed :=
        if decide (String.get 0 hostport = Some "["%char) then
          match IndexByte "]" hostport with
          | None => inr "missing ']' in address"
          | Some e =>
              if decide (S e = String.length hostport) then
                inr "missing port in address"
              else if decide (S e = i) then
                inl (slice_from 1 (slice_to e hostport), 1%nat, S e)
              else if decide (String.get (S e) hostport = Some ":"%char)
              then inr "too many colons in address"
              else inr "missing port in address"
          end
        else
          let host := slice_to i hostport in
          if decide (is_Some (IndexByte ":" host)) then
            inr "too many colons in address"
          else inl (host, 0%nat, 0%nat) in
      match bracketed with
      | inr why => addrErr why
      | inl (host, j, k) =>
          if decide (is_Some (IndexByte "[" (slice_from j hostport))) then
            addrErr "unexpected '[' in address"
          else if decide (is_Some (IndexByte "]" (slice_from k hostport)))
          then addrErr "unexpected ']' in address"
          else (host, slice_from (S i) hostport, None)
      end
  end.

(** [h.Set(key, value)] for a key already in canonical form. *)
Definition Header_Set (key value : string) (h : Header) : Header :=
  <[key := [value]]> h.

(** [http.Error(w, msg, code)]. *)
Definition http_Error (msg : string) (code : Z) (w : ResponseWriter)
  : ResponseWriter :=
  let w1 :=
    mkResponseWriter
      (Header_Set "Content-Type" "text/plain; charset=utf-8" (rw_header w))
      (rw_status w) (rw_body w) in
  Write (msg +:+ String "010" "") (WriteHeader code w1).

(** ** Statistics *)

(** [ServiceStat]: what identifies the service, its backends and the totals
    over them. *)
Record ServiceStat := mkServiceStat {
  st_Name : string;
  st_Addr : string;
  st_VirtualHosts : list string;
  st_Backends : list Backend;
  st_Sent : Z;
  st_Rcvd : Z;
  st_Errors : Z;
  st_Conns : Z;
  st_Active : Z;
}.

(** The [for _, b := range s.Backends] loop of [Stats]; [b.Stats()] is a
    snapshot of the backend. *)
Fixpoint Stats_loop (bs : list loc) (acc : ServiceStat) : M ServiceStat :=
  match bs with
  | [] => ret acc
  | bl :: bs' =>
      b <~ deref_backend bl ;;
      Stats_loop bs'
        (mkServiceStat (st_Name acc) (st_Addr acc) (st_VirtualHosts acc)
           (st_Backends acc ++ [b])
           (Int64.add (st_Sent acc) (Sent b))
           (Int64.add (st_Rcvd acc) (Rcvd b))
           (Int64.add (st_Errors acc) (Errors b))
           (Int64.add (st_Conns acc) (Conns b))
           (Int64.add (st_Active acc) (Active b)))
  end.

(** [s.Stats()]. *)
Definition Service_Stats (sl : loc) : M ServiceStat :=
  s <~ deref_service sl ;;
  Stats_loop (s_Backends s)
    (mkServiceStat (s_Name s) (s_Addr s) (s_VirtualHosts s) [] 0 0 0 0 0).

(** Modelled from the spec: the registry's accessors (registry.go is not
    among the sources): "[GetService(name)] — O(1) lookup",
    "[GetVHostService(host)] — O(1) lookup by exact hostname (no wildcards,
    no port)", "[Stats()] — snapshot accessors returning value-typed
    arrays"; [VHostsLen] counts the registered virtual hosts. *)
Definition Registry_GetService (name : string) : M (option loc) :=
  gets (fun st => svcs (Registry st) !! name).





(** ** The host router and the admin write path *)

Section Handlers.

(** The process-wide listen addresses, set from the command line. *)
Variable listenAddr adminListenAddr : string.

(** The JSON codec, and the registry's mutators (registry.go). *)
Variable json_Marshal : Backend -> string.
Variable json_Unmarshal : string -> ServiceConfig -> ServiceConfig + string.
Variable marshal_Config : M string.
Variable Registry_AddService : ServiceConfig -> M (option string).
Variable Registry_UpdateService : ServiceConfig -> M (option string).

(** [p.ServeHTTP(w, r, addrs)] of the reverse proxy (reverseproxy.go), for
    the proxy [p] of the service at the given pointer: it dials through the
    service and runs the callbacks bound to it, so it may change the store,
    and it writes the response. *)
Variable ReverseProxy_ServeHTTP :
  loc -> ReverseProxy -> ResponseWriter -> Request -> list string ->
  M ResponseWriter.

(** [s.NextAddrs()]. *)
Fixpoint addrs_of (bs : list loc) : M (list string) :=
  match bs with
  | [] => ret []
  | bl :: bs' =>
      b <~ deref_backend bl ;;
      rest <~ addrs_of bs' ;;
      ret (Addr b :: rest)
  end.

Definition Service_NextAddrs (sl : loc) : M (list string) :=
  s <~ deref_service sl ;;
  backends <~ call_next s ;;
  addrs_of backends.

(** [atomic.AddInt64(&s.HTTPConns, delta)] and
    [atomic.AddInt64(&s.HTTPActive, delta)]. *)
Definition add_HTTPConns (sl : loc) (delta : Z) : M unit :=
  s <~ deref_service sl ;;
  store_service sl
    (set_HTTP (Int64.add (s_HTTPConns s) delta) (s_HTTPActive s) s).

Definition add_HTTPActive (sl : loc) (delta : Z) : M unit :=
  s <~ deref_service sl ;;
  store_service sl
    (set_HTTP (s_HTTPConns s) (Int64.add (s_HTTPActive s) delta) s).

(** [defer f()] in front of [body]: [f] runs when the body returns, and
    also when it panics; the panic then goes on. *)
Definition deferred {A} (f : M unit) (body : M A) : M A :=
  fun st =>
    match body st with
    | (Ok a, st1) =>
        match f st1 with
        | (Ok _, st2) => (Ok a, st2)
        | (Panic msg, st2) => (Panic msg, st2)
        end
    | (Panic msg, st1) => (Panic msg, (f st1).2)
    end.

(** [s.ServeHTTP(w, r)].  The argument [s.NextAddrs()] is evaluated before
    the proxy is entered; a nil proxy is dereferenced inside the call. *)
Definition Service_ServeHTTP (sl : loc) (w : ResponseWriter) (r : Request)
  : M ResponseWriter :=
  add_HTTPConns sl 1 ;;;
  add_HTTPActive sl 1 ;;;
  deferred (add_HTTPActive sl (-1))
    (addrs <~ Service_NextAddrs sl ;;
     s <~ deref_service sl ;;
     match httpProxy s with
     | None => panic "nil pointer dereference"
     | Some p => ReverseProxy_ServeHTTP sl p w r addrs
     end).





(** The host that [ServeHTTP] looks up. *)
Definition lookup_host (host : string) : M string :=
  if contains_colon host then
    let r := SplitHostPort host in
    match r.2 with
    | Some err => log Warn "%s" [AStr err] ;;; ret r.1.1
    | None => ret r.1.1
    end
  else ret host.


(** The ports a service listener may not use. *)
Definition invalidPorts : list string :=
  [slice_from (Z.to_nat (strings_Index listenAddr ":" + 1)) listenAddr;
   slice_from (Z.to_nat (strings_Index adminListenAddr ":" + 1))
     adminListenAddr].

(** The [for _, port := range invalidPorts] loop of [postService]. *)
Fixpoint colliding_port (addr : string) (ports : list string)
  : option string :=
  match ports with
  | [] => None
  | port :: ports' =>
      if strings_HasSuffix addr port then Some port
      else colliding_port addr ports'
  end.

(** [postService(w, r)]: [service] is [mux.Vars(r)["service"]] and [rbody]
    what [ioutil.ReadAll(r.Body)] returns. *)
Definition postService (w : ResponseWriter) (service : string)
    (rbody : string + string) : M ResponseWriter :=
  match rbody with
  | inr err =>
      log Error "%s" [AStr err] ;;;
      ret (http_Error err 500 w)
  | inl body =>
      let svcCfg0 :=
        mkServiceConfig service "" [] [] "" 0 0 0 0 0 0 None in
      match json_Unmarshal body svcCfg0 with
      | inr err =>
          log Error "%s" [AStr err] ;;;
          ret (http_Error err 500 w)
      | inl svcCfg =>
          match colliding_port (sc_Addr svcCfg) invalidPorts with
          | Some port =>
              log Error
                "Cannot use shuttle port: %s for %s service listener. Shuttle is using it."
                [AStr port; AStr (sc_Name svcCfg)] ;;;
              ret (http_Error
                     ("cannot use " +:+ port +:+ " for listener port") 400 w)
          | None =>
              existing <~ Registry_GetService (sc_Name svcCfg) ;;
              match existing with
              | None =>
                  e <~ Registry_AddService svcCfg ;;
                  match e with
                  | Some msg =>
                      log Error "%v" [AStr "<nil>"] ;;;
                      ret (http_Error msg 500 w)
                  | None =>
                      emit (EvGo WriteStateConfig) ;;;
                      js <~ marshal_Config ;;
                      ret (Write js w)
                  end
              | Some _ =>
                  e <~ Registry_UpdateService svcCfg ;;
                  match e with
                  | Some msg =>
                      log Error "Unable to update service %s %v"
                        [AStr (sc_Name svcCfg)] ;;;
                      ret (http_Error msg 500 w)
                  | None =>
                      emit (EvGo WriteStateConfig) ;;;
                      js <~ marshal_Config ;;
                      ret (Write js w)
                  end
              end
          end
      end
  end.

End Handlers.

(** ** Reasoning about calls *)

(** [wp m Q st]: from [st] the call [m] returns, without panicking, a value
    and a state that satisfy [Q]. *)
Definition wp {A} (m : M A) (Q : A -> State -> Prop) (st : State) : Prop :=
  match m st with
  | (Ok a, st') => Q a st'
  | (Panic _, _) => False
  end.

(** Every pointer of [bs] points to a backend of the store. *)
Definition allocated (st : State) (bs : list loc) : Prop :=
  Forall (fun l => is_Some (backends st !! l)) bs.

(** What [NewService] does with the balance string, and with a zero. *)
Definition selector_of (balance : string) : option Selector :=
  if decide (balance = "RR" \/ balance = "") then Some roundRobin
  else if decide (balance = "LC") then Some leastConn
  else None.

Definition default_to (d v : Z) : Z := if decide (v = 0) then d else v.

(** ** Stores and traces that the theorems speak of *)

(** The store after [atomic.AddInt64(&b.c, 1)] on the backend at [l]. *)
Definition bump (c : Counter) (l : loc) (m : gmap loc Backend)
  : gmap loc Backend :=
  match m !! l with
  | Some b => <[l := counter_set c (Int64.add (counter_get c b) 1) b]> m
  | None => m
  end.

(** What a run of failed dials leaves in the trace: for each backend of
    [ls], in order, the dial and the error line. *)
Fixpoint failed_attempts (s : Service) (d : Dialer) (m : gmap loc Backend)
    (ls : list loc) (errs : list string) : list Event :=
  match ls, errs with
  | l :: ls', err :: errs' =>
      match m !! l with
      | Some b =>
          EvDial "tcp" (Addr b) d
          :: EvLog Error "ERROR: connecting to backend %s/%s: %s"
               [AStr (s_Name s); AStr (Name b); AStr err]
          :: failed_attempts s d m ls' errs'
      | None => []
      end
  | _, _ => []
  end.

(** The state after the backends [pre] were dialed in vain, the network
    answering with the errors [errs] and holding [rest] after that. *)
Definition after_failures (s : Service) (d : Dialer) (pre : list loc)
    (errs : list string) (rest : list (nat + string)) (st : State) : State :=
  set_trace (trace st ++ failed_attempts s d (backends st) pre errs)
    (set_env_dial rest
       (set_backends (foldl (fun m l => bump cErrors l m) (backends st) pre)
          st)).

(** ** Example inputs *)

(** A configuration whose balance string is not one of the known ones. *)
Definition cfg_unknown_balance : ServiceConfig :=
  mkServiceConfig "web" "127.0.0.1:4000" []
    [mkBackendConfig "a" "10.0.0.1:80" ""] "XX" 0 0 0 0 0 0 None.


(** The service of the round-robin fail-over scenario: "web" with backends
    A (dead), B and C. *)
Definition backend_at (name addr : string) : Backend :=
  mkBackend name addr "" 0 0 0 0 0 0 true 0 (2 * Second) (2 * Second).

Definition svc_web : Service :=
  mkService "web" "127.0.0.1:0" [] [0; 1; 2]%nat "" 2000 2 2 0 0
    (2 * Second) 0 0 0 (Some roundRobin) None
    (Some (mkReverseProxy 10 Second [cb_sslRedirect]
             [cb_logProxyRequest; cb_errStats; cb_CheckResponse]))
    (mkErrorResponse ∅) None
    (Some (mkDialer (2 * Second) (30 * Second))).

Definition st_web : State :=
  mkState
    (<[0%nat := svc_web]> ∅)
    (<[0%nat := backend_at "A" "10.0.0.1:80"]>
       (<[1%nat := backend_at "B" "10.0.0.2:80"]>
          (<[2%nat := backend_at "C" "10.0.0.3:80"]> ∅)))
    ∅ (mkServiceRegistry ∅ ∅)
    [[0; 1; 2]%nat] [inr "connection refused"; inl 7%nat] [] [] [] [] [].

(** The error-page scenario: one page for 503 and 504, not fetched yet; the
    origin answers 503 with an empty body. *)
Definition page_503 : ErrorPage :=
  mkErrorPage "http://pages/503.html" [503; 504] None None.

Definition pages_503 : ErrorResponse :=
  mkErrorResponse (<[503 := 0%nat]> (<[504 := 0%nat]> ∅)).

Definition resp_empty_503 : Response :=
  mkResponse 503 (<["Content-Type" := ["text/html"]]> ∅) (inl "").

Definition st_pages (answers : list (Response + string)) : State :=
  mkState
    (<[0%nat :=
         mkService "web" "127.0.0.1:0" ["a.example"] [] "" 2000 2 2 0 0 0 0 0
           0 (Some roundRobin) None
           (Some (mkReverseProxy 10 Second [cb_sslRedirect]
                    [cb_logProxyRequest; cb_errStats; cb_CheckResponse]))
           pages_503 None (Some (mkDialer 0 (30 * Second)))]> ∅)
    ∅ (<[0%nat := page_503]> ∅) (mkServiceRegistry ∅ ∅)
    [] [] [] answers [] [] [].

(** An upstream answer 503 whose body is "upstream", on its way to the
    client. *)
Definition pr_upstream_503 : ProxyRequest :=
  mkProxyRequest (mkRequest "a.example" "/" ∅) new_ResponseWriter
    (Some (mkResponse 503 ∅ (inl "upstream"))) None.

(** ** Vocabulary of the error-page theorems *)

(** The state once [fetch] has announced itself and sent its request. *)
Definition fetch_started (p : ErrorPage) (st : State) : State :=
  set_trace
    (trace st ++
     [EvLog Debug "Fetching error page from %s" [AStr (Location p)];
      EvGet (Location p)]) st.

(** A host or port without colon or bracket. *)
Definition clean (s : string) : Prop :=
  IndexByte ":" s = None /\ IndexByte "[" s = None /\ IndexByte "]" s = None.



(** Every cached body is non-empty. *)
Definition bodies_nonempty (st : State) : Prop :=
  forall pl p b, errpages st !! pl = Some p -> body p = Some b -> b <> "".

(** C4 as it is worded, for a response whose body reads as [b]: after the
    fetch the page holds the allow-listed headers and the body. *)
Definition captured (resp : Response) (b : string) (p' : ErrorPage) : Prop :=
  header p' = Some (capture_headers ErrorHeaders (resp_Header resp) ∅) /\
  body p' = Some b.


(** A reverse proxy that records its call and answers "ok". *)
Definition serve_ok (sl : loc) (p : ReverseProxy) (w : ResponseWriter)
    (r : Request) (addrs : list string) : M ResponseWriter :=
  emit (EvProxyServeHTTP sl r addrs) ;;; ret (Write "ok" w).


(** Following the spec's words ("parses the Host header (strip [:port])"):
    the Host header without its ":port" suffix, a port being a run of
    digits after the last colon. *)
Definition is_digit (c : ascii) : bool :=
  (48 <=? nat_of_ascii c)%nat && (nat_of_ascii c <=? 57)%nat.

Fixpoint all_digits (s : string) : bool :=
  match s with
  | EmptyString => true
  | String c s' => is_digit c && all_digits s'
  end.

Definition spec_strip_port (hostport : string) : string :=
  match LastIndexByte ":" hostport with
  | Some i =>
      if all_digits (slice_from (S i) hostport) then slice_to i hostport
      else hostport
  | None => hostport
  end.


(** ** More of the service: [get], [remove], [Available], [Config] *)

(** [s.get(name)]: the first backend of that name, or nil. *)
Fixpoint get_loop (name : string) (bs : list loc) : M (option loc) :=
  match bs with
  | [] => ret None
  | bl :: bs' =>
      b <~ deref_backend bl ;;
      if decide (Name b = name) then ret (Some bl) else get_loop name bs'
  end.

Definition Service_get (sl : loc) (name : string) : M (option loc) :=
  s <~ deref_service sl ;;
  get_loop name (s_Backends s).

(** The [for i, b := range s.Backends] loop of [remove].  The assignment
    [s.Backends[i], s.Backends[last] = s.Backends[last], nil] followed by
    [s.Backends = s.Backends[:last]] puts the last backend at [i] and cuts
    the slice by one; the backend is stopped after that. *)
Fixpoint remove_loop (sl : loc) (s : Service) (name : string) (i : nat)
    (rest : list loc) : M bool :=
  match rest with
  | [] => ret false
  | bl :: rest' =>
      b <~ deref_backend bl ;;
      if decide (Name b = name) then
        log Info "Removing TCP backend %s for %s at %s"
          [AStr (Addr b); AStr (s_Name s); AStr (s_Addr s)] ;;;
        let last := (length (s_Backends s) - 1)%nat in
        match s_Backends s !! last with
        | None => panic "index out of range"
        | Some x =>
            store_service sl
              (set_Backends (take last (<[i := x]> (s_Backends s))) s) ;;;
            Backend_Stop bl ;;;
            ret true
        end
      else remove_loop sl s name (S i) rest'
  end.

(** [s.remove(name)]. *)
Definition Service_remove (sl : loc) (name : string) : M bool :=
  s <~ deref_service sl ;;
  remove_loop sl s name 0 (s_Backends s).

(** Modelled from the spec: [b.Up()] (backend.go is not among the sources)
    reads the backend's "state bits (up, ...)". *)
Definition Backend_Up (bl : loc) : M bool :=
  b <~ deref_backend bl ;;
  ret (up b).

(** The loop of [Available]. *)
Fixpoint Available_loop (bs : list loc) (available : Z) : M Z :=
  match bs with
  | [] => ret available
  | bl :: bs' =>
      u <~ Backend_Up bl ;;
      Available_loop bs' (if (u : bool) then Int64.add available 1
                          else available)
  end.

(** [s.Available()]. *)
Definition Service_Available (sl : loc) : M Z :=
  s <~ deref_service sl ;;
  Available_loop (s_Backends s) 0.

(** Modelled from the spec: [b.Config()] (backend.go is not among the
    sources) "return[s] snapshots": the name, address and check address the
    backend was made from. *)
Definition Backend_Config (bl : loc) : M BackendConfig :=
  b <~ deref_backend bl ;;
  ret (mkBackendConfig (Name b) (Addr b) (CheckAddr b)).

Fixpoint Config_loop (bs : list loc) (acc : list BackendConfig)
  : M (list BackendConfig) :=
  match bs with
  | [] => ret acc
  | bl :: bs' =>
      c <~ Backend_Config bl ;;
      Config_loop bs' (acc ++ [c])
  end.

(** [int(d / time.Millisecond)]: Go's division truncates towards zero. *)
Definition to_ms (d : Z) : Z := Z.quot d Millisecond.

(** [s.Config()]. *)
Definition Service_Config (sl : loc) : M ServiceConfig :=
  s <~ deref_service sl ;;
  backends <~ Config_loop (s_Backends s) [] ;;
  ret (mkServiceConfig (s_Name s) (s_Addr s) (s_VirtualHosts s) backends
         (s_Balance s) (s_CheckInterval s) (s_Fall s) (s_Rise s)
         (to_ms (s_ClientTimeout s)) (to_ms (s_ServerTimeout s))
         (to_ms (s_DialTimeout s)) (errPagesCfg s)).

(** ** Vocabulary of the backend-set theorems *)

(** The name of the backend that [l] points to. *)
Definition name_at (st : State) (l : loc) : option string :=
  Name <$> backends st !! l.

Definition names (st : State) (bs : list loc) : list (option string) :=
  name_at st <$> bs.

(** No backend of [bs] is called [name]. *)
Definition unnamed (st : State) (name : string) (bs : list loc) : Prop :=
  Forall (fun l => exists b, backends st !! l = Some b /\ Name b <> name) bs.

(** The backend as [add] leaves it: marked up, with the service's timeouts
    and check interval. *)
Definition added (s : Service) (b : Backend) : Backend :=
  mkBackend (Name b) (Addr b) (CheckAddr b) (Sent b) (Rcvd b) (Errors b)
    (Conns b) (Active b) (HTTPActive b) true (s_ServerTimeout s)
    (s_DialTimeout s) (Int64.mul (s_CheckInterval s) Millisecond).

(** The state in which [add] starts its search: the backend prepared and
    the first line logged. *)
Definition add_prepared (s : Service) (bl : loc) (b : Backend) (st : State)
  : State :=
  set_backends (<[bl := added s b]> (backends st))
    (set_trace
       (trace st ++
        [EvLog Info "Adding TCP backend %s for %s at %s"
           [AStr (Addr b); AStr (s_Name s); AStr (s_Addr s)]]) st).

(** The fail-over service with a fourth backend in the store, not yet in
    the service: another "B", or a new "D". *)
Definition st_web_with (name addr : string) : State :=
  set_backends (<[3%nat := backend_at name addr]> (backends st_web)) st_web.

(** Every backend of [bs] is marked up. *)
Definition all_up (st : State) (bs : list loc) : Prop :=
  Forall (fun l => exists b, backends st !! l = Some b /\ up b = true) bs.

(** The configuration a backend stands for: what [b.Config()] returns. *)
Definition config_of (b : Backend) : BackendConfig :=
  mkBackendConfig (Name b) (Addr b) (CheckAddr b).

Definition config_at (st : State) (l : loc) : option BackendConfig :=
  config_of <$> backends st !! l.

(** The backends of [bs] stand, in order, for the configurations [cs]. *)
Definition configs (st : State) (bs : list loc) (cs : list BackendConfig)
  : Prop :=
  Forall2 (fun l c => config_at st l = Some c) bs cs.

(** A list of configurations with one more entry, which takes the place of
    the first entry of the same name or else goes to the end. *)
Fixpoint upsert (c : BackendConfig) (cs : list BackendConfig)
  : list BackendConfig :=
  match cs with
  | [] => [c]
  | c' :: cs' =>
      if decide (bc_Name c' = bc_Name c) then c :: cs' else c' :: upsert c cs'
  end.

(** What a list of backend configurations amounts to when its entries are
    entered one after the other. *)
Definition configured (cfgs : list BackendConfig) : list BackendConfig :=
  foldl (fun acc c => upsert c acc) [] cfgs.

(** A configuration with every field set and distinct backend names, and one
    in which the name "a" comes twice. *)
Definition cfg_pair : ServiceConfig :=
  mkServiceConfig "web" "127.0.0.1:4000" ["www.example.com"]
    [mkBackendConfig "a" "10.0.0.1:80" "";
     mkBackendConfig "b" "10.0.0.2:80" ""]
    "" 2000 2 2 5000 5000 1000 None.

Definition cfg_twice : ServiceConfig :=
  mkServiceConfig "web" "127.0.0.1:4000" []
    [mkBackendConfig "a" "10.0.0.1:80" "";
     mkBackendConfig "b" "10.0.0.2:80" "";
     mkBackendConfig "a" "10.0.0.3:80" ""]
    "LC" 0 0 0 5000 5000 1000 None.

(** ** Vocabulary of the error-page index *)

(** The index once the pages [pls], one for each entry of [cfg], have been
    entered under the codes of their entries. *)
Fixpoint index_pages (pls : list loc) (cfg : list (string * list Z))
    (idx : gmap Z loc) : gmap Z loc :=
  match pls, cfg with
  | pl :: pls', (_, codes) :: cfg' =>
      index_pages pls' cfg' (index_codes pl codes idx)
  | _, _ => idx
  end.

(** The page that [Update] makes for an entry: nothing fetched yet. *)
Definition new_page (entry : string * list Z) : ErrorPage :=
  mkErrorPage entry.1 entry.2 None None.

(** The sum of a counter over a list of backend snapshots, not wrapped. *)
Definition counter_sum (f : Backend -> Z) (snap : list Backend) : Z :=
  foldr (fun b acc => f b + acc) 0 snap.
(** Projections of updated states, innermost update first. *)
Ltac st_goal :=
  cbv beta iota delta
    [set_trace set_services set_backends set_errpages set_Registry
     set_env_next set_env_dial set_env_listen set_env_get set_env_close
     set_env_ids];
  cbn [services backends errpages Registry env_next env_dial env_listen
       env_get env_close env_ids trace].

Ltac st_simpl :=
  cbv beta iota delta
    [set_trace set_services set_backends set_errpages set_Registry
     set_env_next set_env_dial set_env_listen set_env_get set_env_close
     set_env_ids] in *;
  cbn [services backends errpages Registry env_next env_dial env_listen
       env_get env_close env_ids trace] in *.

Lemma wp_ret {A} (a : A) Q st : Q a st -> wp (ret a) Q st.
Proof. done. Qed.

Lemma wp_bind {A B} (m : M A) (f : A -> M B) Q st :
  wp m (fun a st' => wp (f a) Q st') st -> wp (bind m f) Q st.
Proof. unfold wp, bind. destruct (m st) as [[a|msg] st']; done. Qed.

Lemma wp_mono {A} (m : M A) (P Q : A -> State -> Prop) st :
  wp m P st -> (forall a st', P a st' -> Q a st') -> wp m Q st.
Proof. unfold wp. destruct (m st) as [[a|msg] st']; auto. Qed.

Lemma wp_run {A} (m : M A) Q st :
  wp m Q st -> exists a st', m st = (Ok a, st') /\ Q a st'.
Proof. unfold wp. destruct (m st) as [[a|msg] st']; [eauto | done]. Qed.

Lemma wp_emit e Q st :
  Q tt (set_trace (trace st ++ [e]) st) -> wp (emit e) Q st.
Proof. done. Qed.

Lemma wp_deref_service sl s Q st :
  services st !! sl = Some s -> Q s st -> wp (deref_service sl) Q st.
Proof. unfold wp, deref_service. by intros ->. Qed.

Lemma wp_deref_backend bl Q st :
  is_Some (backends st !! bl) ->
  (forall b, backends st !! bl = Some b -> Q b st) ->
  wp (deref_backend bl) Q st.
Proof. unfold wp, deref_backend. intros [b Hb] H. rewrite Hb. auto. Qed.

Lemma wp_store_service sl s Q st :
  Q tt (set_services (<[sl := s]> (services st)) st) ->
  wp (store_service sl s) Q st.
Proof. done. Qed.

Lemma wp_store_backend bl b Q st :
  Q tt (set_backends (<[bl := b]> (backends st)) st) ->
  wp (store_backend bl b) Q st.
Proof. done. Qed.

(* add_replace *)
Lemma wp_add_replace sl s bl name rest : forall i st,
  allocated st rest ->
  wp (add_replace sl s bl name i rest)
    (fun r st' =>
       backends st' = backends st /\
       if r then
         exists j : nat,
           services st' =
             <[sl := set_Backends (<[j := bl]> (s_Backends s)) s]>
               (services st)
       else services st' = services st) st.
Proof.
  induction rest as [|l rest IH]; intros i st Hall; simpl.
  - apply wp_ret. done.
  - inversion Hall as [|?? Hl Hrest]; subst.
    apply wp_bind, wp_deref_backend; [done|]. intros b Hb.
    destruct (decide (Name b = name)).
    + repeat (apply wp_bind; first [apply wp_emit | apply wp_store_service]).
      apply wp_ret. simpl. eauto.
    + apply IH. done.
Qed.

Lemma wp_Service_add sl bl s st :
  services st !! sl = Some s ->
  is_Some (backends st !! bl) ->
  allocated st (s_Backends s) ->
  wp (Service_add sl bl)
    (fun _ st' =>
       (exists bs' : list loc,
           services st' = <[sl := set_Backends bs' s]> (services st) /\
           allocated st' bs') /\
       (forall l,
           is_Some (backends st !! l) -> is_Some (backends st' !! l))) st.
Proof.
  intros Hs Hbl Hall. unfold Service_add.
  apply wp_bind, (wp_deref_service _ s); [done|].
  apply wp_bind, wp_deref_backend; [done|]. intros b Hb.
  apply wp_bind, wp_emit. apply wp_bind, wp_store_backend.
  set (st1 := set_backends _ _).
  assert (Hmono : forall l,
    is_Some (backends st !! l) -> is_Some (backends st1 !! l)).
  { intros l Hl. subst st1; st_simpl. destruct (decide (bl = l)) as [->|].
    - rewrite lookup_insert_eq. eauto.
    - by rewrite lookup_insert_ne. }
  assert (Hall1 : allocated st1 (s_Backends s)).
  { eapply Forall_impl; [exact Hall|]. done. }
  apply wp_bind. eapply wp_mono; [apply wp_add_replace; exact Hall1|].
  intros r st2 [Hb2 Hr]. destruct r.
  - destruct Hr as [j Hj]. apply wp_ret. split.
    + exists (<[j := bl]> (s_Backends s)). split; [done|].
      unfold allocated. apply Forall_insert.
      * unfold allocated in Hall1. rewrite Hb2. exact Hall1.
      * rewrite Hb2. auto.
    + intros l Hl. rewrite Hb2. auto.
  - apply wp_bind, wp_store_service. apply wp_emit. st_simpl. split.
    + exists (s_Backends s ++ [bl])%list. rewrite Hr. split; [done|].
      unfold allocated. rewrite Hb2. apply Forall_app. split; [exact Hall1|].
      constructor; auto.
    + intros l Hl. rewrite Hb2. auto.
Qed.

Lemma wp_alloc_backend b Q st :
  (forall l, backends st !! l = None ->
     Q l (set_backends (<[l := b]> (backends st)) st)) ->
  wp (alloc_backend b) Q st.
Proof.
  intros H. unfold wp, alloc_backend. apply H.
  apply not_elem_of_dom, is_fresh.
Qed.

Lemma wp_alloc_service s Q st :
  (forall l, services st !! l = None ->
     Q l (set_services (<[l := s]> (services st)) st)) ->
  wp (alloc_service s) Q st.
Proof.
  intros H. unfold wp, alloc_service. apply H.
  apply not_elem_of_dom, is_fresh.
Qed.

Lemma wp_alloc_page p Q st :
  (forall l, errpages st !! l = None ->
     Q l (set_errpages (<[l := p]> (errpages st)) st)) ->
  wp (alloc_page p) Q st.
Proof.
  intros H. unfold wp, alloc_page. apply H.
  apply not_elem_of_dom, is_fresh.
Qed.

Lemma wp_add_all sl s0 cfgs : forall st bs,
  services st !! sl = Some (set_Backends bs s0) ->
  allocated st bs ->
  wp (add_all sl cfgs)
    (fun _ st' => exists bs' : list loc,
       services st' !! sl = Some (set_Backends bs' s0) /\ allocated st' bs')
    st.
Proof.
  induction cfgs as [|c cfgs IH]; intros st bs Hs Hall; simpl.
  - apply wp_ret. eauto.
  - apply wp_bind. unfold NewBackend. apply wp_alloc_backend. intros bl Hfresh.
    set (st1 := set_backends _ _).
    assert (Hmono : forall l, is_Some (backends st !! l) ->
                              is_Some (backends st1 !! l)).
    { intros l [b Hl]. subst st1; st_simpl.
      rewrite lookup_insert_ne; [eauto | congruence]. }
    apply wp_bind.
    eapply wp_mono.
    { apply (wp_Service_add sl bl (set_Backends bs s0)).
      - subst st1; st_simpl. exact Hs.
      - subst st1; st_simpl. rewrite lookup_insert_eq. eauto.
      - eapply Forall_impl; [exact Hall | exact Hmono]. }
    intros _ st2 [(bs' & Hs2 & Hall2) _]. simpl.
    apply (IH st2 bs'); [|done].
    rewrite Hs2, lookup_insert_eq. done.
Qed.

Lemma wp_Update_loop cfg : forall idx st,
  wp (Update_loop cfg idx)
    (fun _ st' => services st' = services st /\ backends st' = backends st) st.
Proof.
  induction cfg as [|[location codes] cfg IH]; intros idx st; simpl.
  - by apply wp_ret.
  - apply wp_bind, wp_alloc_page. intros pl _. apply wp_bind, wp_emit.
    eapply wp_mono; [apply IH|]. intros _ st' [H1 H2]. st_simpl. done.
Qed.

Lemma wp_NewErrorResponse cfg st :
  wp (NewErrorResponse cfg)
    (fun _ st' => services st' = services st /\ backends st' = backends st) st.
Proof.
  destruct cfg as [pages|]; simpl; [|by apply wp_ret].
  unfold ErrorResponse_Update. apply wp_bind.
  eapply wp_mono; [apply wp_Update_loop|]. intros idx st' H. by apply wp_ret.
Qed.

Lemma wp_NewService cfg st :
  wp (NewService cfg)
    (fun sl st' => exists s,
       services st' !! sl = Some s /\
       s_CheckInterval s = default_to 2000 (sc_CheckInterval cfg) /\
       s_Rise s = default_to 2 (sc_Rise cfg) /\
       s_Fall s = default_to 2 (sc_Fall cfg) /\
       next s = selector_of (sc_Balance cfg) /\
       listener s = None /\
       dialer s =
         Some (mkDialer (Int64.mul (sc_DialTimeout cfg) Millisecond)
                 (30 * Second)) /\
       s_DialTimeout s = Int64.mul (sc_DialTimeout cfg) Millisecond /\
       allocated st' (s_Backends s)) st.
Proof.
  unfold NewService. apply wp_bind.
  eapply wp_mono; [apply wp_NewErrorResponse|]. intros ep st1 _.
  set (s5 := if decide (s_Fall _ = 0) then _ else _).
  apply wp_bind, wp_alloc_service. intros sl Hfresh.
  apply wp_bind. eapply wp_mono.
  { apply (wp_add_all sl s5 _ _ []).
    - st_simpl. rewrite lookup_insert_eq. f_equal. subst s5.
      repeat case_decide; reflexivity.
    - constructor. }
  intros _ st2 (bs & Hs2 & Hall2).
  apply wp_bind, (wp_deref_service _ (set_Backends bs s5)); [done|].
  assert (Hfields :
    s_CheckInterval s5 = default_to 2000 (sc_CheckInterval cfg) /\
    s_Rise s5 = default_to 2 (sc_Rise cfg) /\
    s_Fall s5 = default_to 2 (sc_Fall cfg) /\
    next s5 = None /\ listener s5 = None /\
    dialer s5 = Some (mkDialer (Int64.mul (sc_DialTimeout cfg) Millisecond)
                        (30 * Second)) /\
    s_DialTimeout s5 = Int64.mul (sc_DialTimeout cfg) Millisecond).
  { subst s5. unfold default_to. cbn. repeat case_decide; cbn; done. }
  destruct Hfields as (H1 & H2 & H3 & H4 & H5 & H6 & H7).
  unfold selector_of.
  destruct (decide (sc_Balance cfg = "RR" \/ sc_Balance cfg = "")).
  - apply wp_bind, wp_store_service. apply wp_ret. st_simpl.
    rewrite lookup_insert_eq. eexists; split; [done|]. cbn. done.
  - destruct (decide (sc_Balance cfg = "LC")).
    + apply wp_bind, wp_store_service. apply wp_ret. st_simpl.
      rewrite lookup_insert_eq. eexists; split; [done|]. cbn. done.
    + apply wp_bind, wp_emit. apply wp_ret. st_simpl.
      eexists; split; [done|]. cbn. done.
Qed.

(** ** Construction: defaults and the balancer *)

(** C5: whatever the configuration and the state, [NewService] returns a
    service whose [CheckInterval], [Rise] and [Fall] are 2000, 2 and 2 where
    the configuration has 0, and the configured value where it is not 0. *)
Theorem NewService_applies_defaults (cfg : ServiceConfig) (st : State) :
  exists sl s st',
    NewService cfg st = (Ok sl, st') /\
    services st' !! sl = Some s /\
    s_CheckInterval s =
      (if decide (sc_CheckInterval cfg = 0) then 2000
       else sc_CheckInterval cfg) /\
    s_Rise s = (if decide (sc_Rise cfg = 0) then 2 else sc_Rise cfg) /\
    s_Fall s = (if decide (sc_Fall cfg = 0) then 2 else sc_Fall cfg).
Proof.
  destruct (wp_run _ _ _ (wp_NewService cfg st))
    as (sl & st' & Hrun & s & Hs & HC & HR & HF & _).
  exists sl, s, st'. unfold default_to in *. auto.
Qed.

(** C6: for a balance string other than "RR", "" and "LC", [NewService]
    leaves [next] nil, and [connect] on that service panics on the call of
    the nil func: the state is as it was, so nothing is logged and the
    client connection is not closed. *)
Theorem unknown_balance_connect_panics (cfg : ServiceConfig) (st : State) :
  sc_Balance cfg <> "RR" -> sc_Balance cfg <> "" -> sc_Balance cfg <> "LC" ->
  exists sl s st',
    NewService cfg st = (Ok sl, st') /\
    services st' !! sl = Some s /\
    next s = None /\
    forall cliConn st'',
      services st'' !! sl = Some s ->
      Service_connect sl cliConn st'' =
        (Panic "invalid memory address or nil pointer dereference", st'').
Proof.
  intros HRR Hempty HLC.
  destruct (wp_run _ _ _ (wp_NewService cfg st))
    as (sl & st' & Hrun & s & Hs & _ & _ & _ & Hnext & _).
  exists sl, s, st'. repeat split; [done | done | |].
  - rewrite Hnext. unfold selector_of.
    destruct (decide _) as [[?|?]|?]; [done | done |].
    by destruct (decide _).
  - intros cliConn st'' Hs''.
    assert (Hnone : next s = None).
    { rewrite Hnext. unfold selector_of.
      destruct (decide _) as [[?|?]|?]; [done | done |].
      by destruct (decide _). }
    unfold Service_connect, bind, deref_service, call_next.
    rewrite Hs'', Hnone. reflexivity.
Qed.

Lemma unknown_balance_connect_panics_witness :
  exists sl s st',
    NewService cfg_unknown_balance empty_State = (Ok sl, st') /\
    services st' !! sl = Some s /\
    next s = None /\
    forall cliConn st'',
      services st'' !! sl = Some s ->
      Service_connect sl cliConn st'' =
        (Panic "invalid memory address or nil pointer dereference", st'').
Proof.
  apply (unknown_balance_connect_panics cfg_unknown_balance empty_State);
    discriminate.
Defined.

(** The dialer that [NewService] builds has the service's [DialTimeout] as
    its timeout. *)
Lemma NewService_dialer (cfg : ServiceConfig) (st : State) :
  exists sl s st',
    NewService cfg st = (Ok sl, st') /\
    services st' !! sl = Some s /\
    dialer s = Some (mkDialer (s_DialTimeout s) (30 * Second)) /\
    s_DialTimeout s = Int64.mul (sc_DialTimeout cfg) Millisecond.
Proof.
  destruct (wp_run _ _ _ (wp_NewService cfg st))
    as (sl & st' & Hrun & s & Hs & _ & _ & _ & _ & _ & Hd & Ht & _).
  exists sl, s, st'. rewrite Ht. auto.
Qed.

(** ** The TCP path: [connect] *)

Lemma bump_lookup c l m l' :
  bump c l m !! l' =
    (if decide (l = l')
     then (fun b => counter_set c (Int64.add (counter_get c b) 1) b) <$> m !! l'
     else m !! l').
Proof.
  unfold bump. destruct (decide (l = l')) as [->|Hne].
  - destruct (m !! l') as [b|] eqn:E; simpl.
    + by rewrite lookup_insert_eq.
    + by rewrite E.
  - destruct (m !! l) as [b|]; [|done]. by rewrite lookup_insert_ne.
Qed.

Lemma counter_set_Addr c v b : Addr (counter_set c v b) = Addr b.
Proof. by destruct c. Qed.

Lemma counter_set_Name c v b : Name (counter_set c v b) = Name b.
Proof. by destruct c. Qed.

Lemma failed_attempts_bump s d c l m ls : forall errs,
  failed_attempts s d (bump c l m) ls errs = failed_attempts s d m ls errs.
Proof.
  induction ls as [|l' ls IH]; intros [|err errs]; simpl; try done.
  rewrite bump_lookup. destruct (decide (l = l')) as [->|Hne].
  - destruct (m !! l') as [b|]; simpl; [|done].
    by rewrite counter_set_Addr, counter_set_Name, IH.
  - destruct (m !! l') as [b|]; [|done]. by rewrite IH.
Qed.

Lemma allocated_bump c l (ls : list loc) (m : gmap loc Backend) :
  Forall (fun l' => is_Some (m !! l')) ls ->
  Forall (fun l' => is_Some (bump c l m !! l')) ls.
Proof.
  intros H. eapply Forall_impl; [exact H|].
  intros l' [b Hb]. rewrite bump_lookup, Hb.
  destruct (decide (l = l')); simpl; eauto.
Qed.

Lemma bind_ok {A B} (m : M A) (f : A -> M B) st a st' :
  m st = (Ok a, st') -> bind m f st = f a st'.
Proof. unfold bind. by intros ->. Qed.

Lemma deref_backend_ok bl b st :
  backends st !! bl = Some b -> deref_backend bl st = (Ok b, st).
Proof. unfold deref_backend. by intros ->. Qed.

Lemma deref_service_ok sl s st :
  services st !! sl = Some s -> deref_service sl st = (Ok s, st).
Proof. unfold deref_service. by intros ->. Qed.

Lemma deref_page_ok pl p st :
  errpages st !! pl = Some p -> deref_page pl st = (Ok p, st).
Proof. unfold deref_page. by intros ->. Qed.

Lemma Dialer_Dial_ok d nw addr r rest st :
  env_dial st = r :: rest ->
  Dialer_Dial (Some d) nw addr st =
    (Ok r, set_env_dial rest (set_trace (trace st ++ [EvDial nw addr d]) st)).
Proof.
  intros H. unfold Dialer_Dial, bind, emit, modify. st_simpl. by rewrite H.
Qed.

Lemma atomic_AddInt64_ok bl c b st :
  backends st !! bl = Some b ->
  atomic_AddInt64 (bl, c) 1 st =
    (Ok tt, set_backends (bump c bl (backends st)) st).
Proof.
  intros H. unfold atomic_AddInt64, bump. cbn [fst snd].
  erewrite bind_ok by (by apply deref_backend_ok). by rewrite H.
Qed.

Lemma connect_loop_failures s d cliConn rest bs pre : forall errs st,
  dialer s = Some d ->
  length errs = length pre ->
  allocated st pre ->
  env_dial st = (inr <$> errs) ++ rest ->
  connect_loop s cliConn (pre ++ bs) st =
    connect_loop s cliConn bs (after_failures s d pre errs rest st).
Proof.
  induction pre as [|l pre IH]; intros errs st Hd Hlen Hall Hdial.
  - destruct errs; [|done]. simpl in *. unfold after_failures. simpl.
    rewrite app_nil_r, <- Hdial. reflexivity.
  - destruct errs as [|err errs]; [done|]. simpl in Hlen, Hdial.
    inversion Hall as [|?? [b Hb] Hall']; subst.
    cbn [app connect_loop].
    erewrite bind_ok by (by apply deref_backend_ok).
    rewrite Hd. erewrite bind_ok by (by apply Dialer_Dial_ok).
    cbv beta iota. erewrite bind_ok by reflexivity.
    erewrite bind_ok; [|eapply atomic_AddInt64_ok; st_goal; eassumption].
    st_goal. rewrite (IH errs).
    + f_equal. unfold after_failures. st_goal.
      cbn [failed_attempts foldl]. rewrite Hb.
      by rewrite failed_attempts_bump, <- !app_assoc.
    + exact Hd.
    + lia.
    + unfold allocated. st_goal. by apply allocated_bump.
    + reflexivity.
Qed.

Lemma foldl_bump_Addr c (ls : list loc) bl : forall m b,
  m !! bl = Some b ->
  exists b',
    foldl (fun m l => bump c l m) m ls !! bl = Some b' /\ Addr b' = Addr b.
Proof.
  induction ls as [|l ls IH]; intros m b Hm; cbn [foldl]; [eauto|].
  destruct (decide (l = bl)) as [->|Hne].
  - destruct (IH (bump c bl m)
                (counter_set c (Int64.add (counter_get c b) 1) b))
      as (b' & Hb' & Ha).
    + rewrite bump_lookup, Hm. by rewrite decide_True.
    + exists b'. split; [done|]. by rewrite Ha, counter_set_Addr.
  - apply IH. rewrite bump_lookup. by rewrite decide_False.
Qed.

Lemma call_next_ok s bs nexts st :
  is_Some (next s) ->
  env_next st = bs :: nexts ->
  call_next s st = (Ok bs, set_env_next nexts st).
Proof. intros [sel Hsel] Hn. unfold call_next. by rewrite Hsel, Hn. Qed.

(** C2: [connect] takes the balancer's list [bs] and dials its backends in
    order with the service's dialer, whose timeout is [DialTimeout].  Each
    failed dial is logged and adds one to that backend's [Errors]; after the
    first dial that succeeds the pair is handed to [Proxy] and no later
    backend is dialed; when every dial fails (also for the empty list) the
    client connection is closed. *)
Theorem connect_tries_backends_in_order
    (sl : loc) (s : Service) (cliConn : nat) (bs : list loc)
    (nexts : list (list loc)) (st : State) :
  let d := mkDialer (s_DialTimeout s) (30 * Second) in
  services st !! sl = Some s ->
  is_Some (next s) ->
  dialer s = Some d ->
  env_next st = bs :: nexts ->
  allocated st bs ->
  (forall pre bl b post errs srvConn rest,
      bs = pre ++ bl :: post ->
      length errs = length pre ->
      backends st !! bl = Some b ->
      env_dial st = (inr <$> errs) ++ inl srvConn :: rest ->
      Service_connect sl cliConn st =
        (Ok tt,
         let st1 := after_failures s d pre errs rest (set_env_next nexts st) in
         set_trace
           (trace st1 ++
            [EvDial "tcp" (Addr b) d; EvProxy bl srvConn cliConn]) st1)) /\
  (forall errs rest,
      length errs = length bs ->
      env_dial st = (inr <$> errs) ++ rest ->
      Service_connect sl cliConn st =
        (Ok tt,
         let st1 := after_failures s d bs errs rest (set_env_next nexts st) in
         set_trace
           (trace st1 ++
            [EvLog Error "ERROR: no backend for %s" [AStr (s_Name s)];
             EvClose cliConn]) st1)).
Proof.
  intros d Hs Hnext Hd Hn Hall. split.
  - intros pre bl b post errs srvConn rest -> Hlen Hb Hdial.
    unfold Service_connect.
    erewrite bind_ok by (by apply deref_service_ok).
    erewrite bind_ok by (by apply call_next_ok).
    erewrite (connect_loop_failures s d cliConn (inl srvConn :: rest));
      [| done | done | | done].
    2:{ apply Forall_app in Hall as [Hpre _]. exact Hpre. }
    cbn [connect_loop].
    destruct (foldl_bump_Addr cErrors pre bl (backends st) b Hb)
      as (b' & Hb' & Ha).
    assert (Hb'' : backends
        (after_failures s d pre errs (inl srvConn :: rest)
           (set_env_next nexts st)) !! bl = Some b') by exact Hb'.
    clear Hb'. rename Hb'' into Hb'.
    erewrite bind_ok by (by apply deref_backend_ok).
    rewrite Hd. erewrite bind_ok by (by apply Dialer_Dial_ok).
    cbv beta iota. unfold Backend_Proxy, emit, modify. rewrite Ha.
    unfold after_failures. st_goal. by rewrite <- !app_assoc.
  - intros errs rest Hlen Hdial.
    unfold Service_connect.
    erewrite bind_ok by (by apply deref_service_ok).
    erewrite bind_ok by (by apply call_next_ok).
    rewrite <- (app_nil_r bs) at 1.
    erewrite (connect_loop_failures s d cliConn rest); [| done..].
    cbn [connect_loop].
    erewrite bind_ok by reflexivity.
    unfold Conn_Close, emit, log, emit, modify, after_failures. st_goal.
    by rewrite <- !app_assoc.
Qed.

Lemma connect_tries_backends_in_order_witness :
  exists st',
    Service_connect 0%nat 99%nat st_web = (Ok tt, st') /\
    trace st' =
      [EvDial "tcp" "10.0.0.1:80" (mkDialer (2 * Second) (30 * Second));
       EvLog Error "ERROR: connecting to backend %s/%s: %s"
         [AStr "web"; AStr "A"; AStr "connection refused"];
       EvDial "tcp" "10.0.0.2:80" (mkDialer (2 * Second) (30 * Second));
       EvProxy 1%nat 7%nat 99%nat] /\
    Errors <$> backends st' !! 0%nat = Some 1 /\
    Errors <$> backends st' !! 1%nat = Some 0 /\
    env_dial st' = [].
Proof.
  eexists. split.
  - apply (proj1 (connect_tries_backends_in_order 0%nat svc_web 99%nat
                    [0; 1; 2]%nat [] st_web eq_refl (mk_is_Some _ _ eq_refl)
                    eq_refl eq_refl
                    ltac:(repeat constructor; eexists; reflexivity))
           [0%nat] 1%nat (backend_at "B" "10.0.0.2:80") [2%nat]
           ["connection refused"] 7%nat []);
      reflexivity.
  - vm_compute. repeat split.
Defined.

(** ** The HTTP path: [Dial] *)

Lemma find_backend_none addr bs st :
  Forall (fun l => exists b, backends st !! l = Some b /\ Addr b <> addr) bs ->
  find_backend addr bs st = (Ok None, st).
Proof.
  induction 1 as [|l bs (b & Hb & Hne) _ IH]; [done|].
  cbn [find_backend]. erewrite bind_ok by (by apply deref_backend_ok).
  by rewrite decide_False.
Qed.

Lemma find_backend_first addr pre bl post b st :
  Forall (fun l => exists b, backends st !! l = Some b /\ Addr b <> addr) pre ->
  backends st !! bl = Some b ->
  Addr b = addr ->
  find_backend addr (pre ++ bl :: post) st = (Ok (Some bl), st).
Proof.
  intros Hpre Hb Ha.
  induction Hpre as [|l pre (b0 & Hb0 & Hne) _ IH]; cbn [app find_backend].
  - erewrite bind_ok by (by apply deref_backend_ok). by rewrite decide_True.
  - erewrite bind_ok by (by apply deref_backend_ok). by rewrite decide_False.
Qed.

(** C3: [Dial] answers with a [DialError] when no backend of the service
    has the address; for the first backend that has it, a failed dial adds
    one to its [Errors] and comes back wrapped in a [DialError], and a
    successful dial comes back wrapped with the server timeout and pointers
    to the backend's [Sent], [Rcvd] and [HTTPActive], its [Conns] and
    [HTTPActive] having been incremented.  Nothing else of the backend and
    of the state changes. *)
Theorem Dial_by_address
    (sl : loc) (s : Service) (d : Dialer) (nw addr : string) (st : State) :
  let differs l := exists b, backends st !! l = Some b /\ Addr b <> addr in
  let after (bl : loc) (b' : Backend) (rest : list (nat + string))
      (evs : list Event) :=
    mkState (services st) (<[bl := b']> (backends st)) (errpages st)
      (Registry st) (env_next st) rest (env_listen st) (env_get st)
      (env_close st) (env_ids st) (trace st ++ evs) in
  services st !! sl = Some s ->
  dialer s = Some d ->
  (Forall differs (s_Backends s) ->
   Service_Dial sl nw addr st =
     (Ok (inr (mkDialError ("no backend matching " +:+ addr))), st)) /\
  (forall pre bl post b,
      s_Backends s = pre ++ bl :: post ->
      Forall differs pre ->
      backends st !! bl = Some b ->
      Addr b = addr ->
      (forall err rest,
          env_dial st = inr err :: rest ->
          Service_Dial sl nw addr st =
            (Ok (inr (mkDialError err)),
             after bl
               (mkBackend (Name b) (Addr b) (CheckAddr b) (Sent b) (Rcvd b)
                  (Int64.add (Errors b) 1) (Conns b) (Active b)
                  (HTTPActive b) (up b) (rwTimeout b) (dialTimeout b)
                  (checkInterval b))
               rest
               [EvDial "tcp" addr d;
                EvLog Error "ERROR: connecting to backend %s/%s: %s"
                  [AStr (s_Name s); AStr (Name b); AStr err]])) /\
      (forall srvConn rest,
          env_dial st = inl srvConn :: rest ->
          Service_Dial sl nw addr st =
            (Ok (inl (NewConn srvConn (s_ServerTimeout s) (bl, cSent)
                        (bl, cRcvd) (Some (bl, cHTTPActive)))),
             after bl
               (mkBackend (Name b) (Addr b) (CheckAddr b) (Sent b) (Rcvd b)
                  (Errors b) (Int64.add (Conns b) 1) (Active b)
                  (Int64.add (HTTPActive b) 1) (up b) (rwTimeout b)
                  (dialTimeout b) (checkInterval b))
               rest [EvDial "tcp" addr d]))).
Proof.
  intros differs after Hs Hd. split.
  - intros Hnone. unfold Service_Dial.
    erewrite bind_ok by (by apply deref_service_ok).
    erewrite bind_ok by (by apply find_backend_none).
    reflexivity.
  - intros pre bl post b Hbs Hpre Hb Ha. subst addr. subst after.
    split.
    + intros err rest Hdial. unfold Service_Dial.
      erewrite bind_ok by (by apply deref_service_ok).
      rewrite Hbs.
      erewrite bind_ok by (by eapply find_backend_first).
      cbv beta iota. erewrite bind_ok by (by apply deref_backend_ok).
      rewrite Hd. erewrite bind_ok by (by apply Dialer_Dial_ok).
      cbv beta iota. erewrite bind_ok by reflexivity.
      erewrite bind_ok; [|eapply atomic_AddInt64_ok; st_goal; eassumption].
      unfold ret, bump. st_goal. rewrite Hb, <- !app_assoc. reflexivity.
    + intros srvConn rest Hdial. unfold Service_Dial.
      erewrite bind_ok by (by apply deref_service_ok).
      rewrite Hbs.
      erewrite bind_ok by (by eapply find_backend_first).
      cbv beta iota. erewrite bind_ok by (by apply deref_backend_ok).
      rewrite Hd. erewrite bind_ok by (by apply Dialer_Dial_ok).
      cbv beta iota.
      erewrite bind_ok; [|eapply atomic_AddInt64_ok; st_goal; eassumption].
      erewrite bind_ok.
      2:{ eapply atomic_AddInt64_ok. unfold bump. st_goal. rewrite Hb.
          apply lookup_insert_eq. }
      unfold ret, bump. st_goal. rewrite Hb, lookup_insert_eq.
      by rewrite insert_insert_eq.
Qed.

Lemma Dial_by_address_witness :
  Service_Dial 0%nat "tcp" "10.0.0.9:80" st_web =
    (Ok (inr (mkDialError "no backend matching 10.0.0.9:80")), st_web) /\
  (exists st',
     Service_Dial 0%nat "tcp" "10.0.0.2:80" st_web =
       (Ok (inr (mkDialError "connection refused")), st') /\
     Errors <$> backends st' !! 1%nat = Some 1 /\
     Conns <$> backends st' !! 1%nat = Some 0 /\
     HTTPActive <$> backends st' !! 1%nat = Some 0 /\
     env_dial st' = [inl 7%nat] /\
     trace st' =
       [EvDial "tcp" "10.0.0.2:80" (mkDialer (2 * Second) (30 * Second));
        EvLog Error "ERROR: connecting to backend %s/%s: %s"
          [AStr "web"; AStr "B"; AStr "connection refused"]]) /\
  (exists st',
     Service_Dial 0%nat "tcp" "10.0.0.2:80" (set_env_dial [inl 7%nat] st_web) =
       (Ok (inl (NewConn 7%nat 0 (1%nat, cSent) (1%nat, cRcvd)
                   (Some (1%nat, cHTTPActive)))), st') /\
     Conns <$> backends st' !! 1%nat = Some 1 /\
     HTTPActive <$> backends st' !! 1%nat = Some 1 /\
     Errors <$> backends st' !! 1%nat = Some 0 /\
     Conns <$> backends st' !! 0%nat = Some 0 /\
     env_dial st' = [] /\
     trace st' =
       [EvDial "tcp" "10.0.0.2:80" (mkDialer (2 * Second) (30 * Second))]).
Proof.
  pose proof (Dial_by_address 0%nat svc_web
                (mkDialer (2 * Second) (30 * Second)) "tcp") as H.
  split; [|split].
  - apply (proj1 (H "10.0.0.9:80" st_web eq_refl eq_refl)).
    repeat constructor; eexists; (split; [reflexivity | discriminate]).
  - eexists. split.
    + apply (proj1 (proj2 (H "10.0.0.2:80" st_web eq_refl eq_refl)
                      [0%nat] 1%nat [2%nat] (backend_at "B" "10.0.0.2:80")
                      eq_refl
                      ltac:(repeat constructor; eexists;
                            (split; [reflexivity | discriminate]))
                      eq_refl eq_refl)
               "connection refused" [inl 7%nat] eq_refl).
    + split_and!; reflexivity.
  - eexists. split.
    + apply (proj2 (proj2 (H "10.0.0.2:80" (set_env_dial [inl 7%nat] st_web)
                             eq_refl eq_refl)
                      [0%nat] 1%nat [2%nat] (backend_at "B" "10.0.0.2:80")
                      eq_refl
                      ltac:(repeat constructor; eexists;
                            (split; [reflexivity | discriminate]))
                      eq_refl eq_refl)
               7%nat [] eq_refl).
    + split_and!; reflexivity.
Defined.

(** ** [start] and [stop] *)

Lemma stop_backends_ok bs : forall st,
  stop_backends bs st =
    (Ok tt, set_trace (trace st ++ (EvBackendStop <$> bs)) st).
Proof.
  induction bs as [|bl bs IH]; intros st; cbn [stop_backends fmap list_fmap].
  - unfold ret. by rewrite app_nil_r.
  - erewrite bind_ok by reflexivity. rewrite IH. st_goal.
    by rewrite <- app_assoc.
Qed.

(** C9: [stop] stops every backend of the service and then, when the
    listener is nil, returns without touching it; when there is a listener
    it is closed (a close error is only logged).  After a [start] whose bind
    failed the listener is nil, so [stop] returns normally; the listener of
    a service that [NewService] has just built is nil as well.  [stop]
    changes nothing but the trace and the answers left to [Close]. *)
Theorem stop_safe_without_listener (sl : loc) (s : Service) (st : State) :
  let stops :=
    EvLog Info "Stopping TCP listener for %s on %s"
      [AStr (s_Name s); AStr (s_Addr s)]
    :: (EvBackendStop <$> s_Backends s) in
  let after (st0 : State) (closes : list (option string))
      (evs : list Event) :=
    mkState (services st0) (backends st0) (errpages st0) (Registry st0)
      (env_next st0) (env_dial st0) (env_listen st0) (env_get st0) closes
      (env_ids st0) (trace st0 ++ stops ++ evs) in
  services st !! sl = Some s ->
  (listener s = None ->
   Service_stop sl st = (Ok tt, after st (env_close st) [])) /\
  (forall l, listener s = Some l ->
     Service_stop sl st =
       (Ok tt,
        match env_close st with
        | [] => after st [] [EvListenerClose l]
        | None :: rest => after st rest [EvListenerClose l]
        | Some e :: rest =>
            after st rest [EvListenerClose l; EvLog Info "%s" [AStr e]]
        end)) /\
  (forall err rest, env_listen st = inr err :: rest ->
     exists st1 s1,
       Service_start sl st = (Ok (Some err), st1) /\
       services st1 !! sl = Some s1 /\
       listener s1 = None /\
       s_Backends s1 = s_Backends s /\
       trace st1 =
         trace st ++
         [EvLog Info "Starting TCP listener for %s on %s"
            [AStr (s_Name s); AStr (s_Addr s)];
          EvListen (s_Addr s)] /\
       Service_stop sl st1 = (Ok tt, after st1 (env_close st1) [])) /\
  (forall cfg st0,
     exists sl' s' st',
       NewService cfg st0 = (Ok sl', st') /\
       services st' !! sl' = Some s' /\
       listener s' = None).
Proof.
  intros stops after Hs.
  assert (Hstop : forall st0 s0,
    services st0 !! sl = Some s0 -> listener s0 = None ->
    s_Name s0 = s_Name s -> s_Addr s0 = s_Addr s ->
    s_Backends s0 = s_Backends s ->
    Service_stop sl st0 = (Ok tt, after st0 (env_close st0) [])).
  { intros st0 s0 Hs0 Hl Hn Ha Hb. unfold Service_stop.
    erewrite bind_ok by (by apply deref_service_ok).
    erewrite bind_ok by reflexivity.
    erewrite bind_ok by apply stop_backends_ok.
    rewrite Hl, Hn, Ha, Hb. unfold ret. subst after stops. st_goal.
    by rewrite <- !app_assoc, app_nil_r. }
  split; [|split; [|split]]; cycle 3.
  { intros cfg st0.
    destruct (wp_run _ _ _ (wp_NewService cfg st0))
      as (sl' & st' & Hrun & s' & Hs' & _ & _ & _ & _ & Hl & _).
    by exists sl', s', st'. }
  - intros Hl. by apply (Hstop st s).
  - intros l Hl. unfold Service_stop.
    erewrite bind_ok by (by apply deref_service_ok).
    erewrite bind_ok by reflexivity.
    erewrite bind_ok by apply stop_backends_ok.
    rewrite Hl. unfold Listener_Close.
    unfold bind, emit, log, emit, modify, ret. subst after stops. st_goal.
    destruct (env_close st) as [|[e|] rest]; st_goal;
      by rewrite <- !app_assoc.
  - intros err rest Hlisten.
    exists
      (mkState (<[sl := set_listener None s]> (services st)) (backends st)
         (errpages st) (Registry st) (env_next st) (env_dial st) rest
         (env_get st) (env_close st) (env_ids st)
         (trace st ++
          [EvLog Info "Starting TCP listener for %s on %s"
             [AStr (s_Name s); AStr (s_Addr s)];
           EvListen (s_Addr s)])),
      (set_listener None s).
    split.
    { unfold Service_start.
      erewrite bind_ok by (by apply deref_service_ok).
      erewrite bind_ok by reflexivity.
      unfold newTimeoutListener, net_Listen.
      unfold bind, emit, modify, store_service, modify, ret. st_goal.
      rewrite Hlisten. st_goal. by rewrite <- !app_assoc. }
    split; [apply lookup_insert_eq|]. split; [done|]. split; [done|].
    split; [done|].
    apply (Hstop _ (set_listener None s)); [apply lookup_insert_eq | done..].
Qed.

Lemma stop_safe_without_listener_witness :
  (exists st',
     Service_stop 0%nat st_web = (Ok tt, st') /\
     trace st' =
       [EvLog Info "Stopping TCP listener for %s on %s"
          [AStr "web"; AStr "127.0.0.1:0"];
        EvBackendStop 0%nat; EvBackendStop 1%nat; EvBackendStop 2%nat] /\
     services st' = services st_web /\
     backends st' = backends st_web) /\
  (exists st',
     Service_stop 0%nat
       (set_services
          (<[0%nat := set_listener (Some (mkListener 5%nat 0)) svc_web]> ∅)
          st_web) = (Ok tt, st') /\
     trace st' =
       [EvLog Info "Stopping TCP listener for %s on %s"
          [AStr "web"; AStr "127.0.0.1:0"];
        EvBackendStop 0%nat; EvBackendStop 1%nat; EvBackendStop 2%nat;
        EvListenerClose (mkListener 5%nat 0)]).
Proof.
  split.
  - eexists. split.
    + exact (proj1 (stop_safe_without_listener 0%nat svc_web st_web eq_refl)
               eq_refl).
    + split_and!; reflexivity.
  - eexists. split.
    + exact (proj1 (proj2 (stop_safe_without_listener 0%nat
                             (set_listener (Some (mkListener 5%nat 0)) svc_web)
                             (set_services
                                (<[0%nat := set_listener
                                              (Some (mkListener 5%nat 0))
                                              svc_web]> ∅) st_web)
                             eq_refl))
               (mkListener 5%nat 0) eq_refl).
    + reflexivity.
Defined.

(** ** The error-page cache *)

Lemma effective_status_spec status codes :
  effective_status status codes =
    (if decide (status ∈ codes) then 200 else status).
Proof.
  induction codes as [|code codes IH]; cbn [effective_status].
  - by rewrite decide_False by apply not_elem_of_nil.
  - destruct (decide (status = code)) as [->|Hne].
    + by rewrite decide_True by apply list_elem_of_here.
    + rewrite IH. destruct (decide (status ∈ codes)) as [Hin|Hnin].
      * by rewrite decide_True by by apply list_elem_of_further.
      * rewrite decide_False; [done|].
        intros [?|?]%elem_of_cons; done.
Qed.

Lemma capture_headers_lookup keys (src : Header) : forall (acc : Header) k,
  capture_headers keys src acc !! k =
    (if decide (k ∈ keys)
     then match src !! k with Some v => Some v | None => acc !! k end
     else acc !! k).
Proof.
  induction keys as [|key keys IH]; intros acc k; cbn [capture_headers].
  - by rewrite decide_False by apply not_elem_of_nil.
  - destruct (src !! key) as [hdr|] eqn:Hkey; rewrite IH.
    + destruct (decide (k ∈ keys)) as [Hin|Hnin].
      * rewrite decide_True by by apply list_elem_of_further.
        destruct (src !! k) eqn:Hk; [done|].
        destruct (decide (key = k)) as [->|]; [congruence|].
        by rewrite lookup_insert_ne.
      * destruct (decide (key = k)) as [->|Hne].
        -- rewrite decide_True by apply list_elem_of_here.
           by rewrite lookup_insert_eq, Hkey.
        -- rewrite lookup_insert_ne by done.
           rewrite decide_False; [done|].
           intros [?|?]%elem_of_cons; done.
    + destruct (decide (k ∈ keys)) as [Hin|Hnin].
      * by rewrite decide_True by by apply list_elem_of_further.
      * destruct (decide (key = k)) as [->|Hne].
        -- rewrite decide_True by apply list_elem_of_here. by rewrite Hkey.
        -- rewrite decide_False; [done|].
           intros [?|?]%elem_of_cons; done.
Qed.

Lemma length_pos_nonempty (b : string) :
  (0 < String.length b)%nat <-> b <> "".
Proof. destruct b; cbn; split; (done || lia). Qed.

Lemma client_Get_ok url st :
  client_Get url st =
    (Ok (match env_get st with
         | [] => inr "connection refused"
         | r :: _ => r
         end),
     set_env_get (tail (env_get st))
       (set_trace (trace st ++ [EvGet url]) st)).
Proof.
  unfold client_Get, bind, emit, modify. st_goal.
  by destruct (env_get st).
Qed.

(** What [fetch] does to the store and the trace, case by case. *)
Lemma fetch_run pl p st :
  errpages st !! pl = Some p ->
  exists st' tl,
    fetch pl st = (Ok tt, st') /\
    trace st' = trace (fetch_started p st) ++ tl /\
    env_get st' = tail (env_get st) /\
    services st' = services st /\
    backends st' = backends st /\
    errpages st' =
      match env_get st with
      | inl resp :: _ =>
          match resp_Body resp with
          | inl b =>
              if decide (effective_status (StatusCode resp) (StatusCodes p)
                         = 200 /\ b <> "")
              then <[pl := mkErrorPage (Location p) (StatusCodes p) (Some b)
                             (Some (capture_headers ErrorHeaders
                                      (resp_Header resp) ∅))]> (errpages st)
              else errpages st
          | inr _ => errpages st
          end
      | _ => errpages st
      end.
Proof.
  intros Hp. unfold fetch.
  erewrite bind_ok by (by apply deref_page_ok).
  erewrite bind_ok by reflexivity.
  erewrite bind_ok by apply client_Get_ok.
  unfold fetch_started. st_goal.
  destruct (env_get st) as [|[resp|err] rest] eqn:Hget; cbn [tail].
  - eexists _, _. split; [reflexivity|]. st_goal.
    rewrite <- !app_assoc. cbn [app]. done.
  - destruct (decide (effective_status _ _ ≠ 200)) as [Hne|Heq].
    + eexists _, _. split; [reflexivity|]. st_goal.
      rewrite <- !app_assoc. cbn [app]. repeat split; try done.
      destruct (resp_Body resp); [|done]. rewrite decide_False; tauto.
    + apply dec_stable in Heq.
      destruct (resp_Body resp) as [b|err].
      * destruct (decide (0 < String.length b)%nat) as [Hpos|Hzero].
        -- unfold ErrorPage_SetHeader, ErrorPage_SetBody.
           erewrite bind_ok.
           2:{ erewrite bind_ok; [reflexivity|].
               apply deref_page_ok. st_goal. exact Hp. }
           erewrite bind_ok.
           2:{ apply deref_page_ok. st_goal. apply lookup_insert_eq. }
           eexists. exists []. split; [reflexivity|]. st_goal.
           rewrite <- !app_assoc, app_nil_r. cbn [app].
           repeat split; try done.
           rewrite decide_True
             by (split; [done | by apply length_pos_nonempty]).
           by rewrite insert_insert_eq.
        -- eexists _, _. split; [reflexivity|]. st_goal.
           rewrite <- !app_assoc. cbn [app]. repeat split; try done.
           rewrite decide_False; [done|].
           intros [_ ?%length_pos_nonempty]. done.
      * eexists _, _. split; [reflexivity|]. st_goal.
        rewrite <- !app_assoc. cbn [app]. done.
  - eexists _, _. split; [reflexivity|]. st_goal.
    rewrite <- !app_assoc. cbn [app]. done.
Qed.

(** C4, amended: a status that is one of the page's codes counts as 200;
    with an effective status other than 200 the page is left as it was;
    with 200, a body that is read without error and is not empty is stored
    together with exactly those headers of the response that are on the
    allow-list. *)
Theorem fetch_caches_allow_listed_headers
    (pl : loc) (p : ErrorPage) (resp : Response)
    (rest : list (Response + string)) (st : State) :
  let effective :=
    if decide (StatusCode resp ∈ StatusCodes p) then 200
    else StatusCode resp in
  errpages st !! pl = Some p ->
  env_get st = inl resp :: rest ->
  exists st',
    fetch pl st = (Ok tt, st') /\
    (effective <> 200 -> errpages st' = errpages st) /\
    (effective = 200 ->
     forall b, resp_Body resp = inl b -> b <> "" ->
       exists h : Header,
         errpages st' =
           <[pl := mkErrorPage (Location p) (StatusCodes p) (Some b)
                     (Some h)]> (errpages st) /\
         forall k,
           h !! k =
             (if decide (k ∈ ErrorHeaders) then resp_Header resp !! k
              else None)).
Proof.
  intros effective Hp Hget.
  destruct (fetch_run pl p st Hp)
    as (st' & tl & Hrun & _ & _ & _ & _ & Hpages).
  rewrite Hget in Hpages. subst effective.
  rewrite effective_status_spec in Hpages.
  exists st'. split; [done|]. split.
  - intros Hne. rewrite Hpages. destruct (resp_Body resp); [|done].
    rewrite decide_False; tauto.
  - intros Heq b Hb Hnonempty. rewrite Hb in Hpages.
    rewrite decide_True in Hpages by done.
    eexists. split; [exact Hpages|].
    intros k. rewrite capture_headers_lookup, lookup_empty.
    destruct (decide (k ∈ ErrorHeaders)); [|done].
    by destruct (resp_Header resp !! k).
Qed.

Lemma fetch_caches_allow_listed_headers_witness :
  exists st',
    fetch 0%nat
      (st_pages [inl (mkResponse 503 (<["Content-Type" := ["text/html"]]> ∅)
                        (inl "maint"))]) = (Ok tt, st') /\
    exists h : Header,
      errpages st' !! 0%nat =
        Some (mkErrorPage "http://pages/503.html" [503; 504] (Some "maint")
                (Some h)) /\
      h !! "Content-Type" = Some ["text/html"] /\
      h !! "X-Powered-By" = None.
Proof.
  destruct (fetch_caches_allow_listed_headers 0%nat page_503
              (mkResponse 503 (<["Content-Type" := ["text/html"]]> ∅)
                 (inl "maint")) []
              (st_pages [inl (mkResponse 503
                                (<["Content-Type" := ["text/html"]]> ∅)
                                (inl "maint"))]) eq_refl eq_refl)
    as (st' & Hrun & _ & Hok).
  exists st'. split; [exact Hrun|].
  destruct (Hok eq_refl "maint" eq_refl ltac:(discriminate)) as (h & Hh & Hk).
  exists h. split; [|split].
  - rewrite Hh. apply lookup_insert_eq.
  - rewrite Hk. reflexivity.
  - rewrite Hk. reflexivity.
Defined.

(** C4 as worded fails: an effective 200 whose body is empty stores neither
    headers nor body. *)
Lemma fetch_empty_body_not_captured :
  ~ (forall pl p resp rest st b,
       errpages st !! pl = Some p ->
       env_get st = inl resp :: rest ->
       effective_status (StatusCode resp) (StatusCodes p) = 200 ->
       resp_Body resp = inl b ->
       exists st' p',
         fetch pl st = (Ok tt, st') /\
         errpages st' !! pl = Some p' /\
         captured resp b p').
Proof.
  intros H.
  destruct (H 0%nat page_503 resp_empty_503 [] (st_pages [inl resp_empty_503])
              "" eq_refl eq_refl eq_refl eq_refl)
    as (st' & p' & Hrun & Hp' & _ & Hbody).
  vm_compute in Hrun. injection Hrun as <-.
  vm_compute in Hp'. injection Hp' as <-. discriminate Hbody.
Qed.

(** ** Empty bodies are never cached *)

Lemma fetch_keeps_bodies_nonempty pl st r st' :
  fetch pl st = (r, st') -> bodies_nonempty st -> bodies_nonempty st'.
Proof.
  intros Hrun Hinv.
  destruct (errpages st !! pl) as [p|] eqn:Hp.
  - destruct (fetch_run pl p st Hp)
      as (st1 & tl & Hrun1 & _ & _ & _ & _ & Hpages).
    rewrite Hrun1 in Hrun. injection Hrun as _ <-.
    intros l q b Hq Hb. rewrite Hpages in Hq.
    destruct (env_get st) as [|[resp|] ?]; try by eapply Hinv.
    destruct (resp_Body resp) as [b0|]; try by eapply Hinv.
    destruct (decide _) as [[_ Hne]|]; try by eapply Hinv.
    destruct (decide (pl = l)) as [->|].
    + rewrite lookup_insert_eq in Hq. injection Hq as <-.
      cbn in Hb. by injection Hb as <-.
    + rewrite lookup_insert_ne in Hq by done. by eapply Hinv.
  - unfold fetch, bind, deref_page in Hrun. rewrite Hp in Hrun.
    by injection Hrun as _ <-.
Qed.

Lemma bind_inv {A B} (m : M A) (f : A -> M B) st r st2 :
  bind m f st = (r, st2) ->
  (exists msg, m st = (Panic msg, st2) /\ r = Panic msg) \/
  (exists a st1, m st = (Ok a, st1) /\ f a st1 = (r, st2)).
Proof.
  unfold bind. destruct (m st) as [[a|msg] st1]; intros H.
  - right. eauto.
  - left. injection H as <- <-. eauto.
Qed.

Lemma Get_keeps_bodies_nonempty e code st r st' :
  ErrorResponse_Get e code st = (r, st') ->
  bodies_nonempty st -> bodies_nonempty st'.
Proof.
  unfold ErrorResponse_Get. intros Hrun Hinv.
  destruct (pages e !! code) as [pl|]; [|by injection Hrun as _ <-].
  apply bind_inv in Hrun as [(msg & Hm & _)|(p & st1 & Hm & Hrun)].
  - unfold deref_page in Hm. destruct (errpages st !! pl); [done|].
    by injection Hm as _ <-.
  - unfold deref_page in Hm. destruct (errpages st !! pl); [|done].
    injection Hm as _ <-.
    destruct (body p); [by injection Hrun as _ <-|].
    apply bind_inv in Hrun as [(msg & Hf & _)|([] & st2 & Hf & Hrun)].
    + by eapply fetch_keeps_bodies_nonempty.
    + injection Hrun as _ <-. by eapply fetch_keeps_bodies_nonempty.
Qed.

Lemma CheckResponse_keeps_bodies_nonempty e pr st r st' :
  CheckResponse e pr st = (r, st') ->
  bodies_nonempty st -> bodies_nonempty st'.
Proof.
  unfold CheckResponse. intros Hrun Hinv.
  destruct (pr_Response pr) as [resp|]; [|by injection Hrun as _ <-].
  apply bind_inv in Hrun as [(msg & Hg & _)|(errPage & st1 & Hg & Hrun)].
  - by eapply Get_keeps_bodies_nonempty.
  - assert (Hinv1 : bodies_nonempty st1)
      by by eapply Get_keeps_bodies_nonempty.
    destruct errPage as [pl|]; [|by injection Hrun as _ <-].
    unfold bind, deref_page, ret in Hrun.
    destruct (errpages st1 !! pl) eqn:E; cbn in Hrun; rewrite ?E in Hrun;
      by injection Hrun as _ <-.
Qed.

Lemma Update_loop_keeps_bodies_nonempty cfg : forall idx st r st',
  Update_loop cfg idx st = (r, st') ->
  bodies_nonempty st -> bodies_nonempty st'.
Proof.
  induction cfg as [|[location codes] cfg IH]; intros idx st r st' Hrun Hinv;
    cbn [Update_loop] in Hrun.
  - by injection Hrun as _ <-.
  - unfold bind at 1, alloc_page at 1 in Hrun.
    unfold bind at 1, emit at 1, modify at 1 in Hrun.
    eapply IH; [exact Hrun|].
    intros pl p b Hp Hb. st_simpl.
    destruct (decide (fresh (dom (errpages st)) = pl)) as [<-|Hne].
    + rewrite lookup_insert_eq in Hp. injection Hp as <-. done.
    + rewrite lookup_insert_ne in Hp by done. by eapply Hinv.
Qed.

Lemma NewErrorResponse_keeps_bodies_nonempty cfg st r st' :
  NewErrorResponse cfg st = (r, st') ->
  bodies_nonempty st -> bodies_nonempty st'.
Proof.
  unfold NewErrorResponse, ErrorResponse_Update. intros Hrun Hinv.
  destruct cfg as [pages|]; [|by injection Hrun as _ <-].
  apply bind_inv in Hrun as [(msg & Hu & _)|(idx & st1 & Hu & Hrun)].
  - by eapply Update_loop_keeps_bodies_nonempty.
  - injection Hrun as _ <-. by eapply Update_loop_keeps_bodies_nonempty.
Qed.

(** C10: an effective 200 whose body has length zero leaves the page store
    as it was; while the page's body is nil, [Get] for a code of the page
    runs [fetch] again before it returns; and no operation on the cache
    ([fetch], [Get], [CheckResponse], [NewErrorResponse]) ever leaves an
    empty body in a page. *)
Theorem empty_body_is_never_cached
    (pl : loc) (p : ErrorPage) (resp : Response)
    (rest : list (Response + string)) (st : State) :
  errpages st !! pl = Some p ->
  env_get st = inl resp :: rest ->
  effective_status (StatusCode resp) (StatusCodes p) = 200 ->
  resp_Body resp = inl "" ->
  exists st',
    fetch pl st = (Ok tt, st') /\
    errpages st' = errpages st /\
    (forall (e : ErrorResponse) code (st1 : State),
        pages e !! code = Some pl ->
        errpages st1 !! pl = Some p ->
        body p = None ->
        exists st2 tl,
          fetch pl st1 = (Ok tt, st2) /\
          ErrorResponse_Get e code st1 = (Ok (Some pl), st2) /\
          trace st2 =
            trace st1 ++
            EvLog Debug "Fetching error page from %s" [AStr (Location p)]
            :: EvGet (Location p) :: tl) /\
    (forall st1 st2,
        bodies_nonempty st1 ->
        (forall l r, fetch l st1 = (r, st2) -> bodies_nonempty st2) /\
        (forall e code r,
            ErrorResponse_Get e code st1 = (r, st2) -> bodies_nonempty st2) /\
        (forall e pr r,
            CheckResponse e pr st1 = (r, st2) -> bodies_nonempty st2) /\
        (forall cfg r,
            NewErrorResponse cfg st1 = (r, st2) -> bodies_nonempty st2)).
Proof.
  intros Hp Hget Heff Hbody.
  destruct (fetch_run pl p st Hp)
    as (st' & tl & Hrun & _ & _ & _ & _ & Hpages).
  rewrite Hget, Hbody in Hpages.
  rewrite decide_False in Hpages by tauto.
  exists st'. split; [done|]. split; [done|]. split.
  - intros e code st1 He Hp1 Hnil.
    destruct (fetch_run pl p st1 Hp1) as (st2 & tl2 & Hrun2 & Htr & _).
    exists st2, tl2. split; [done|]. split.
    + unfold ErrorResponse_Get. rewrite He.
      erewrite bind_ok by (by apply deref_page_ok).
      rewrite Hnil. by erewrite bind_ok by exact Hrun2.
    + rewrite Htr. unfold fetch_started. st_goal.
      by rewrite <- app_assoc.
  - intros st1 st2 Hinv. split_and!.
    + intros l r Hrun1. by eapply fetch_keeps_bodies_nonempty.
    + intros e code r Hrun1. by eapply Get_keeps_bodies_nonempty.
    + intros e pr r Hrun1. by eapply CheckResponse_keeps_bodies_nonempty.
    + intros cfg r Hrun1. by eapply NewErrorResponse_keeps_bodies_nonempty.
Qed.

Lemma empty_body_is_never_cached_witness :
  exists st',
    fetch 0%nat (st_pages [inl resp_empty_503]) = (Ok tt, st') /\
    errpages st' = errpages (st_pages [inl resp_empty_503]).
Proof.
  destruct (empty_body_is_never_cached 0%nat page_503 resp_empty_503 []
              (st_pages [inl resp_empty_503]) eq_refl eq_refl eq_refl eq_refl)
    as (st' & Hrun & Hpages & _).
  exists st'. split; [exact Hrun | exact Hpages].
Defined.

(** ** Substituting error pages: [Get] and [CheckResponse] *)

Lemma Get_absent e code st :
  pages e !! code = None -> ErrorResponse_Get e code st = (Ok None, st).
Proof. unfold ErrorResponse_Get. by intros ->. Qed.

(** A status that is not in the index: the response is left to the default
    pipeline. *)
Lemma CheckResponse_passes e pr resp st :
  pr_Response pr = Some resp ->
  pages e !! StatusCode resp = None ->
  CheckResponse e pr st = (Ok (true, pr), st).
Proof.
  intros Hr Hnone. unfold CheckResponse. rewrite Hr.
  by erewrite bind_ok by (by apply Get_absent).
Qed.

(** A status whose page is populated: the cached headers, the upstream
    status and the cached body are written. *)
Lemma CheckResponse_substitutes e pr resp pl p b st :
  pr_Response pr = Some resp ->
  pages e !! StatusCode resp = Some pl ->
  errpages st !! pl = Some p ->
  body p = Some b ->
  CheckResponse e pr st =
    (Ok (false,
         set_ResponseWriter
           (Write b
              (WriteHeader (StatusCode resp)
                 (mkResponseWriter
                    (header_entries (header p) ∪
                     rw_header (pr_ResponseWriter pr))
                    (rw_status (pr_ResponseWriter pr))
                    (rw_body (pr_ResponseWriter pr))))) pr), st).
Proof.
  intros Hr Hpl Hp Hb. unfold CheckResponse, ErrorResponse_Get.
  rewrite Hr, Hpl.
  erewrite bind_ok.
  2:{ erewrite bind_ok by (by apply deref_page_ok). by rewrite Hb. }
  cbv beta iota.
  erewrite bind_ok by (by apply deref_page_ok).
  erewrite bind_ok by (by apply deref_page_ok).
  by rewrite Hb.
Qed.

(** A status whose page is still empty after the re-fetch: the page is
    returned all the same, and an empty body is written in place of the
    upstream one. *)
Lemma CheckResponse_unpopulated e pr resp pl p st st' :
  pr_Response pr = Some resp ->
  pages e !! StatusCode resp = Some pl ->
  errpages st !! pl = Some p ->
  body p = None ->
  fetch pl st = (Ok tt, st') ->
  errpages st' = errpages st ->
  CheckResponse e pr st =
    (Ok (false,
         set_ResponseWriter
           (Write ""
              (WriteHeader (StatusCode resp)
                 (mkResponseWriter
                    (header_entries (header p) ∪
                     rw_header (pr_ResponseWriter pr))
                    (rw_status (pr_ResponseWriter pr))
                    (rw_body (pr_ResponseWriter pr))))) pr), st').
Proof.
  intros Hr Hpl Hp Hb Hfetch Hsame. unfold CheckResponse, ErrorResponse_Get.
  rewrite Hr, Hpl.
  erewrite bind_ok.
  2:{ erewrite bind_ok by (by apply deref_page_ok). rewrite Hb.
      by erewrite bind_ok by exact Hfetch. }
  cbv beta iota.
  assert (Hp' : errpages st' !! pl = Some p) by by rewrite Hsame.
  erewrite bind_ok by (by apply deref_page_ok).
  erewrite bind_ok by (by apply deref_page_ok).
  by rewrite Hb.
Qed.

(** C1 where it fails: the page for 503 exists, its body is nil and the
    re-fetch fails.  [CheckResponse] writes status 503 and an empty body and
    returns false, so the pipeline ends there and the client gets the empty
    body, not the upstream one. *)
Theorem unpopulated_page_replaces_upstream_body :
  exists pr' st',
    CheckResponse pages_503 pr_upstream_503
      (st_pages [inr "connection refused"]) = (Ok (false, pr'), st') /\
    rw_status (pr_ResponseWriter pr') = Some 503 /\
    rw_body (pr_ResponseWriter pr') = "" /\
    errpages st' !! 0%nat = Some page_503 /\
    exists pr'' st'',
      respond 0%nat pr_upstream_503 (st_pages [inr "connection refused"]) =
        (Ok pr'', st'') /\
      pr_ResponseWriter pr'' = pr_ResponseWriter pr'.
Proof.
  eexists _, _. split; [vm_compute; reflexivity|].
  split; [reflexivity|]. split; [reflexivity|]. split; [reflexivity|].
  eexists _, _. split; [vm_compute; reflexivity|]. reflexivity.
Qed.

(** The same response with a status that has no page is streamed. *)
Example other_status_is_streamed :
  exists pr' st',
    respond 0%nat
      (mkProxyRequest (mkRequest "a.example" "/" ∅) new_ResponseWriter
         (Some (mkResponse 500 ∅ (inl "upstream"))) None)
      (st_pages []) = (Ok pr', st') /\
    rw_status (pr_ResponseWriter pr') = Some 500 /\
    rw_body (pr_ResponseWriter pr') = "upstream".
Proof. eexists _, _. vm_compute. repeat split. Qed.

(** ** Host names: [SplitHostPort] on host:port *)

Lemma append_cons a h s : String a h +:+ s = String a (h +:+ s).
Proof. reflexivity. Qed.

Lemma append_nil s : "" +:+ s = s.
Proof. reflexivity. Qed.

Lemma IndexByte_cons c a s :
  IndexByte c (String a s) =
    (if Ascii.eqb a c then Some 0%nat else S <$> IndexByte c s).
Proof. reflexivity. Qed.

Lemma IndexByte_None_Last c s :
  IndexByte c s = None -> LastIndexByte c s = None.
Proof.
  induction s as [|a s IH]; [done|].
  rewrite IndexByte_cons. cbn [LastIndexByte].
  destruct (Ascii.eqb a c); [done|].
  destruct (IndexByte c s); [done|]. intros _. by rewrite IH.
Qed.

Lemma IndexByte_app_None c h s :
  IndexByte c h = None -> IndexByte c s = None ->
  IndexByte c (h +:+ s) = None.
Proof.
  intros Hh Hs. induction h as [|a h IH]; [done|].
  rewrite append_cons, IndexByte_cons. rewrite IndexByte_cons in Hh.
  destruct (Ascii.eqb a c); [done|].
  destruct (IndexByte c h); [done|]. by rewrite IH.
Qed.

Lemma IndexByte_app_here c h s :
  is_Some (IndexByte c (h +:+ String c s)).
Proof.
  induction h as [|a h IH].
  - rewrite append_nil, IndexByte_cons, Ascii.eqb_refl. eauto.
  - rewrite append_cons, IndexByte_cons.
    destruct (Ascii.eqb a c); [eauto|]. destruct IH as [i ->]. cbn. eauto.
Qed.

Lemma LastIndexByte_app c h s :
  IndexByte c s = None ->
  LastIndexByte c (h +:+ String c s) = Some (String.length h).
Proof.
  intros Hs. induction h as [|a h IH].
  - rewrite append_nil. cbn [LastIndexByte String.length].
    by rewrite (IndexByte_None_Last _ _ Hs), Ascii.eqb_refl.
  - rewrite append_cons. cbn [LastIndexByte String.length]. by rewrite IH.
Qed.

Lemma slice_from_0 s : slice_from 0 s = s.
Proof. reflexivity. Qed.

Lemma slice_to_app h s : slice_to (String.length h) (h +:+ s) = h.
Proof.
  induction h as [|a h IH]; [done|].
  rewrite append_cons. cbn [String.length slice_to]. by rewrite IH.
Qed.

Lemma slice_from_app h c s :
  slice_from (S (String.length h)) (h +:+ String c s) = s.
Proof.
  induction h as [|a h IH]; [done|].
  rewrite append_cons. cbn [String.length]. exact IH.
Qed.

Lemma get_0_app_not c c' h s :
  IndexByte c h = None -> c' <> c ->
  String.get 0 (h +:+ String c' s) <> Some c.
Proof.
  intros Hh Hne. destruct h as [|a h].
  - rewrite append_nil. cbn. congruence.
  - rewrite append_cons. rewrite IndexByte_cons in Hh. cbn.
    destruct (Ascii.eqb a c) eqn:E; [done|].
    apply Ascii.eqb_neq in E. congruence.
Qed.

Lemma SplitHostPort_host_port h p :
  clean h -> clean p ->
  SplitHostPort (h +:+ ":" +:+ p) = (h, p, None).
Proof.
  intros (Hc & Hl & Hr) (Hpc & Hpl & Hpr).
  change (h +:+ ":" +:+ p) with (h +:+ String ":" p).
  unfold SplitHostPort. rewrite LastIndexByte_app by done.
  rewrite decide_False by (by apply get_0_app_not).
  rewrite slice_to_app.
  rewrite decide_False by (rewrite Hc; by intros [? ?]).
  rewrite !slice_from_0.
  rewrite decide_False.
  2:{ rewrite IndexByte_app_None; [by intros [? ?] | done |].
      rewrite IndexByte_cons. cbn. by rewrite Hpl. }
  rewrite decide_False.
  2:{ rewrite IndexByte_app_None; [by intros [? ?] | done |].
      rewrite IndexByte_cons. cbn. by rewrite Hpr. }
  by rewrite slice_from_app.
Qed.

Lemma lookup_host_plain host st :
  IndexByte ":" host = None -> lookup_host host st = (Ok host, st).
Proof.
  intros H. unfold lookup_host, contains_colon. rewrite H.
  rewrite bool_decide_eq_false_2; [done|]. by intros [? ?].
Qed.

Lemma lookup_host_port h p st :
  clean h -> clean p -> lookup_host (h +:+ ":" +:+ p) st = (Ok h, st).
Proof.
  intros Hh Hp. unfold lookup_host, contains_colon.
  rewrite bool_decide_eq_true_2 by apply IndexByte_app_here.
  by rewrite SplitHostPort_host_port.
Qed.

(** ** The host router *)






(** "[::1]" has no port to strip, and the router looks up the empty host
    name for it. *)
Lemma lookup_host_bare_ipv6 st :
  spec_strip_port "[::1]" = "[::1]" /\
  lookup_host "[::1]" st =
    (Ok "",
     set_trace
       (trace st ++ [EvLog Warn "%s" [AStr "missing port in address"]]) st).
Proof. split; reflexivity. Qed.




(** ** The admin write path *)

(** The port check of [postService]: a listener address that ends with one
    of the two ports is answered with 400, and only the log line is added to
    the state. *)
Lemma postService_port_check
    (listenAddr adminListenAddr : string)
    (json_Unmarshal : string -> ServiceConfig -> ServiceConfig + string)
    (marshal_Config : M string)
    (AddService UpdateService : ServiceConfig -> M (option string))
    (w : ResponseWriter) (service body : string) (cfg : ServiceConfig)
    (port : string) (st : State) :
  json_Unmarshal body (mkServiceConfig service "" [] [] "" 0 0 0 0 0 0 None)
    = inl cfg ->
  colliding_port (sc_Addr cfg) (invalidPorts listenAddr adminListenAddr)
    = Some port ->
  postService listenAddr adminListenAddr json_Unmarshal marshal_Config
    AddService UpdateService w service (inl body) st =
    (Ok (http_Error ("cannot use " +:+ port +:+ " for listener port") 400 w),
     set_trace
       (trace st ++
        [EvLog Error
           "Cannot use shuttle port: %s for %s service listener. Shuttle is using it."
           [AStr port; AStr (sc_Name cfg)]]) st).
Proof.
  intros Hjson Hport. unfold postService. rewrite Hjson, Hport.
  by erewrite bind_ok by reflexivity.
Qed.

(** C8 at its failing input: the proxy listens on ":8080", the admin
    interface on "127.0.0.1:9090", and the submitted listener address is
    "127.0.0.1:18080".  Port 18080 is neither 8080 nor 9090, yet the request
    is answered with 400 (the registry is not touched). *)
Theorem postService_rejects_port_with_suffix
    (json_Unmarshal : string -> ServiceConfig -> ServiceConfig + string)
    (marshal_Config : M string)
    (AddService UpdateService : ServiceConfig -> M (option string))
    (w : ResponseWriter) (service body : string) (cfg : ServiceConfig)
    (st : State) :
  json_Unmarshal body (mkServiceConfig service "" [] [] "" 0 0 0 0 0 0 None)
    = inl cfg ->
  sc_Addr cfg = "127.0.0.1:18080" ->
  exists st',
    postService ":8080" "127.0.0.1:9090" json_Unmarshal marshal_Config
      AddService UpdateService w service (inl body) st =
      (Ok (http_Error "cannot use 8080 for listener port" 400 w), st') /\
    Registry st' = Registry st /\
    services st' = services st.
Proof.
  intros Hjson Haddr. eexists. split.
  - rewrite (postService_port_check ":8080" "127.0.0.1:9090" _ _ _ _ w
               service body cfg "8080" st Hjson).
    + reflexivity.
    + by rewrite Haddr.
  - done.
Qed.

Lemma postService_rejects_port_with_suffix_witness :
  exists st',
    postService ":8080" "127.0.0.1:9090"
      (fun _ cfg =>
         inl (mkServiceConfig (sc_Name cfg) "127.0.0.1:18080" [] [] "" 0 0 0
                0 0 0 None))
      (ret "[]") (fun _ => ret None) (fun _ => ret None)
      new_ResponseWriter "web" (inl "{}") empty_State =
      (Ok (http_Error "cannot use 8080 for listener port" 400
             new_ResponseWriter), st') /\
    Registry st' = Registry empty_State /\
    services st' = services empty_State.
Proof.
  apply (postService_rejects_port_with_suffix _ _ _ _ new_ResponseWriter
           "web" "{}"
           (mkServiceConfig "web" "127.0.0.1:18080" [] [] "" 0 0 0 0 0 0
              None) empty_State eq_refl eq_refl).
Defined.

(** The same setting with the proxy's own port, and with a free port. *)
Example postService_rejects_same_port :
  postService ":8080" "127.0.0.1:9090"
    (fun _ cfg =>
       inl (mkServiceConfig (sc_Name cfg) "127.0.0.1:8080" [] [] "" 0 0 0 0 0
              0 None))
    (ret "[]") (fun _ => ret None) (fun _ => ret None)
    new_ResponseWriter "web" (inl "{}") empty_State =
    (Ok (http_Error "cannot use 8080 for listener port" 400
           new_ResponseWriter),
     set_trace
       [EvLog Error
          "Cannot use shuttle port: %s for %s service listener. Shuttle is using it."
          [AStr "8080"; AStr "web"]] empty_State).
Proof. reflexivity. Qed.

Example postService_accepts_free_port :
  postService ":8080" "127.0.0.1:9090"
    (fun _ cfg =>
       inl (mkServiceConfig (sc_Name cfg) "127.0.0.1:4000" [] [] "" 0 0 0 0 0
              0 None))
    (ret "[]") (fun _ => ret None) (fun _ => ret None)
    new_ResponseWriter "web" (inl "{}") empty_State =
    (Ok (Write "[]" new_ResponseWriter),
     set_trace [EvGo WriteStateConfig] empty_State).
Proof. reflexivity. Qed.

(** ** The backend set: [add], [get], [remove] *)

Lemma add_replace_none sl s bl name rest : forall i st,
  unnamed st name rest ->
  add_replace sl s bl name i rest st = (Ok false, st).
Proof.
  induction rest as [|l rest IH]; intros i st Hun; [done|].
  inversion Hun as [|?? (b & Hb & Hne) Hrest]; subst.
  cbn [add_replace]. erewrite bind_ok by (by apply deref_backend_ok).
  rewrite decide_False by done. by apply IH.
Qed.

Lemma add_replace_first sl s bl name pre l post b : forall i st,
  unnamed st name pre ->
  backends st !! l = Some b ->
  Name b = name ->
  add_replace sl s bl name i (pre ++ l :: post) st =
    (Ok true,
     set_trace (trace st ++ [EvBackendStop l; EvBackendStart bl])
       (set_services
          (<[sl := set_Backends (<[(i + length pre)%nat := bl]>
                                   (s_Backends s)) s]> (services st)) st)).
Proof.
  induction pre as [|l0 pre IH]; intros i st Hun Hb Hname.
  - cbn [app add_replace length].
    erewrite bind_ok by (by apply deref_backend_ok).
    rewrite decide_True by done.
    unfold Backend_Stop, Backend_Start, store_service, bind, emit, modify, ret.
    st_goal. rewrite Nat.add_0_r, <- app_assoc. reflexivity.
  - inversion Hun as [|?? (b0 & Hb0 & Hne) Hpre]; subst.
    cbn [app add_replace length].
    erewrite bind_ok by (by apply deref_backend_ok).
    rewrite decide_False by done.
    rewrite IH by done. by rewrite Nat.add_succ_r.
Qed.

Lemma unnamed_prepared s bl b name bs st :
  bl ∉ bs -> unnamed st name bs ->
  unnamed (add_prepared s bl b st) name bs.
Proof.
  intros Hnin Hun. unfold unnamed in *. rewrite Forall_forall in *.
  intros l Hl. destruct (Hun l Hl) as (b0 & Hb0 & Hne).
  exists b0. split; [|done]. unfold add_prepared. st_goal.
  rewrite lookup_insert_ne; [done|]. intros ->. done.
Qed.

(** Either no backend of an allocated list has the name, or there is a first
    one that has it. *)
Lemma first_named st name bs :
  allocated st bs ->
  unnamed st name bs \/
  exists pre l post b,
    bs = pre ++ l :: post /\ unnamed st name pre /\
    backends st !! l = Some b /\ Name b = name.
Proof.
  induction 1 as [|l bs [b Hb] _ IH]; [left; constructor|].
  destruct (decide (Name b = name)) as [Heq|Hne].
  - right. exists [], l, bs, b. repeat split; try done. constructor.
  - destruct IH as [Hun|(pre & l' & post & b' & -> & Hun & Hb' & Hn)].
    + left. constructor; eauto.
    + right. exists (l :: pre), l', post, b'. repeat split; try done.
      constructor; eauto.
Qed.

(** [add] either appends the backend, or puts it in the place of the first
    backend of the same name, which it stops first. *)
Lemma Service_add_run
    (sl : loc) (s : Service) (bl : loc) (b : Backend) (st : State) :
  let st1 := add_prepared s bl b st in
  services st !! sl = Some s ->
  backends st !! bl = Some b ->
  bl ∉ s_Backends s ->
  (unnamed st (Name b) (s_Backends s) ->
   Service_add sl bl st =
     (Ok tt,
      set_trace (trace st1 ++ [EvBackendStart bl])
        (set_services
           (<[sl := set_Backends (s_Backends s ++ [bl]) s]> (services st))
           st1))) /\
  (forall pre l post b0,
      s_Backends s = pre ++ l :: post ->
      unnamed st (Name b) pre ->
      backends st !! l = Some b0 ->
      Name b0 = Name b ->
      Service_add sl bl st =
        (Ok tt,
         set_trace (trace st1 ++ [EvBackendStop l; EvBackendStart bl])
           (set_services
              (<[sl := set_Backends (<[length pre := bl]> (s_Backends s)) s]>
                 (services st)) st1))).
Proof.
  intros st1 Hs Hb Hnin.
  assert (Hrun : Service_add sl bl st =
    bind (add_replace sl s bl (Name b) 0 (s_Backends s))
      (fun replaced : bool =>
         if replaced then ret tt
         else
           store_service sl (set_Backends (s_Backends s ++ [bl]) s) ;;;
           Backend_Start bl) st1).
  { unfold Service_add.
    erewrite bind_ok by (by apply deref_service_ok).
    erewrite bind_ok by (by apply deref_backend_ok).
    erewrite bind_ok by reflexivity.
    erewrite bind_ok by reflexivity.
    reflexivity. }
  rewrite Hrun. split.
  - intros Hun.
    erewrite bind_ok
      by (apply add_replace_none; by apply unnamed_prepared).
    cbv beta iota. erewrite bind_ok by reflexivity.
    unfold Backend_Start, emit, modify. subst st1. unfold add_prepared.
    st_goal. reflexivity.
  - intros pre l post b0 Hbs Hun Hb0 Hname. rewrite Hbs at 1.
    assert (Hl : l <> bl).
    { intros ->. apply Hnin. rewrite Hbs. set_solver. }
    assert (Hpre : bl ∉ pre).
    { intros Hin. apply Hnin. rewrite Hbs. set_solver. }
    erewrite bind_ok.
    2:{ apply (add_replace_first _ _ _ _ _ _ _ b0).
        - by apply unnamed_prepared.
        - subst st1. unfold add_prepared. st_goal.
          by rewrite lookup_insert_ne.
        - done. }
    reflexivity.
Qed.

Lemma unnamed_names st name bs :
  unnamed st name bs <-> allocated st bs /\ (Some name ∉ names st bs).
Proof.
  unfold unnamed, allocated, names. induction bs as [|l bs IH]; cbn.
  - split.
    + intros _. split; [constructor | apply not_elem_of_nil].
    + constructor.
  - rewrite !Forall_cons, IH, not_elem_of_cons. unfold name_at. split.
    + intros [(b & Hb & Hne) [Hall Hnin]]. rewrite Hb. cbn.
      repeat split; eauto. congruence.
    + intros [[[b Hb] Hall] [Hne Hnin]]. rewrite Hb in Hne. cbn in Hne.
      split; [|done]. exists b. split; [done|]. congruence.
Qed.

(** Changing the store only at [bl] keeps the names of other backends. *)
Lemma names_frame st st' bl (bs : list loc) :
  (forall l, l <> bl -> backends st' !! l = backends st !! l) ->
  bl ∉ bs -> names st' bs = names st bs.
Proof.
  intros Hframe Hnin. unfold names. apply list_fmap_ext.
  intros i l Hl. unfold name_at. rewrite Hframe; [done|].
  intros ->. apply Hnin. by eapply list_elem_of_lookup_2.
Qed.

Lemma names_cons st l bs : names st (l :: bs) = name_at st l :: names st bs.
Proof. reflexivity. Qed.

Lemma names_app st bs1 bs2 :
  names st (bs1 ++ bs2) = names st bs1 ++ names st bs2.
Proof. unfold names. apply fmap_app. Qed.

(** What [add] leaves behind: the list with the backend in it, the names
    as they were (when the name was there) or with the new name at the end,
    and what was stopped and started. *)
Lemma Service_add_summary sl s bl b st :
  services st !! sl = Some s ->
  backends st !! bl = Some b ->
  bl ∉ s_Backends s ->
  allocated st (s_Backends s) ->
  exists st' pre post evs,
    Service_add sl bl st = (Ok tt, st') /\
    services st' =
      <[sl := set_Backends (pre ++ bl :: post) s]> (services st) /\
    backends st' = <[bl := added s b]> (backends st) /\
    trace st' =
      trace st ++
      EvLog Info "Adding TCP backend %s for %s at %s"
        [AStr (Addr b); AStr (s_Name s); AStr (s_Addr s)] :: evs /\
    (bl ∉ pre) /\ (bl ∉ post) /\
    (Some (Name b) ∉ names st pre) /\
    ((s_Backends s = pre /\ post = [] /\
      (Some (Name b) ∉ names st (s_Backends s)) /\
      evs = [EvBackendStart bl]) \/
     (exists l, s_Backends s = pre ++ l :: post /\
                name_at st l = Some (Name b) /\
                evs = [EvBackendStop l; EvBackendStart bl])).
Proof.
  intros Hs Hb Hnin Hall.
  destruct (Service_add_run sl s bl b st Hs Hb Hnin) as [Happ Hrep].
  destruct (first_named st (Name b) (s_Backends s) Hall)
    as [Hun|(pre & l & post & b0 & Hbs & Hun & Hb0 & Hname)].
  - eexists _, (s_Backends s), [], _. split; [by apply Happ|].
    unfold add_prepared. st_goal. rewrite <- app_assoc.
    apply unnamed_names in Hun as [_ Hun].
    split_and!; try done; [set_solver | by left].
  - eexists _, pre, post, _. split; [by eapply Hrep|].
    unfold add_prepared. st_goal. rewrite <- app_assoc.
    assert (Hpre : bl ∉ pre) by (rewrite Hbs in Hnin; set_solver).
    assert (Hpost : bl ∉ post) by (rewrite Hbs in Hnin; set_solver).
    apply unnamed_names in Hun as [_ Hun].
    split_and!; try done.
    + do 2 f_equal. rewrite Hbs.
      rewrite insert_app_r_alt by done. by rewrite Nat.sub_diag.
    + right. exists l. unfold name_at. rewrite Hb0. cbn. by rewrite Hname.
Qed.

Lemma get_loop_none name bs st :
  unnamed st name bs -> get_loop name bs st = (Ok None, st).
Proof.
  induction 1 as [|l bs (b & Hb & Hne) _ IH]; [done|].
  cbn [get_loop]. erewrite bind_ok by (by apply deref_backend_ok).
  by rewrite decide_False.
Qed.

Lemma get_loop_first name pre l post b st :
  unnamed st name pre ->
  backends st !! l = Some b ->
  Name b = name ->
  get_loop name (pre ++ l :: post) st = (Ok (Some l), st).
Proof.
  intros Hpre Hb Hn.
  induction Hpre as [|l0 pre (b0 & Hb0 & Hne) _ IH]; cbn [app get_loop].
  - erewrite bind_ok by (by apply deref_backend_ok). by rewrite decide_True.
  - erewrite bind_ok by (by apply deref_backend_ok). by rewrite decide_False.
Qed.

(** The names of a list read in a store that differs only at [bl]. *)
Lemma unnamed_frame st st' bl name (bs : list loc) :
  (forall l, l <> bl -> backends st' !! l = backends st !! l) ->
  bl ∉ bs -> allocated st bs -> Some name ∉ names st bs ->
  unnamed st' name bs.
Proof.
  intros Hframe Hnin Hall Hname. apply unnamed_names. split.
  - unfold allocated in *. rewrite Forall_forall in *. intros l Hl.
    rewrite Hframe; [by apply Hall|]. intros ->. done.
  - by rewrite (names_frame st st' bl).
Qed.

Lemma allocated_app st bs1 bs2 :
  allocated st (bs1 ++ bs2) <-> allocated st bs1 /\ allocated st bs2.
Proof. apply Forall_app. Qed.

(** The invariants of the backend list that [add] keeps. *)
Lemma Service_add_keeps sl s bl b st :
  services st !! sl = Some s ->
  backends st !! bl = Some b ->
  bl ∉ s_Backends s ->
  allocated st (s_Backends s) ->
  exists st' bs',
    Service_add sl bl st = (Ok tt, st') /\
    services st' = <[sl := set_Backends bs' s]> (services st) /\
    backends st' = <[bl := added s b]> (backends st) /\
    allocated st' bs' /\
    names st' bs' =
      (if decide (Some (Name b) ∈ names st (s_Backends s))
       then names st (s_Backends s)
       else names st (s_Backends s) ++ [Some (Name b)]) /\
    (NoDup (names st (s_Backends s)) -> NoDup (names st' bs')) /\
    (all_up st (s_Backends s) -> all_up st' bs').
Proof.
  intros Hs Hb Hnin Hall.
  destruct (Service_add_summary sl s bl b st Hs Hb Hnin Hall)
    as (st' & pre & post & evs & Hrun & Hsv & Hbk & _ & Hpre & Hpost & Hfirst
        & Hcase).
  assert (Hframe : forall l, l <> bl -> backends st' !! l = backends st !! l).
  { intros l Hl. rewrite Hbk. by rewrite lookup_insert_ne. }
  assert (Hbl : name_at st' bl = Some (Name b)).
  { unfold name_at. by rewrite Hbk, lookup_insert_eq. }
  assert (Hnames : names st' (pre ++ bl :: post) =
                   names st pre ++ Some (Name b) :: names st post).
  { rewrite names_app, names_cons, Hbl.
    by rewrite (names_frame st st' bl pre), (names_frame st st' bl post). }
  assert (Halloc : allocated st' (pre ++ bl :: post)).
  { assert (Hsub : allocated st pre /\ allocated st post).
    { destruct Hcase as [(<- & -> & _)|(l & Hbs & _)].
      - split; [done | constructor].
      - rewrite Hbs in Hall. apply allocated_app in Hall as [? Hall].
        by inversion Hall. }
    destruct Hsub as [Hp1 Hp2]. apply allocated_app. split.
    - eapply Forall_impl; [exact Hp1|]. intros l Hl. cbn.
      destruct (decide (l = bl)) as [->|]; [|by rewrite Hframe].
      rewrite Hbk, lookup_insert_eq. eauto.
    - constructor; [rewrite Hbk, lookup_insert_eq; eauto|].
      eapply Forall_impl; [exact Hp2|]. intros l Hl. cbn.
      destruct (decide (l = bl)) as [->|]; [|by rewrite Hframe].
      rewrite Hbk, lookup_insert_eq. eauto. }
  exists st', (pre ++ bl :: post).
  split; [exact Hrun|]. split; [exact Hsv|]. split; [exact Hbk|].
  split; [exact Halloc|]. rewrite Hnames.
  assert (Hnew : names st pre ++ Some (Name b) :: names st post =
    if decide (Some (Name b) ∈ names st (s_Backends s))
    then names st (s_Backends s)
    else names st (s_Backends s) ++ [Some (Name b)]).
  { destruct Hcase as [(Hbs & -> & Hnew & _)|(l & Hbs & Hl & _)].
    + rewrite decide_False by done. by subst pre.
    + assert (Heq : names st (s_Backends s) =
                    names st pre ++ Some (Name b) :: names st post).
      { by rewrite Hbs, names_app, names_cons, Hl. }
      rewrite decide_True; [done|].
      rewrite Heq, elem_of_app. right. apply list_elem_of_here. }
  split; [exact Hnew|]. split.
  - rewrite Hnew. intros Hnodup.
    destruct (decide _) as [Hin|Hnin']; [done|].
    apply NoDup_app. split; [done|]. split; [|apply NoDup_singleton].
    intros x Hx [->|Hin]%elem_of_cons; [done|].
    by apply not_elem_of_nil in Hin.
  - intros Hup.
    assert (Hsub : all_up st pre /\ all_up st post).
    { unfold all_up in *.
      destruct Hcase as [(<- & -> & _)|(l & Hbs & _)].
      - split; [done | constructor].
      - rewrite Hbs in Hup. apply Forall_app in Hup as [? Hup].
        by inversion Hup. }
    destruct Hsub as [Hp1 Hp2]. unfold all_up in *.
    apply Forall_app. split; [|constructor].
    + rewrite Forall_forall in *. intros l Hl.
      rewrite Hframe; [by apply Hp1|]. intros ->. done.
    + rewrite Hbk, lookup_insert_eq. by eexists.
    + rewrite Forall_forall in *. intros l Hl.
      rewrite Hframe; [by apply Hp2|]. intros ->. done.
Qed.

(** X1: [add] keeps the names of a service's backends distinct: a name that is
    there stays where it is, a new name goes to the end. *)
Theorem add_keeps_names_unique
    (sl : loc) (s : Service) (bl : loc) (b : Backend) (st : State) :
  services st !! sl = Some s ->
  backends st !! bl = Some b ->
  bl ∉ s_Backends s ->
  allocated st (s_Backends s) ->
  NoDup (names st (s_Backends s)) ->
  exists st' s',
    Service_add sl bl st = (Ok tt, st') /\
    services st' !! sl = Some s' /\
    allocated st' (s_Backends s') /\
    names st' (s_Backends s') =
      (if decide (Some (Name b) ∈ names st (s_Backends s))
       then names st (s_Backends s)
       else names st (s_Backends s) ++ [Some (Name b)]) /\
    NoDup (names st' (s_Backends s')).
Proof.
  intros Hs Hb Hnin Hall Hnodup.
  destruct (Service_add_keeps sl s bl b st Hs Hb Hnin Hall)
    as (st' & bs' & Hrun & Hsv & _ & Halloc & Hnames & Hnd & _).
  exists st', (set_Backends bs' s).
  split; [exact Hrun|]. split; [by rewrite Hsv, lookup_insert_eq|].
  cbn [s_Backends set_Backends]. auto.
Qed.

(** X2: After [add], [get] by the backend's name finds the backend just
    added. *)
Theorem get_finds_added_backend
    (sl : loc) (s : Service) (bl : loc) (b : Backend) (st : State) :
  services st !! sl = Some s ->
  backends st !! bl = Some b ->
  bl ∉ s_Backends s ->
  allocated st (s_Backends s) ->
  exists st',
    Service_add sl bl st = (Ok tt, st') /\
    Service_get sl (Name b) st' = (Ok (Some bl), st').
Proof.
  intros Hs Hb Hnin Hall.
  destruct (Service_add_summary sl s bl b st Hs Hb Hnin Hall)
    as (st' & pre & post & evs & Hrun & Hsv & Hbk & _ & Hpre & Hpost & Hfirst
        & Hcase).
  exists st'. split; [exact Hrun|]. unfold Service_get.
  erewrite bind_ok.
  2:{ apply deref_service_ok. by rewrite Hsv, lookup_insert_eq. }
  cbn [s_Backends set_Backends].
  apply (get_loop_first _ _ _ _ (added s b)).
  - apply (unnamed_frame st st' bl); try done.
    + intros l Hl. rewrite Hbk. by rewrite lookup_insert_ne.
    + destruct Hcase as [(<- & _)|(l & Hbs & _)]; [done|].
      rewrite Hbs in Hall. by apply allocated_app in Hall as [? _].
  - by rewrite Hbk, lookup_insert_eq.
  - done.
Qed.

(** X3: [add] marks the backend up and gives it the service's timeouts and
    check interval; its name, addresses and counters stay, and no other
    backend is touched.  When no backend of the service has the name, the
    backend goes to the end of the list and is started, and nothing is
    stopped.  When some backend has it, the first such backend is stopped,
    the new one takes its place and is started after that. *)
Theorem add_marks_up_and_starts
    (sl : loc) (s : Service) (bl : loc) (b : Backend) (st : State) :
  let b' :=
    mkBackend (Name b) (Addr b) (CheckAddr b) (Sent b) (Rcvd b) (Errors b)
      (Conns b) (Active b) (HTTPActive b) true (s_ServerTimeout s)
      (s_DialTimeout s) (Int64.mul (s_CheckInterval s) Millisecond) in
  let after (bs' : list loc) (evs : list Event) :=
    mkState (<[sl := set_Backends bs' s]> (services st))
      (<[bl := b']> (backends st)) (errpages st) (Registry st) (env_next st)
      (env_dial st) (env_listen st) (env_get st) (env_close st) (env_ids st)
      (trace st ++
       EvLog Info "Adding TCP backend %s for %s at %s"
         [AStr (Addr b); AStr (s_Name s); AStr (s_Addr s)] :: evs) in
  services st !! sl = Some s ->
  backends st !! bl = Some b ->
  bl ∉ s_Backends s ->
  (unnamed st (Name b) (s_Backends s) ->
   Service_add sl bl st =
     (Ok tt, after (s_Backends s ++ [bl]) [EvBackendStart bl])) /\
  (forall pre l post b0,
      s_Backends s = pre ++ l :: post ->
      unnamed st (Name b) pre ->
      backends st !! l = Some b0 ->
      Name b0 = Name b ->
      Service_add sl bl st =
        (Ok tt,
         after (pre ++ bl :: post) [EvBackendStop l; EvBackendStart bl])).
Proof.
  intros b' after Hs Hb Hnin.
  destruct (Service_add_run sl s bl b st Hs Hb Hnin) as [Happ Hrep].
  split.
  - intros Hun. rewrite (Happ Hun). subst after b'.
    unfold add_prepared, added. st_goal. by rewrite <- !app_assoc.
  - intros pre l post b0 Hbs Hun Hb0 Hname.
    rewrite (Hrep pre l post b0 Hbs Hun Hb0 Hname). subst after b'.
    unfold add_prepared, added. st_goal. rewrite <- !app_assoc.
    rewrite Hbs, insert_app_r_alt by done. by rewrite Nat.sub_diag.
Qed.

Lemma add_keeps_names_unique_witness :
  exists st' s',
    Service_add 0%nat 3%nat (st_web_with "B" "10.0.0.9:80") = (Ok tt, st') /\
    services st' !! 0%nat = Some s' /\
    names st' (s_Backends s') = [Some "A"; Some "B"; Some "C"] /\
    NoDup (names st' (s_Backends s')).
Proof.
  destruct (add_keeps_names_unique 0%nat svc_web 3%nat
              (backend_at "B" "10.0.0.9:80") (st_web_with "B" "10.0.0.9:80")
              eq_refl eq_refl)
    as (st' & s' & Hrun & Hs' & _ & Hnames & Hnodup).
  - compute_done.
  - repeat constructor; eexists; reflexivity.
  - compute_done.
  - exists st', s'. split; [exact Hrun|]. split; [exact Hs'|].
    split; [exact Hnames | exact Hnodup].
Defined.

Lemma get_finds_added_backend_witness :
  exists st',
    Service_add 0%nat 3%nat (st_web_with "D" "10.0.0.9:80") = (Ok tt, st') /\
    Service_get 0%nat "D" st' = (Ok (Some 3%nat), st').
Proof.
  apply (get_finds_added_backend 0%nat svc_web 3%nat
           (backend_at "D" "10.0.0.9:80") (st_web_with "D" "10.0.0.9:80")
           eq_refl eq_refl).
  - compute_done.
  - repeat constructor; eexists; reflexivity.
Defined.

Lemma add_marks_up_and_starts_witness :
  exists st',
    Service_add 0%nat 3%nat (st_web_with "B" "10.0.0.9:80") = (Ok tt, st') /\
    s_Backends <$> services st' !! 0%nat = Some [0; 3; 2]%nat /\
    up <$> backends st' !! 3%nat = Some true /\
    rwTimeout <$> backends st' !! 3%nat = Some 0 /\
    dialTimeout <$> backends st' !! 3%nat = Some (2 * Second) /\
    checkInterval <$> backends st' !! 3%nat = Some (2 * Second) /\
    backends st' !! 1%nat = Some (backend_at "B" "10.0.0.2:80") /\
    trace st' =
      [EvLog Info "Adding TCP backend %s for %s at %s"
         [AStr "10.0.0.9:80"; AStr "web"; AStr "127.0.0.1:0"];
       EvBackendStop 1%nat; EvBackendStart 3%nat].
Proof.
  eexists. split.
  - apply (proj2 (add_marks_up_and_starts 0%nat svc_web 3%nat
                    (backend_at "B" "10.0.0.9:80")
                    (st_web_with "B" "10.0.0.9:80") eq_refl eq_refl
                    ltac:(compute_done))
             [0%nat] 1%nat [2%nat] (backend_at "B" "10.0.0.2:80") eq_refl).
    + repeat constructor; eexists; (split; [reflexivity | discriminate]).
    + reflexivity.
    + reflexivity.
  - split_and!; reflexivity.
Defined.

Lemma remove_loop_none sl s name rest : forall i st,
  unnamed st name rest ->
  remove_loop sl s name i rest st = (Ok false, st).
Proof.
  induction rest as [|l rest IH]; intros i st Hun; [done|].
  inversion Hun as [|?? (b & Hb & Hne) Hrest]; subst.
  cbn [remove_loop]. erewrite bind_ok by (by apply deref_backend_ok).
  rewrite decide_False by done. by apply IH.
Qed.

Lemma remove_loop_first sl s name pre l post b x : forall i st,
  unnamed st name pre ->
  backends st !! l = Some b ->
  Name b = name ->
  s_Backends s !! (length (s_Backends s) - 1)%nat = Some x ->
  remove_loop sl s name i (pre ++ l :: post) st =
    (Ok true,
     set_trace
       (trace st ++
        [EvLog Info "Removing TCP backend %s for %s at %s"
           [AStr (Addr b); AStr (s_Name s); AStr (s_Addr s)];
         EvBackendStop l])
       (set_services
          (<[sl := set_Backends
                     (take (length (s_Backends s) - 1)
                        (<[(i + length pre)%nat := x]> (s_Backends s))) s]>
             (services st)) st)).
Proof.
  induction pre as [|l0 pre IH]; intros i st Hun Hb Hname Hlast.
  - cbn [app remove_loop length].
    erewrite bind_ok by (by apply deref_backend_ok).
    rewrite decide_True by done.
    erewrite bind_ok by reflexivity. cbv zeta. rewrite Hlast.
    unfold Backend_Stop, store_service, bind, emit, modify, ret.
    st_goal. rewrite Nat.add_0_r, <- app_assoc. reflexivity.
  - inversion Hun as [|?? (b0 & Hb0 & Hne) Hpre]; subst.
    cbn [app remove_loop length].
    erewrite bind_ok by (by apply deref_backend_ok).
    rewrite decide_False by done.
    rewrite IH by done. by rewrite Nat.add_succ_r.
Qed.

(** The list that [remove] leaves: the one before, without the removed
    entry, up to the order of what came after it. *)
Lemma remove_slice (pre post : list loc) (l x : loc) :
  (pre ++ l :: post) !! (length (pre ++ l :: post) - 1)%nat = Some x ->
  take (length (pre ++ l :: post) - 1)
       (<[length pre := x]> (pre ++ l :: post)) ≡ₚ pre ++ post.
Proof.
  intros Hlast. rewrite insert_app_r_alt by done. rewrite Nat.sub_diag.
  cbn [insert list_insert].
  destruct (decide (post = [])) as [->|Hne].
  - rewrite length_app. cbn [length].
    replace (length pre + 1 - 1)%nat with (length pre) by lia.
    rewrite take_app_length'; [by rewrite app_nil_r | done].
  - destruct (exists_last Hne) as (post' & y & ->).
    assert (x = y) as <-.
    { replace (pre ++ l :: post' ++ [y]) with ((pre ++ l :: post') ++ [y])
        in Hlast by by rewrite <- app_assoc.
      rewrite length_app in Hlast. cbn [length] in Hlast.
      rewrite lookup_app_r in Hlast by lia.
      replace (_ - _)%nat with 0%nat in Hlast by lia. by injection Hlast. }
    replace (length (pre ++ l :: post' ++ [x]) - 1)%nat
      with (length (pre ++ x :: post')).
    2:{ rewrite !length_app. cbn [length]. rewrite length_app. cbn. lia. }
    replace (pre ++ x :: post' ++ [x]) with ((pre ++ x :: post') ++ [x])
      by by rewrite <- app_assoc.
    rewrite take_app_length.
    apply Permutation_app_head. apply Permutation_cons_append.
Qed.

(** X4: [remove] of a name that no backend has answers false and changes
    nothing. *)
Theorem remove_absent_changes_nothing
    (sl : loc) (s : Service) (name : string) (st : State) :
  services st !! sl = Some s ->
  unnamed st name (s_Backends s) ->
  Service_remove sl name st = (Ok false, st).
Proof.
  intros Hs Hun. unfold Service_remove.
  erewrite bind_ok by (by apply deref_service_ok).
  by apply remove_loop_none.
Qed.

Lemma remove_absent_changes_nothing_witness :
  Service_remove 0%nat "Z" st_web = (Ok false, st_web).
Proof.
  apply (remove_absent_changes_nothing 0%nat svc_web "Z" st_web eq_refl).
  repeat constructor; eexists; (split; [reflexivity | discriminate]).
Defined.

(** X5: [remove] of a name that is there answers true, stops the first backend
    of that name and takes it out of the list: the other backends stay (the
    last one moves into the gap), no backend record is touched, and when
    names were distinct [get] no longer finds the name. *)
Theorem remove_takes_out_first_named
    (sl : loc) (s : Service) (name : string) (pre post : list loc)
    (l : loc) (b : Backend) (st : State) :
  services st !! sl = Some s ->
  allocated st (s_Backends s) ->
  s_Backends s = pre ++ l :: post ->
  unnamed st name pre ->
  backends st !! l = Some b ->
  Name b = name ->
  exists st' bs',
    Service_remove sl name st = (Ok true, st') /\
    services st' = <[sl := set_Backends bs' s]> (services st) /\
    bs' ≡ₚ pre ++ post /\
    length bs' = (length (s_Backends s) - 1)%nat /\
    backends st' = backends st /\
    trace st' =
      trace st ++
      [EvLog Info "Removing TCP backend %s for %s at %s"
         [AStr (Addr b); AStr (s_Name s); AStr (s_Addr s)];
       EvBackendStop l] /\
    (NoDup (names st (s_Backends s)) ->
     Service_get sl name st' = (Ok None, st')).
Proof.
  intros Hs Hall Hbs Hun Hb Hname.
  assert (Hlast : exists x,
    s_Backends s !! (length (s_Backends s) - 1)%nat = Some x).
  { apply lookup_lt_is_Some_2. rewrite Hbs, length_app. cbn. lia. }
  destruct Hlast as [x Hlast].
  eexists _, (take (length (s_Backends s) - 1)
                (<[length pre := x]> (s_Backends s))).
  assert (Hperm : take (length (s_Backends s) - 1)
                    (<[length pre := x]> (s_Backends s)) ≡ₚ pre ++ post).
  { rewrite Hbs. apply remove_slice. by rewrite <- Hbs. }
  split.
  { unfold Service_remove.
    erewrite bind_ok by (by apply deref_service_ok).
    rewrite Hbs at 1.
    by rewrite (remove_loop_first sl s name pre l post b x 0 st). }
  st_goal. split_and!; try done.
  - rewrite length_take, length_insert. lia.
  - intros Hnodup.
    assert (Hun' : unnamed st name
                     (take (length (s_Backends s) - 1)
                        (<[length pre := x]> (s_Backends s)))).
    { apply unnamed_names. split.
      - unfold allocated. rewrite Hperm. rewrite Hbs in Hall.
        apply allocated_app in Hall as [Hp Hq]. apply allocated_app.
        split; [done | by inversion Hq].
      - unfold names. rewrite Hperm. fold (names st (pre ++ post)).
        rewrite Hbs, names_app, names_cons in Hnodup.
        unfold name_at in Hnodup. rewrite Hb in Hnodup. cbn in Hnodup.
        rewrite Hname in Hnodup.
        apply NoDup_app in Hnodup as (_ & Hdisj & Hpost).
        apply NoDup_cons in Hpost as [Hpost _].
        rewrite names_app. intros [Hin|Hin]%elem_of_app; [|done].
        apply (Hdisj _ Hin). apply list_elem_of_here. }
    unfold Service_get.
    erewrite bind_ok by (apply deref_service_ok; st_goal;
                         apply lookup_insert_eq).
    cbn [s_Backends set_Backends]. apply get_loop_none. exact Hun'.
Qed.

Lemma remove_takes_out_first_named_witness :
  exists st',
    Service_remove 0%nat "A" st_web = (Ok true, st') /\
    services st' !! 0%nat = Some (set_Backends [2; 1]%nat svc_web) /\
    Service_get 0%nat "A" st' = (Ok None, st').
Proof.
  destruct (remove_takes_out_first_named 0%nat svc_web "A" [] [1; 2]%nat
              0%nat (backend_at "A" "10.0.0.1:80") st_web eq_refl)
    as (st' & bs' & Hrun & Hsv & _ & _ & _ & _ & Hget).
  - repeat constructor; eexists; reflexivity.
  - reflexivity.
  - constructor.
  - reflexivity.
  - reflexivity.
  - exists st'. split; [exact Hrun|]. split.
    + vm_compute in Hrun. injection Hrun as <-. reflexivity.
    + apply Hget. compute_done.
Defined.

(** X6: Adding a backend under a new name and removing that name again gives
    back the service as it was; the backend's record stays as [add] left
    it. *)
Theorem remove_undoes_add
    (sl : loc) (s : Service) (bl : loc) (b : Backend) (st : State) :
  services st !! sl = Some s ->
  backends st !! bl = Some b ->
  bl ∉ s_Backends s ->
  unnamed st (Name b) (s_Backends s) ->
  exists st1 st2,
    Service_add sl bl st = (Ok tt, st1) /\
    Service_remove sl (Name b) st1 = (Ok true, st2) /\
    services st2 = <[sl := s]> (services st) /\
    backends st2 = <[bl := added s b]> (backends st).
Proof.
  intros Hs Hb Hnin Hun.
  destruct (Service_add_run sl s bl b st Hs Hb Hnin) as [Happ _].
  specialize (Happ Hun).
  revert Happ. unfold add_prepared. st_goal. intros Happ.
  eexists _, _. split; [exact Happ|].
  set (st1 := mkState _ _ _ _ _ _ _ _ _ _ _).
  assert (Hs1 : services st1 !! sl =
                Some (set_Backends (s_Backends s ++ [bl]) s)).
  { subst st1. st_goal. apply lookup_insert_eq. }
  assert (Hframe : forall l, l <> bl ->
    backends st1 !! l = backends st !! l).
  { intros l Hl. subst st1. st_goal. by rewrite lookup_insert_ne. }
  assert (Hbl : backends st1 !! bl = Some (added s b)).
  { subst st1. st_goal. apply lookup_insert_eq. }
  apply unnamed_names in Hun as [Hall Hname].
  unfold Service_remove.
  erewrite bind_ok by (by apply deref_service_ok).
  cbn [s_Backends set_Backends].
  erewrite (remove_loop_first sl _ (Name b) (s_Backends s) bl []
              (added s b) bl 0 st1); try done.
  - split; [reflexivity|]. cbn [s_Backends set_Backends].
    rewrite length_app. cbn [length].
    replace (length (s_Backends s) + 1 - 1)%nat with (length (s_Backends s))
      by lia.
    rewrite insert_app_r_alt by done. rewrite Nat.sub_diag.
    cbn [insert list_insert Nat.add].
    rewrite take_app_length. subst st1. st_goal.
    split; [|done]. rewrite insert_insert_eq. f_equal. by destruct s.
  - by apply (unnamed_frame st st1 bl).
  - cbn [s_Backends set_Backends]. rewrite length_app. cbn [length].
    replace (length (s_Backends s) + 1 - 1)%nat with (length (s_Backends s))
      by lia.
    rewrite lookup_app_r by done. by rewrite Nat.sub_diag.
Qed.

Lemma remove_undoes_add_witness :
  exists st1 st2,
    Service_add 0%nat 3%nat (st_web_with "D" "10.0.0.9:80") = (Ok tt, st1) /\
    Service_remove 0%nat "D" st1 = (Ok true, st2) /\
    services st2 = services st_web.
Proof.
  destruct (remove_undoes_add 0%nat svc_web 3%nat
              (backend_at "D" "10.0.0.9:80") (st_web_with "D" "10.0.0.9:80")
              eq_refl eq_refl)
    as (st1 & st2 & Hadd & Hrem & Hsv & _).
  - compute_done.
  - repeat constructor; eexists; (split; [reflexivity | discriminate]).
  - exists st1, st2. split; [exact Hadd|]. split; [exact Hrem|].
    rewrite Hsv. apply insert_id. reflexivity.
Defined.

(** ** Services built from a configuration: [NewService], [Config],
    [Available] *)

Lemma wp_of_run {A} (m : M A) (Q : A -> State -> Prop) st a st' :
  m st = (Ok a, st') -> Q a st' -> wp m Q st.
Proof. unfold wp. by intros ->. Qed.

Lemma configs_frame st st' bl bs cs :
  (forall l, l <> bl -> backends st' !! l = backends st !! l) ->
  bl ∉ bs -> configs st bs cs -> configs st' bs cs.
Proof.
  intros Hframe Hnin H. unfold configs in *.
  induction H as [|l c bs cs Hl H IH]; constructor.
  - unfold config_at in *. rewrite Hframe; [done|].
    intros ->. apply Hnin, list_elem_of_here.
  - apply IH. intros Hin. apply Hnin. by apply list_elem_of_further.
Qed.

Lemma configs_names st bs cs :
  configs st bs cs -> names st bs = Some <$> (bc_Name <$> cs).
Proof.
  unfold configs, names. induction 1 as [|l c bs cs Hl H IH]; [done|].
  cbn. f_equal; [|done]. unfold name_at, config_at in *.
  destruct (backends st !! l); cbn in *; [|done].
  injection Hl as <-. done.
Qed.

Lemma configs_allocated st bs cs : configs st bs cs -> allocated st bs.
Proof.
  unfold configs, allocated. induction 1 as [|l c bs cs Hl H IH]; constructor.
  - unfold config_at in Hl. by destruct (backends st !! l).
  - done.
Qed.

Lemma upsert_absent c cs :
  bc_Name c ∉ bc_Name <$> cs -> upsert c cs = cs ++ [c].
Proof.
  induction cs as [|c' cs IH]; cbn; [done|].
  rewrite not_elem_of_cons. intros [Hne Hnin].
  rewrite decide_False by done. by rewrite IH.
Qed.

Lemma upsert_first c c' pre post :
  bc_Name c ∉ bc_Name <$> pre -> bc_Name c' = bc_Name c ->
  upsert c (pre ++ c' :: post) = pre ++ c :: post.
Proof.
  intros Hnin Heq. induction pre as [|x pre IH]; cbn.
  - by rewrite decide_True.
  - cbn in Hnin. apply not_elem_of_cons in Hnin as [Hne Hnin].
    rewrite decide_False by done. by rewrite IH.
Qed.

Lemma Some_elem_of {A} (x : A) (l : list A) :
  Some x ∈ Some <$> l <-> x ∈ l.
Proof.
  rewrite list_elem_of_fmap. split.
  - by intros (y & [= ->] & Hy).
  - eauto.
Qed.

(** [add] enters the backend's configuration into those of the service. *)
Lemma Service_add_configs sl s bl b st cs :
  services st !! sl = Some s ->
  backends st !! bl = Some b ->
  bl ∉ s_Backends s ->
  configs st (s_Backends s) cs ->
  exists st' bs',
    Service_add sl bl st = (Ok tt, st') /\
    services st' = <[sl := set_Backends bs' s]> (services st) /\
    backends st' = <[bl := added s b]> (backends st) /\
    configs st' bs' (upsert (config_of b) cs) /\
    (all_up st (s_Backends s) -> all_up st' bs').
Proof.
  intros Hs Hb Hnin Hcfg.
  pose proof (configs_allocated _ _ _ Hcfg) as Hall.
  destruct (Service_add_keeps sl s bl b st Hs Hb Hnin Hall)
    as (st' & bs' & Hrun & Hsv & Hbk & _ & _ & _ & Hup).
  destruct (Service_add_summary sl s bl b st Hs Hb Hnin Hall)
    as (st2 & pre & post & evs & Hrun2 & Hsv2 & _ & _ & Hpre & Hpost & Hfirst
        & Hcase).
  rewrite Hrun in Hrun2. injection Hrun2 as <-.
  assert (Hbs' : bs' = pre ++ bl :: post).
  { apply (f_equal (fun m => s_Backends <$> m !! sl)) in Hsv2.
    rewrite Hsv, !lookup_insert_eq in Hsv2. cbn in Hsv2. congruence. }
  exists st', bs'. split_and!; try done.
  assert (Hframe : forall l, l <> bl -> backends st' !! l = backends st !! l).
  { intros l Hl. rewrite Hbk. by rewrite lookup_insert_ne. }
  assert (Hbl : config_at st' bl = Some (config_of b)).
  { unfold config_at. by rewrite Hbk, lookup_insert_eq. }
  subst bs'.
  destruct Hcase as [(Hbs & -> & Hnew & _)|(l & Hbs & Hl & _)].
  - subst pre. rewrite upsert_absent.
    + apply Forall2_app; [by eapply configs_frame|]. by constructor.
    + rewrite (configs_names _ _ _ Hcfg), Some_elem_of in Hnew. done.
  - rewrite Hbs in Hcfg. unfold configs in Hcfg.
    apply Forall2_app_inv_l in Hcfg as (cs1 & cs2 & H1 & H2 & ->).
    apply Forall2_cons_inv_l in H2 as (c' & cs3 & Hc' & H3 & ->).
    rewrite upsert_first.
    + apply Forall2_app; [by eapply configs_frame|].
      constructor; [done|]. by eapply configs_frame.
    + rewrite (configs_names _ _ _ H1), Some_elem_of in Hfirst. done.
    + unfold name_at, config_at in *.
      destruct (backends st !! l); cbn in *; [|done].
      injection Hc' as <-. injection Hl as <-. done.
Qed.

Lemma add_all_configs sl s0 cfgs : forall st bs cs,
  services st !! sl = Some (set_Backends bs s0) ->
  configs st bs cs ->
  all_up st bs ->
  wp (add_all sl cfgs)
    (fun _ st' => exists bs' : list loc,
       services st' !! sl = Some (set_Backends bs' s0) /\
       configs st' bs' (foldl (fun acc c => upsert c acc) cs cfgs) /\
       all_up st' bs')
    st.
Proof.
  induction cfgs as [|c cfgs IH]; intros st bs cs Hs Hcfg Hup; simpl.
  - apply wp_ret. eauto.
  - apply wp_bind. unfold NewBackend. apply wp_alloc_backend. intros bl Hfresh.
    set (b := mkBackend _ _ _ _ _ _ _ _ _ _ _ _ _).
    set (st1 := set_backends _ _).
    assert (Hnin : bl ∉ bs).
    { intros Hin. apply configs_allocated in Hcfg.
      unfold allocated in Hcfg. rewrite Forall_forall in Hcfg.
      apply Hcfg in Hin as [? Hin]. congruence. }
    assert (Hframe : forall l, l <> bl ->
              backends st1 !! l = backends st !! l).
    { intros l Hl. subst st1; st_goal. by rewrite lookup_insert_ne. }
    destruct (Service_add_configs sl (set_Backends bs s0) bl b st1 cs)
      as (st2 & bs' & Hrun & Hsv & _ & Hcfg2 & Hup2).
    + subst st1; st_goal. exact Hs.
    + subst st1; st_goal. by rewrite lookup_insert_eq.
    + exact Hnin.
    + by eapply configs_frame.
    + apply wp_bind. eapply wp_of_run; [exact Hrun|]. cbv beta.
      change (config_of b) with c in Hcfg2 || (
        assert (config_of b = c) as Hc by (by destruct c);
        rewrite Hc in Hcfg2).
      apply (IH st2 bs').
      * rewrite Hsv, lookup_insert_eq. done.
      * exact Hcfg2.
      * apply Hup2. cbn [s_Backends set_Backends].
        unfold all_up in *. rewrite Forall_forall in *. intros l Hl.
        rewrite Hframe; [by apply Hup|]. intros ->. done.
Qed.
Lemma upsert_names c cs :
  bc_Name <$> upsert c cs =
    if decide (bc_Name c ∈ bc_Name <$> cs) then bc_Name <$> cs
    else (bc_Name <$> cs) ++ [bc_Name c].
Proof.
  induction cs as [|c' cs IH]; cbn.
  - rewrite decide_False; [done | apply not_elem_of_nil].
  - destruct (decide (bc_Name c' = bc_Name c)) as [Heq|Hne]; cbn.
    + rewrite decide_True; [by rewrite Heq|]. rewrite Heq. apply list_elem_of_here.
    + rewrite IH. destruct (decide (bc_Name c ∈ bc_Name <$> cs)) as [Hin|Hnin].
      * rewrite decide_True; [done|]. by apply list_elem_of_further.
      * rewrite decide_False; [done|]. rewrite not_elem_of_cons. split; congruence.
Qed.

Lemma upsert_NoDup c cs :
  NoDup (bc_Name <$> cs) -> NoDup (bc_Name <$> upsert c cs).
Proof.
  intros H. rewrite upsert_names. destruct (decide _) as [Hin|Hnin]; [done|].
  apply NoDup_app. split; [done|]. split; [|apply NoDup_singleton].
  intros x Hx [->|Hin]%elem_of_cons; [done|].
  by apply not_elem_of_nil in Hin.
Qed.

Lemma upsert_elem_of_names c cs n :
  n ∈ bc_Name <$> upsert c cs <-> n = bc_Name c \/ n ∈ bc_Name <$> cs.
Proof.
  rewrite upsert_names. destruct (decide _) as [Hin|Hnin].
  - split; [by right|]. intros [->|?]; assumption.
  - rewrite elem_of_app, list_elem_of_singleton. tauto.
Qed.

Lemma upsert_in c cs : c ∈ upsert c cs.
Proof.
  induction cs as [|c' cs IH]; cbn; [apply list_elem_of_here|].
  destruct (decide _); [apply list_elem_of_here | by apply list_elem_of_further].
Qed.

Lemma upsert_keeps c x cs :
  x ∈ cs -> bc_Name x <> bc_Name c -> x ∈ upsert c cs.
Proof.
  intros Hin Hne. induction cs as [|c' cs IH]; cbn.
  { by apply not_elem_of_nil in Hin. }
  apply elem_of_cons in Hin as [->|Hin].
  - rewrite decide_False by done. apply list_elem_of_here.
  - destruct (decide _); apply list_elem_of_further; auto.
Qed.

Lemma foldl_upsert_NoDup cfgs : forall acc,
  NoDup (bc_Name <$> acc) ->
  NoDup (bc_Name <$> foldl (fun acc c => upsert c acc) acc cfgs).
Proof.
  induction cfgs as [|c cfgs IH]; intros acc H; cbn; [done|].
  by apply IH, upsert_NoDup.
Qed.

Lemma foldl_upsert_names cfgs n : forall acc,
  n ∈ bc_Name <$> foldl (fun acc c => upsert c acc) acc cfgs <->
  n ∈ bc_Name <$> acc \/ n ∈ bc_Name <$> cfgs.
Proof.
  induction cfgs as [|c cfgs IH]; intros acc; cbn.
  - split; [auto|]. intros [?|Hin]; [done|]. by apply not_elem_of_nil in Hin.
  - rewrite IH, upsert_elem_of_names, elem_of_cons. tauto.
Qed.

Lemma foldl_upsert_distinct cfgs : forall acc,
  NoDup (bc_Name <$> (acc ++ cfgs)) ->
  foldl (fun acc c => upsert c acc) acc cfgs = acc ++ cfgs.
Proof.
  induction cfgs as [|c cfgs IH]; intros acc H; cbn.
  - by rewrite app_nil_r.
  - rewrite upsert_absent.
    + rewrite IH; rewrite <- app_assoc; done.
    + rewrite fmap_app in H. apply NoDup_app in H as (_ & H & _).
      intros Hin. apply (H _ Hin). cbn. apply list_elem_of_here.
Qed.

Lemma foldl_upsert_keeps cfgs x : forall acc,
  x ∈ acc -> bc_Name x ∉ bc_Name <$> cfgs ->
  x ∈ foldl (fun acc c => upsert c acc) acc cfgs.
Proof.
  induction cfgs as [|c cfgs IH]; intros acc Hin Hnin; cbn; [done|].
  cbn in Hnin. apply not_elem_of_cons in Hnin as [Hne Hnin].
  apply IH; [|done]. by apply upsert_keeps.
Qed.

Lemma configured_last pre c post :
  bc_Name c ∉ bc_Name <$> post -> c ∈ configured (pre ++ c :: post).
Proof.
  intros Hnin. unfold configured. rewrite foldl_app. cbn.
  apply foldl_upsert_keeps; [apply upsert_in | done].
Qed.

(** What [NewService] builds: the fields of the configuration, the
    defaults, no balance name, and the configured backends, all up. *)
Lemma NewService_run cfg st :
  exists sl s st',
    NewService cfg st = (Ok sl, st') /\
    services st' !! sl = Some s /\
    s_Name s = sc_Name cfg /\
    s_Addr s = sc_Addr cfg /\
    s_VirtualHosts s = sc_VirtualHosts cfg /\
    s_Balance s = "" /\
    s_CheckInterval s = default_to 2000 (sc_CheckInterval cfg) /\
    s_Fall s = default_to 2 (sc_Fall cfg) /\
    s_Rise s = default_to 2 (sc_Rise cfg) /\
    s_ClientTimeout s = Int64.mul (sc_ClientTimeout cfg) Millisecond /\
    s_ServerTimeout s = Int64.mul (sc_ServerTimeout cfg) Millisecond /\
    s_DialTimeout s = Int64.mul (sc_DialTimeout cfg) Millisecond /\
    errPagesCfg s = sc_ErrorPages cfg /\
    configs st' (s_Backends s) (configured (sc_Backends cfg)) /\
    all_up st' (s_Backends s).
Proof.
  cut (wp (NewService cfg)
    (fun sl st' => exists s,
    services st' !! sl = Some s /\
    s_Name s = sc_Name cfg /\
    s_Addr s = sc_Addr cfg /\
    s_VirtualHosts s = sc_VirtualHosts cfg /\
    s_Balance s = "" /\
    s_CheckInterval s = default_to 2000 (sc_CheckInterval cfg) /\
    s_Fall s = default_to 2 (sc_Fall cfg) /\
    s_Rise s = default_to 2 (sc_Rise cfg) /\
    s_ClientTimeout s = Int64.mul (sc_ClientTimeout cfg) Millisecond /\
    s_ServerTimeout s = Int64.mul (sc_ServerTimeout cfg) Millisecond /\
    s_DialTimeout s = Int64.mul (sc_DialTimeout cfg) Millisecond /\
    errPagesCfg s = sc_ErrorPages cfg /\
    configs st' (s_Backends s) (configured (sc_Backends cfg)) /\
    all_up st' (s_Backends s)) st).
  { intros H. apply wp_run in H as (sl & st' & Hrun & s & H). eauto 10. }
  unfold NewService. apply wp_bind.
  eapply wp_mono; [apply wp_NewErrorResponse|]. intros ep st1 _.
  set (s5 := if decide (s_Fall _ = 0) then _ else _).
  apply wp_bind, wp_alloc_service. intros sl Hfresh.
  apply wp_bind. eapply wp_mono.
  { apply (add_all_configs sl s5 _ _ [] []).
    - st_goal. rewrite lookup_insert_eq. f_equal. subst s5.
      repeat case_decide; reflexivity.
    - constructor.
    - constructor. }
  intros _ st2 (bs & Hs2 & Hcfg2 & Hup2).
  apply wp_bind, (wp_deref_service _ (set_Backends bs s5)); [done|].
  assert (Hfields :
    s_Name s5 = sc_Name cfg /\
    s_Addr s5 = sc_Addr cfg /\
    s_VirtualHosts s5 = sc_VirtualHosts cfg /\
    s_Balance s5 = "" /\
    s_CheckInterval s5 = default_to 2000 (sc_CheckInterval cfg) /\
    s_Fall s5 = default_to 2 (sc_Fall cfg) /\
    s_Rise s5 = default_to 2 (sc_Rise cfg) /\
    s_ClientTimeout s5 = Int64.mul (sc_ClientTimeout cfg) Millisecond /\
    s_ServerTimeout s5 = Int64.mul (sc_ServerTimeout cfg) Millisecond /\
    s_DialTimeout s5 = Int64.mul (sc_DialTimeout cfg) Millisecond /\
    errPagesCfg s5 = sc_ErrorPages cfg).
  { subst s5. unfold default_to. cbn. repeat case_decide; cbn; done. }
  clearbody s5.
  destruct (decide (sc_Balance cfg = "RR" \/ sc_Balance cfg = "")).
  - apply wp_bind, wp_store_service. apply wp_ret. st_goal.
    rewrite lookup_insert_eq. eexists; split; [done|]. cbn. tauto.
  - destruct (decide (sc_Balance cfg = "LC")).
    + apply wp_bind, wp_store_service. apply wp_ret. st_goal.
      rewrite lookup_insert_eq. eexists; split; [done|]. cbn. tauto.
    + apply wp_bind. unfold log. apply wp_emit. apply wp_ret. st_goal.
      eexists; split; [done|]. cbn. tauto.
Qed.

Lemma wrap_in_range x : Int64.in_range x -> Int64.wrap x = x.
Proof.
  unfold Int64.in_range, Int64.wrap, Int64.half, Int64.modulus. intros H.
  rewrite Z.mod_small; lia.
Qed.

Lemma to_ms_mul t :
  Int64.in_range (t * Millisecond) -> to_ms (Int64.mul t Millisecond) = t.
Proof.
  intros H. unfold to_ms, Int64.mul. rewrite wrap_in_range by done.
  unfold Millisecond. by rewrite Z.quot_mul.
Qed.

Lemma Backend_Up_ok bl b st :
  backends st !! bl = Some b -> Backend_Up bl st = (Ok (up b), st).
Proof.
  intros Hb. unfold Backend_Up.
  by erewrite bind_ok by (by apply deref_backend_ok).
Qed.

Lemma Backend_Config_ok bl b st :
  backends st !! bl = Some b -> Backend_Config bl st = (Ok (config_of b), st).
Proof.
  intros Hb. unfold Backend_Config.
  by erewrite bind_ok by (by apply deref_backend_ok).
Qed.

Lemma Available_loop_all_up st bs : forall n,
  all_up st bs -> 0 <= n -> n + Z.of_nat (length bs) < Int64.half ->
  Available_loop bs n st = (Ok (n + Z.of_nat (length bs)), st).
Proof.
  induction bs as [|l bs IH]; intros n Hup Hn Hlen;
    cbn [Available_loop length] in *.
  - unfold ret. do 2 f_equal. lia.
  - inversion Hup as [|?? (b & Hb & Hupb) Hup']; subst.
    erewrite bind_ok by (by apply Backend_Up_ok). rewrite Hupb.
    assert (Hadd : Int64.add n 1 = n + 1).
    { unfold Int64.add. apply wrap_in_range. unfold Int64.in_range, Int64.half in *. lia. }
    rewrite Hadd, IH; [do 2 f_equal; lia | done | lia | lia].
Qed.

Lemma Config_loop_configs st bs cs : forall acc,
  configs st bs cs -> Config_loop bs acc st = (Ok (acc ++ cs), st).
Proof.
  intros acc H. revert acc. unfold configs in H.
  induction H as [|l c bs cs Hl H IH]; intros acc; cbn [Config_loop].
  - by rewrite app_nil_r.
  - unfold config_at in Hl. destruct (backends st !! l) as [b|] eqn:Hb; [|done].
    injection Hl as <-.
    erewrite bind_ok by (by apply Backend_Config_ok).
    rewrite IH. by rewrite <- app_assoc.
Qed.
Lemma upsert_length c cs : (length (upsert c cs) <= S (length cs))%nat.
Proof.
  induction cs as [|c' cs IH]; cbn; [lia|].
  destruct (decide _); cbn; lia.
Qed.

Lemma foldl_upsert_length cfgs : forall acc,
  (length (foldl (fun acc c => upsert c acc) acc cfgs)
   <= length acc + length cfgs)%nat.
Proof.
  induction cfgs as [|c cfgs IH]; intros acc; cbn; [lia|].
  specialize (IH (upsert c acc)). pose proof (upsert_length c acc). lia.
Qed.

(** X7: A service fresh from [NewService] has all its backends available: as
    many as the configuration has distinct backend names. *)
Theorem NewService_backends_all_available
    (cfg : ServiceConfig) (st : State) :
  Z.of_nat (length (sc_Backends cfg)) < Int64.half ->
  exists sl st',
    NewService cfg st = (Ok sl, st') /\
    Service_Available sl st' =
      (Ok (Z.of_nat (length (configured (sc_Backends cfg)))), st') /\
    (length (configured (sc_Backends cfg)) <= length (sc_Backends cfg))%nat.
Proof.
  intros Hlen.
  destruct (NewService_run cfg st)
    as (sl & s & st' & Hrun & Hs & _ & _ & _ & _ & _ & _ & _ & _ & _ & _ & _
        & Hcfg & Hup).
  pose proof (foldl_upsert_length (sc_Backends cfg) []) as Hle.
  cbn [length Nat.add] in Hle. fold (configured (sc_Backends cfg)) in Hle.
  exists sl, st'. split; [exact Hrun|]. split; [|exact Hle].
  unfold Service_Available.
  erewrite bind_ok by (by apply deref_service_ok).
  rewrite Available_loop_all_up; [|done|lia|].
  - unfold configs in Hcfg. apply Forall2_length in Hcfg. by rewrite Hcfg.
  - unfold configs in Hcfg. apply Forall2_length in Hcfg. lia.
Qed.

Lemma NewService_backends_all_available_witness :
  exists sl st',
    NewService cfg_twice empty_State = (Ok sl, st') /\
    Service_Available sl st' = (Ok 2, st').
Proof.
  destruct (NewService_backends_all_available cfg_twice empty_State)
    as (sl & st' & Hrun & Hav & _).
  - vm_compute. reflexivity.
  - exists sl, st'. split; [exact Hrun | exact Hav].
Defined.

(** X8: [Config] of a service fresh from [NewService] gives back the name, the
    address, the virtual hosts, the error pages and (when they fit the
    duration type) the timeouts of the configuration, the intervals with
    their defaults, the backends with later entries of a name in the place
    of earlier ones, and no balance name. *)
Theorem Config_after_NewService (cfg : ServiceConfig) (st : State) :
  Int64.in_range (sc_ClientTimeout cfg * Millisecond) ->
  Int64.in_range (sc_ServerTimeout cfg * Millisecond) ->
  Int64.in_range (sc_DialTimeout cfg * Millisecond) ->
  exists sl st',
    NewService cfg st = (Ok sl, st') /\
    Service_Config sl st' =
      (Ok (mkServiceConfig (sc_Name cfg) (sc_Addr cfg) (sc_VirtualHosts cfg)
             (configured (sc_Backends cfg)) ""
             (default_to 2000 (sc_CheckInterval cfg))
             (default_to 2 (sc_Fall cfg)) (default_to 2 (sc_Rise cfg))
             (sc_ClientTimeout cfg) (sc_ServerTimeout cfg)
             (sc_DialTimeout cfg) (sc_ErrorPages cfg)), st').
Proof.
  intros Hc Hsv Hd.
  destruct (NewService_run cfg st)
    as (sl & s & st' & Hrun & Hs & H1 & H2 & H3 & H4 & H5 & H6 & H7 & H8 & H9
        & H10 & H11 & Hcfg & _).
  exists sl, st'. split; [exact Hrun|].
  unfold Service_Config.
  erewrite bind_ok by (by apply deref_service_ok).
  erewrite bind_ok by (by apply Config_loop_configs).
  rewrite H1, H2, H3, H4, H5, H6, H7, H8, H9, H10, H11.
  by rewrite !to_ms_mul.
Qed.

Lemma Config_after_NewService_witness :
  exists sl st' c,
    NewService cfg_twice empty_State = (Ok sl, st') /\
    Service_Config sl st' = (Ok c, st') /\
    sc_Balance c = "" /\
    sc_CheckInterval c = 2000 /\
    sc_ClientTimeout c = 5000 /\
    sc_Backends c =
      [mkBackendConfig "a" "10.0.0.3:80" "";
       mkBackendConfig "b" "10.0.0.2:80" ""].
Proof.
  destruct (Config_after_NewService cfg_twice empty_State)
    as (sl & st' & Hrun & Hcfg).
  - vm_compute. split; [discriminate | reflexivity].
  - vm_compute. split; [discriminate | reflexivity].
  - vm_compute. split; [discriminate | reflexivity].
  - exists sl, st'. eexists. split; [exact Hrun|]. split; [exact Hcfg|].
    split_and!; reflexivity.
Defined.

(** X9: [Config] gives back the very configuration a service was made from when
    that names no balance, has the three intervals set, timeouts that fit
    the duration type and backends of distinct names. *)
Theorem Config_round_trip (cfg : ServiceConfig) (st : State) :
  sc_Balance cfg = "" ->
  sc_CheckInterval cfg <> 0 -> sc_Fall cfg <> 0 -> sc_Rise cfg <> 0 ->
  Int64.in_range (sc_ClientTimeout cfg * Millisecond) ->
  Int64.in_range (sc_ServerTimeout cfg * Millisecond) ->
  Int64.in_range (sc_DialTimeout cfg * Millisecond) ->
  NoDup (bc_Name <$> sc_Backends cfg) ->
  exists sl st',
    NewService cfg st = (Ok sl, st') /\
    Service_Config sl st' = (Ok cfg, st').
Proof.
  intros Hbal Hci Hfall Hrise Hc Hsv Hd Hnodup.
  destruct (NewService_run cfg st)
    as (sl & s & st' & Hrun & Hs & H1 & H2 & H3 & H4 & H5 & H6 & H7 & H8 & H9
        & H10 & H11 & Hcfg & _).
  exists sl, st'. split; [exact Hrun|].
  unfold Service_Config.
  erewrite bind_ok by (by apply deref_service_ok).
  erewrite bind_ok by (by apply Config_loop_configs).
  rewrite H1, H2, H3, H4, H5, H6, H7, H8, H9, H10, H11.
  rewrite !to_ms_mul by done. unfold default_to.
  rewrite !decide_False by done.
  unfold configured. rewrite foldl_upsert_distinct by done.
  rewrite <- Hbal. by destruct cfg.
Qed.

Lemma Config_round_trip_witness :
  exists sl st',
    NewService cfg_pair empty_State = (Ok sl, st') /\
    Service_Config sl st' = (Ok cfg_pair, st').
Proof.
  apply (Config_round_trip cfg_pair empty_State).
  - reflexivity.
  - discriminate.
  - discriminate.
  - discriminate.
  - vm_compute. split; [discriminate | reflexivity].
  - vm_compute. split; [discriminate | reflexivity].
  - vm_compute. split; [discriminate | reflexivity].
  - compute_done.
Defined.

(** X10: After [NewService] the backends of the service have distinct names, and
    the names are those of the configuration. *)
Theorem NewService_backend_names (cfg : ServiceConfig) (st : State) :
  exists sl s st',
    NewService cfg st = (Ok sl, st') /\
    services st' !! sl = Some s /\
    NoDup (names st' (s_Backends s)) /\
    forall name,
      Some name ∈ names st' (s_Backends s) <->
      name ∈ bc_Name <$> sc_Backends cfg.
Proof.
  destruct (NewService_run cfg st)
    as (sl & s & st' & Hrun & Hs & _ & _ & _ & _ & _ & _ & _ & _ & _ & _ & _
        & Hcfg & _).
  exists sl, s, st'. split; [exact Hrun|]. split; [exact Hs|].
  rewrite (configs_names _ _ _ Hcfg). split.
  - apply (NoDup_fmap_2 Some). apply foldl_upsert_NoDup. constructor.
  - intros name. rewrite Some_elem_of. unfold configured.
    rewrite foldl_upsert_names. split; [|auto].
    intros [Hin|Hin]; [|done]. by apply not_elem_of_nil in Hin.
Qed.

(** X11: After [NewService], [get] finds every configured name, and the backend
    it finds is up and stands for the last configuration entry of that
    name. *)
Theorem NewService_get_finds_last_entry
    (cfg : ServiceConfig) (st : State)
    (pre post : list BackendConfig) (c : BackendConfig) :
  sc_Backends cfg = pre ++ c :: post ->
  bc_Name c ∉ bc_Name <$> post ->
  exists sl st' l b,
    NewService cfg st = (Ok sl, st') /\
    Service_get sl (bc_Name c) st' = (Ok (Some l), st') /\
    backends st' !! l = Some b /\
    config_of b = c /\
    up b = true.
Proof.
  intros Hbs Hlast.
  destruct (NewService_run cfg st)
    as (sl & s & st' & Hrun & Hs & _ & _ & _ & _ & _ & _ & _ & _ & _ & _ & _
        & Hcfg & Hup).
  pose proof (configured_last pre c post Hlast) as Hin.
  rewrite <- Hbs in Hin.
  pose proof (foldl_upsert_NoDup (sc_Backends cfg) [] (NoDup_nil_2))
    as Hnodup.
  fold (configured (sc_Backends cfg)) in Hnodup.
  apply list_elem_of_split in Hin as (cs1 & cs2 & Hsplit).
  rewrite Hsplit in Hcfg, Hnodup.
  rewrite fmap_app in Hnodup. apply NoDup_app in Hnodup as (_ & Hdisj & _).
  unfold configs in Hcfg.
  apply Forall2_app_inv_r in Hcfg as (bs1 & bs2 & Hc1 & Hc2 & Hbk).
  apply Forall2_cons_inv_r in Hc2 as (l & bs3 & Hl & Hc3 & ->).
  unfold config_at in Hl.
  destruct (backends st' !! l) as [b|] eqn:Hb; [|done].
  injection Hl as Hl.
  exists sl, st', l, b. split; [exact Hrun|].
  rewrite Hbk in Hup. unfold all_up in Hup.
  apply Forall_app in Hup as [_ Hup]. inversion Hup as [|?? (b' & Hb' & Hupb) _].
  subst. rewrite Hb in Hb'. injection Hb' as <-.
  split_and!; try done.
  unfold Service_get. erewrite bind_ok by (by apply deref_service_ok).
  rewrite Hbk. apply (get_loop_first _ _ _ _ b); [|done|done].
  apply unnamed_names. split; [by eapply configs_allocated|].
  rewrite (configs_names _ _ _ Hc1), Some_elem_of.
  intros Hin. apply (Hdisj _ Hin). cbn. apply list_elem_of_here.
Qed.

Lemma NewService_get_finds_last_entry_witness :
  exists sl st' l b,
    NewService cfg_twice empty_State = (Ok sl, st') /\
    Service_get sl "a" st' = (Ok (Some l), st') /\
    backends st' !! l = Some b /\
    Addr b = "10.0.0.3:80".
Proof.
  destruct (NewService_get_finds_last_entry cfg_twice empty_State
              [mkBackendConfig "a" "10.0.0.1:80" "";
               mkBackendConfig "b" "10.0.0.2:80" ""] []
              (mkBackendConfig "a" "10.0.0.3:80" "") eq_refl)
    as (sl & st' & l & b & Hrun & Hget & Hb & Hc & _).
  - compute_done.
  - exists sl, st', l, b. split_and!; try done.
    by injection Hc.
Defined.

(** ** [start] followed by [stop] *)

Lemma Service_start_bound sl s st id rest :
  services st !! sl = Some s ->
  env_listen st = inl id :: rest ->
  Service_start sl st =
    (Ok None,
     set_trace
       (trace st ++
        [EvLog Info "Starting TCP listener for %s on %s"
           [AStr (s_Name s); AStr (s_Addr s)];
         EvListen (s_Addr s); EvGo (AcceptLoop sl)])
       (set_services
          (<[sl := set_listener (Some (mkListener id (s_ClientTimeout s))) s]>
             (services st))
          (set_env_listen rest st))).
Proof.
  intros Hs Hlisten. unfold Service_start.
  erewrite bind_ok by (by apply deref_service_ok).
  erewrite bind_ok by reflexivity.
  unfold newTimeoutListener, net_Listen, Service_run.
  unfold bind, emit, modify, store_service, modify, ret. st_goal.
  rewrite Hlisten. st_goal. cbn [fst snd]. st_goal.
  by rewrite <- !app_assoc.
Qed.

Lemma Service_stop_run sl s st :
  services st !! sl = Some s ->
  exists evs rest,
    Service_stop sl st =
      (Ok tt,
       set_env_close rest
         (set_trace
            (trace st ++
             EvLog Info "Stopping TCP listener for %s on %s"
               [AStr (s_Name s); AStr (s_Addr s)]
             :: (EvBackendStop <$> s_Backends s) ++ evs) st)) /\
    match listener s with
    | None => evs = [] /\ rest = env_close st
    | Some l =>
        match env_close st with
        | Some e :: rest' =>
            evs = [EvListenerClose l; EvLog Info "%s" [AStr e]] /\
            rest = rest'
        | None :: rest' => evs = [EvListenerClose l] /\ rest = rest'
        | [] => evs = [EvListenerClose l] /\ rest = []
        end
    end.
Proof.
  intros Hs. unfold Service_stop.
  erewrite bind_ok by (by apply deref_service_ok).
  erewrite bind_ok by reflexivity.
  erewrite bind_ok by apply stop_backends_ok.
  destruct (listener s) as [l|].
  - unfold Listener_Close.
    unfold bind, emit, log, emit, modify, ret. st_goal.
    destruct (env_close st) as [|[e|] rest] eqn:Hclose; st_goal;
      eexists _, _; (split; [|split; reflexivity]);
      rewrite <- ?app_assoc; cbn [app]; rewrite <- ?app_assoc;
      try reflexivity.
    all: destruct st; cbn in *; subst; reflexivity.
  - exists [], (env_close st). split; [|done].
    unfold ret. st_goal. rewrite <- app_assoc, app_nil_r.
    by destruct st.
Qed.

(** X12: A [start] whose bind succeeds stores a listener with the service's
    client timeout and spawns the accept loop once, touching no backend; a
    [stop] after it stops the backends and closes that very listener.
    [stop] writes nothing to the service: the listener stays in place. *)
Theorem start_then_stop_closes_listener
    (sl : loc) (s : Service) (st : State) (id : nat)
    (rest : list (nat + string)) :
  services st !! sl = Some s ->
  env_listen st = inl id :: rest ->
  let l := mkListener id (s_ClientTimeout s) in
  exists st1 st2 evs,
    Service_start sl st = (Ok None, st1) /\
    services st1 = <[sl := set_listener (Some l) s]> (services st) /\
    backends st1 = backends st /\
    trace st1 =
      trace st ++
      [EvLog Info "Starting TCP listener for %s on %s"
         [AStr (s_Name s); AStr (s_Addr s)];
       EvListen (s_Addr s); EvGo (AcceptLoop sl)] /\
    Service_stop sl st1 = (Ok tt, st2) /\
    services st2 = services st1 /\
    backends st2 = backends st /\
    trace st2 =
      trace st1 ++
      EvLog Info "Stopping TCP listener for %s on %s"
        [AStr (s_Name s); AStr (s_Addr s)]
      :: (EvBackendStop <$> s_Backends s) ++ EvListenerClose l :: evs /\
    evs = match env_close st with
          | Some e :: _ => [EvLog Info "%s" [AStr e]]
          | _ => []
          end.
Proof.
  intros Hs Hlisten l.
  pose proof (Service_start_bound sl s st id rest Hs Hlisten) as Hstart.
  set (st1 := set_trace _ _) in Hstart.
  destruct (Service_stop_run sl (set_listener (Some l) s) st1)
    as (evs & rest' & Hstop & Hevs).
  { subst st1. st_goal. apply lookup_insert_eq. }
  cbn [listener set_listener] in Hevs.
  exists st1. eexists.
  exists (match env_close st with
          | Some e :: _ => [EvLog Info "%s" [AStr e]]
          | _ => []
          end).
  split; [exact Hstart|].
  split; [done|]. split; [done|]. split; [done|].
  split; [exact Hstop|]. st_goal.
  split; [done|]. split; [done|].
  change (env_close st1) with (env_close st) in Hevs.
  cbn [s_Name s_Addr s_Backends set_listener].
  split; [|done].
  destruct (env_close st) as [|[e|] r]; destruct Hevs as [-> _]; done.
Qed.

Lemma start_then_stop_closes_listener_witness :
  exists st1 st2,
    Service_start 0%nat (set_env_listen [inl 5%nat] st_web) = (Ok None, st1) /\
    Service_stop 0%nat st1 = (Ok tt, st2) /\
    trace st2 =
      [EvLog Info "Starting TCP listener for %s on %s"
         [AStr "web"; AStr "127.0.0.1:0"];
       EvListen "127.0.0.1:0"; EvGo (AcceptLoop 0%nat);
       EvLog Info "Stopping TCP listener for %s on %s"
         [AStr "web"; AStr "127.0.0.1:0"];
       EvBackendStop 0%nat; EvBackendStop 1%nat; EvBackendStop 2%nat;
       EvListenerClose (mkListener 5%nat 0)].
Proof.
  destruct (start_then_stop_closes_listener 0%nat svc_web
              (set_env_listen [inl 5%nat] st_web) 5%nat [] eq_refl eq_refl)
    as (st1 & st2 & evs & Hstart & _ & _ & Htr1 & Hstop & _ & _ & Htr2 & ->).
  exists st1, st2. split; [exact Hstart|]. split; [exact Hstop|].
  rewrite Htr2, Htr1. reflexivity.
Defined.

(** ** The error-page index and its pages *)

Lemma index_codes_lookup pl codes : forall idx code,
  index_codes pl codes idx !! code =
    if decide (code ∈ codes) then Some pl else idx !! code.
Proof.
  unfold index_codes. induction codes as [|c codes IH]; intros idx code; cbn.
  - rewrite decide_False; [done | apply not_elem_of_nil].
  - rewrite IH. destruct (decide (code ∈ codes)) as [Hin|Hnin].
    + rewrite decide_True; [done | by apply list_elem_of_further].
    + destruct (decide (code = c)) as [->|Hne].
      * rewrite lookup_insert_eq, decide_True; [done | apply list_elem_of_here].
      * rewrite lookup_insert_ne by done. rewrite decide_False; [done|].
        rewrite not_elem_of_cons. done.
Qed.

Lemma index_pages_lookup_inv cfg : forall pls idx code pl,
  length pls = length cfg ->
  index_pages pls cfg idx !! code = Some pl ->
  idx !! code = Some pl \/
  exists (i : nat) entry,
    pls !! i = Some pl /\ cfg !! i = Some entry /\ code ∈ entry.2.
Proof.
  induction cfg as [|[location codes] cfg IH]; intros pls idx code pl Hlen H.
  - destruct pls; [|done]. by left.
  - destruct pls as [|pl0 pls]; [done|]. cbn in Hlen, H.
    injection Hlen as Hlen.
    apply IH in H as [H|(i & entry & Hi & Hc & Hin)]; [| |done].
    + rewrite index_codes_lookup in H.
      destruct (decide (code ∈ codes)) as [Hin|Hnin]; [|by left].
      injection H as <-. right. exists 0%nat, (location, codes). done.
    + right. exists (S i), entry. done.
Qed.

Lemma index_pages_is_Some cfg : forall pls idx code,
  length pls = length cfg ->
  is_Some (index_pages pls cfg idx !! code) <->
  is_Some (idx !! code) \/ exists entry, entry ∈ cfg /\ code ∈ entry.2.
Proof.
  induction cfg as [|[location codes] cfg IH]; intros pls idx code Hlen.
  - destruct pls; [|done]. cbn. split; [by left|].
    intros [?|(entry & Hin & _)]; [done|]. by apply not_elem_of_nil in Hin.
  - destruct pls as [|pl0 pls]; [done|]. cbn in Hlen. cbn [index_pages].
    injection Hlen as Hlen.
    rewrite IH by done. rewrite index_codes_lookup. split.
    + intros [H|(entry & Hin & Hc)].
      * destruct (decide (code ∈ codes)) as [Hcode|]; [|by left].
        right. exists (location, codes). split; [apply list_elem_of_here | done].
      * right. exists entry. split; [by apply list_elem_of_further | done].
    + intros [H|(entry & Hin & Hc)].
      * left. by destruct (decide _).
      * apply elem_of_cons in Hin as [->|Hin].
        -- left. cbn in Hc. by rewrite decide_True.
        -- right. by exists entry.
Qed.

(** What the loop of [Update] leaves: a fresh, empty page and a fetch task
    for each entry, and the index of these pages. *)
Lemma wp_Update_loop_pages cfg : forall idx st,
  wp (Update_loop cfg idx)
    (fun idx' st' => exists pls : list loc,
       idx' = index_pages pls cfg idx /\
       Forall2 (fun pl entry => errpages st' !! pl = Some (new_page entry))
         pls cfg /\
       NoDup pls /\
       Forall (fun pl => errpages st !! pl = None) pls /\
       (forall pl, pl ∉ pls -> errpages st' !! pl = errpages st !! pl) /\
       trace st' = trace st ++ ((fun pl => EvGo (FetchPage pl)) <$> pls) /\
       services st' = services st /\ backends st' = backends st /\
       env_get st' = env_get st) st.
Proof.
  induction cfg as [|[location codes] cfg IH]; intros idx st; simpl.
  - apply wp_ret. exists []. cbn. rewrite app_nil_r.
    split_and!; try done; constructor.
  - apply wp_bind, wp_alloc_page. intros pl Hfresh. apply wp_bind, wp_emit.
    eapply wp_mono; [apply IH|]. clear IH.
    intros idx' st' (pls & -> & Hpages & Hnodup & Hnew & Hframe & Htr & Hsv
                     & Hbk & Hget).
    revert Hnew Hframe Htr Hsv Hbk Hget. st_goal.
    intros Hnew Hframe Htr Hsv Hbk Hget.
    assert (Hnin : pl ∉ pls).
    { intros Hin. rewrite Forall_forall in Hnew. apply Hnew in Hin.
      by rewrite lookup_insert_eq in Hin. }
    exists (pl :: pls). split; [done|]. split_and!; try done.
    + constructor; [|done]. rewrite Hframe by done.
      by rewrite lookup_insert_eq.
    + by constructor.
    + constructor; [done|]. eapply Forall_impl; [exact Hnew|].
      intros l Hl. cbv beta in Hl.
      destruct (decide (l = pl)) as [->|Hne]; [done|].
      by rewrite lookup_insert_ne in Hl.
    + intros l [Hne Hl]%not_elem_of_cons. rewrite Hframe by done.
      by rewrite lookup_insert_ne.
    + rewrite Htr, <- app_assoc. done.
Qed.

(** X13: [NewErrorResponse] with a configuration indexes exactly the listed
    status codes.  Each entry gets a page of its own, new in the store and
    with nothing fetched, and one fetch task; every indexed code leads to
    the page of an entry that lists it; pages that were in the store stay
    as they were. *)
Theorem NewErrorResponse_indexes_listed_codes
    (cfg : list (string * list Z)) (st : State) :
  exists e st' pls,
    NewErrorResponse (Some cfg) st = (Ok e, st') /\
    trace st' = trace st ++ ((fun pl => EvGo (FetchPage pl)) <$> pls) /\
    length pls = length cfg /\
    NoDup pls /\
    (forall code,
       is_Some (pages e !! code) <->
       exists location codes, (location, codes) ∈ cfg /\ code ∈ codes) /\
    (forall code pl,
       pages e !! code = Some pl ->
       pl ∈ pls /\ errpages st !! pl = None /\
       exists location codes,
         (location, codes) ∈ cfg /\ code ∈ codes /\
         errpages st' !! pl = Some (mkErrorPage location codes None None)) /\
    (forall pl p, errpages st !! pl = Some p -> errpages st' !! pl = Some p).
Proof.
  destruct (wp_run _ _ _ (wp_Update_loop_pages cfg ∅ st))
    as (idx & st' & Hrun & pls & -> & Hpages & Hnodup & Hnew & Hframe & Htr
        & _).
  pose proof (Forall2_length _ _ _ Hpages) as Hlen.
  exists (mkErrorResponse (index_pages pls cfg ∅)), st', pls.
  split.
  { cbn [NewErrorResponse]. unfold ErrorResponse_Update.
    by erewrite bind_ok by exact Hrun. }
  split; [exact Htr|]. split; [exact Hlen|]. split; [exact Hnodup|].
  cbn [pages]. split_and!.
  - intros code. rewrite index_pages_is_Some by done. split.
    + intros [[? H]|(entry & Hin & Hc)]; [by rewrite lookup_empty in H|].
      destruct entry as [location codes]. by exists location, codes.
    + intros (location & codes & Hin & Hc). right.
      by exists (location, codes).
  - intros code pl Hpl.
    apply index_pages_lookup_inv in Hpl
      as [Hpl|(i & [location codes] & Hi & Hc & Hin)];
      [by rewrite lookup_empty in Hpl | | done].
    split; [by eapply list_elem_of_lookup_2|]. split.
    + rewrite Forall_forall in Hnew. apply Hnew.
      by eapply list_elem_of_lookup_2.
    + exists location, codes. split; [by eapply list_elem_of_lookup_2|].
      split; [done|].
      by apply (Forall2_lookup_lr _ _ _ _ _ _ Hpages Hi Hc).
  - intros pl p Hp. rewrite Hframe; [done|].
    intros Hin. rewrite Forall_forall in Hnew. apply Hnew in Hin. congruence.
Qed.

(** X14: The codes that one location lists, and no other location does, lead to
    one and the same page. *)
Theorem codes_of_a_location_share_its_page
    (cfg : list (string * list Z)) (st : State)
    (location : string) (codes : list Z) (c1 c2 : Z) :
  NoDup cfg.*1 ->
  (location, codes) ∈ cfg ->
  c1 ∈ codes -> c2 ∈ codes ->
  (forall entry, entry ∈ cfg -> c1 ∈ entry.2 \/ c2 ∈ entry.2 ->
                 entry = (location, codes)) ->
  exists e st' pl,
    NewErrorResponse (Some cfg) st = (Ok e, st') /\
    pages e !! c1 = Some pl /\
    pages e !! c2 = Some pl /\
    errpages st' !! pl = Some (mkErrorPage location codes None None).
Proof.
  intros Hkeys Hentry Hc1 Hc2 Honly.
  destruct (wp_run _ _ _ (wp_Update_loop_pages cfg ∅ st))
    as (idx & st' & Hrun & pls & -> & Hpages & Hnodup & Hnew & Hframe & Htr
        & _).
  pose proof (Forall2_length _ _ _ Hpages) as Hlen.
  assert (Hcfg : NoDup cfg) by by eapply NoDup_fmap_1.
  assert (Hfind : forall c, c ∈ codes ->
            (c1 ∈ codes -> c = c1 \/ c = c2) ->
            exists (i : nat) pl,
              index_pages pls cfg ∅ !! c = Some pl /\
              pls !! i = Some pl /\ cfg !! i = Some (location, codes)).
  { intros c Hc Hc12.
    destruct (proj2 (index_pages_is_Some cfg pls ∅ c Hlen)) as [pl Hpl].
    { right. by exists (location, codes). }
    pose proof Hpl as Hpl'.
    apply index_pages_lookup_inv in Hpl'
      as [Hpl'|(i & entry & Hi & Hc' & Hin)];
      [by rewrite lookup_empty in Hpl' | | done].
    exists i, pl. split; [done|]. split; [done|]. rewrite Hc'. f_equal.
    apply Honly; [by eapply list_elem_of_lookup_2|].
    destruct (Hc12 Hc1) as [->| ->]; auto. }
  destruct (Hfind c1 Hc1) as (i & pl1 & Hp1 & Hi1 & He1); [auto|].
  destruct (Hfind c2 Hc2) as (j & pl2 & Hp2 & Hi2 & He2); [auto|].
  assert (i = j) as <-.
  { eapply NoDup_lookup; [exact Hcfg | exact He1 | exact He2]. }
  assert (pl2 = pl1) as -> by congruence.
  exists (mkErrorResponse (index_pages pls cfg ∅)), st', pl1.
  split.
  { cbn [NewErrorResponse]. unfold ErrorResponse_Update.
    by erewrite bind_ok by exact Hrun. }
  cbn [pages]. split; [done|]. split; [done|].
  by apply (Forall2_lookup_lr _ _ _ _ _ _ Hpages Hi1 He1).
Qed.

Lemma codes_of_a_location_share_its_page_witness :
  exists e st' pl,
    NewErrorResponse
      (Some [("http://pages/503.html", [503; 504]);
             ("http://pages/404.html", [404])]) empty_State = (Ok e, st') /\
    pages e !! 503 = Some pl /\
    pages e !! 504 = Some pl /\
    errpages st' !! pl = Some page_503.
Proof.
  apply (codes_of_a_location_share_its_page
           [("http://pages/503.html", [503; 504]);
            ("http://pages/404.html", [404])] empty_State
           "http://pages/503.html" [503; 504] 503 504).
  - compute_done.
  - apply list_elem_of_here.
  - compute_done.
  - compute_done.
  - intros entry [->|[->|Hin]%elem_of_cons]%elem_of_cons.
    + done.
    + cbn. intros [H|H]; exfalso; revert H; compute_done.
    + by apply not_elem_of_nil in Hin.
Defined.

(** [CheckResponse] for a status whose page is empty, with an origin that
    answers well: the page is fetched, stored and served at once. *)
Lemma CheckResponse_fetches e pl p pr r resp b rest st :
  pr_Response pr = Some r ->
  pages e !! StatusCode r = Some pl ->
  errpages st !! pl = Some p ->
  body p = None ->
  env_get st = inl resp :: rest ->
  effective_status (StatusCode resp) (StatusCodes p) = 200 ->
  resp_Body resp = inl b ->
  b <> "" ->
  let h := capture_headers ErrorHeaders (resp_Header resp) ∅ in
  exists st1 tl,
    CheckResponse e pr st =
      (Ok (false,
           set_ResponseWriter
             (Write b
                (WriteHeader (StatusCode r)
                   (mkResponseWriter (h ∪ rw_header (pr_ResponseWriter pr))
                      (rw_status (pr_ResponseWriter pr))
                      (rw_body (pr_ResponseWriter pr))))) pr), st1) /\
    trace st1 =
      trace st ++
      EvLog Debug "Fetching error page from %s" [AStr (Location p)]
      :: EvGet (Location p) :: tl /\
    env_get st1 = rest /\
    errpages st1 =
      <[pl := mkErrorPage (Location p) (StatusCodes p) (Some b) (Some h)]>
        (errpages st).
Proof.
  intros Hr1 Hp1 Hp Hnil Hget Heff Hb Hne h.
  destruct (fetch_run pl p st Hp)
    as (st1 & tl & Hrun & Htr & Hget1 & _ & _ & Hpages).
  rewrite Hget, Hb in Hpages. rewrite decide_True in Hpages by done.
  rewrite Hget in Hget1. cbn [tail] in Hget1.
  assert (Hp' : errpages st1 !! pl =
                Some (mkErrorPage (Location p) (StatusCodes p) (Some b)
                        (Some h))).
  { rewrite Hpages. apply lookup_insert_eq. }
  exists st1, tl. split_and!.
  - unfold CheckResponse, ErrorResponse_Get. rewrite Hr1, Hp1.
    erewrite bind_ok.
    2:{ erewrite bind_ok by (by apply deref_page_ok). rewrite Hnil.
        by erewrite bind_ok by exact Hrun. }
    cbv beta iota.
    erewrite bind_ok by (by apply deref_page_ok).
    erewrite bind_ok by (by apply deref_page_ok).
    reflexivity.
  - rewrite Htr. unfold fetch_started. st_goal. by rewrite <- app_assoc.
  - exact Hget1.
  - exact Hpages.
Qed.

(** X15: A page fetched on behalf of one status code serves every code that
    leads to it.  The first [CheckResponse] finds the page empty, fetches
    it and writes the fetched body with the upstream status and the cached
    headers; a later [CheckResponse] for another code of the page writes the
    same body and headers without a request and without a change of
    state. *)
Theorem fetched_page_serves_all_its_codes
    (e : ErrorResponse) (pl : loc) (p : ErrorPage)
    (pr1 pr2 : ProxyRequest) (r1 r2 resp : Response) (b : string)
    (rest : list (Response + string)) (st : State) :
  pr_Response pr1 = Some r1 ->
  pr_Response pr2 = Some r2 ->
  pages e !! StatusCode r1 = Some pl ->
  pages e !! StatusCode r2 = Some pl ->
  errpages st !! pl = Some p ->
  body p = None ->
  env_get st = inl resp :: rest ->
  effective_status (StatusCode resp) (StatusCodes p) = 200 ->
  resp_Body resp = inl b ->
  b <> "" ->
  let h := capture_headers ErrorHeaders (resp_Header resp) ∅ in
  let served pr r :=
    set_ResponseWriter
      (Write b
         (WriteHeader (StatusCode r)
            (mkResponseWriter (h ∪ rw_header (pr_ResponseWriter pr))
               (rw_status (pr_ResponseWriter pr))
               (rw_body (pr_ResponseWriter pr))))) pr in
  exists st1 tl,
    CheckResponse e pr1 st = (Ok (false, served pr1 r1), st1) /\
    trace st1 =
      trace st ++
      EvLog Debug "Fetching error page from %s" [AStr (Location p)]
      :: EvGet (Location p) :: tl /\
    env_get st1 = rest /\
    errpages st1 =
      <[pl := mkErrorPage (Location p) (StatusCodes p) (Some b) (Some h)]>
        (errpages st) /\
    CheckResponse e pr2 st1 = (Ok (false, served pr2 r2), st1).
Proof.
  intros Hr1 Hr2 Hp1 Hp2 Hp Hnil Hget Heff Hb Hne h served.
  destruct (CheckResponse_fetches e pl p pr1 r1 resp b rest st
              Hr1 Hp1 Hp Hnil Hget Heff Hb Hne)
    as (st1 & tl & Hc1 & Htr & Hget1 & Hpages).
  exists st1, tl. split_and!; try done.
  assert (Hp' : errpages st1 !! pl =
                Some (mkErrorPage (Location p) (StatusCodes p) (Some b)
                        (Some h))).
  { rewrite Hpages. apply lookup_insert_eq. }
  by rewrite (CheckResponse_substitutes e pr2 r2 pl _ b st1 Hr2 Hp2 Hp').
Qed.

Lemma fetched_page_serves_all_its_codes_witness :
  let st := st_pages [inl (mkResponse 200
                             (<["Content-Type" := ["text/html"]]>
                                (<["X-Powered-By" := ["origin"]]> ∅))
                             (inl "maint"))] in
  let pr504 :=
    mkProxyRequest (mkRequest "a.example" "/" ∅) new_ResponseWriter
      (Some (mkResponse 504 ∅ (inl "gateway"))) None in
  exists pr1 st1 pr2,
    CheckResponse pages_503 pr_upstream_503 st = (Ok (false, pr1), st1) /\
    rw_status (pr_ResponseWriter pr1) = Some 503 /\
    rw_body (pr_ResponseWriter pr1) = "maint" /\
    CheckResponse pages_503 pr504 st1 = (Ok (false, pr2), st1) /\
    rw_status (pr_ResponseWriter pr2) = Some 504 /\
    rw_body (pr_ResponseWriter pr2) = "maint" /\
    rw_header (pr_ResponseWriter pr2) !! "Content-Type" = Some ["text/html"] /\
    rw_header (pr_ResponseWriter pr2) !! "X-Powered-By" = None.
Proof.
  intros st pr504.
  destruct (fetched_page_serves_all_its_codes pages_503 0%nat page_503
              pr_upstream_503 pr504
              (mkResponse 503 ∅ (inl "upstream"))
              (mkResponse 504 ∅ (inl "gateway"))
              (mkResponse 200
                 (<["Content-Type" := ["text/html"]]>
                    (<["X-Powered-By" := ["origin"]]> ∅))
                 (inl "maint"))
              "maint" [] st
              eq_refl eq_refl eq_refl eq_refl eq_refl eq_refl eq_refl eq_refl
              eq_refl ltac:(discriminate))
    as (st1 & tl & Hc1 & _ & _ & _ & Hc2).
  eexists _, st1, _. split; [exact Hc1|].
  split; [reflexivity|]. split; [reflexivity|].
  split; [exact Hc2|].
  split; [reflexivity|]. split; [reflexivity|].
  split; vm_compute; reflexivity.
Defined.

(** X16: A fetch that fails is tried again by the next response that needs the
    page.  With the page empty and the origin out of reach,
    [CheckResponse] writes the upstream status and no body and leaves the
    page empty; the next [CheckResponse] sends a second request and, the
    origin answering well, stores and serves the page. *)
Theorem failed_fetch_is_retried
    (e : ErrorResponse) (pl : loc) (p : ErrorPage)
    (pr1 pr2 : ProxyRequest) (r1 r2 resp : Response) (err b : string)
    (rest : list (Response + string)) (st : State) :
  pr_Response pr1 = Some r1 ->
  pr_Response pr2 = Some r2 ->
  pages e !! StatusCode r1 = Some pl ->
  pages e !! StatusCode r2 = Some pl ->
  errpages st !! pl = Some p ->
  body p = None ->
  env_get st = inr err :: inl resp :: rest ->
  effective_status (StatusCode resp) (StatusCodes p) = 200 ->
  resp_Body resp = inl b ->
  b <> "" ->
  let served (hd : Header) (text : string) pr r :=
    set_ResponseWriter
      (Write text
         (WriteHeader (StatusCode r)
            (mkResponseWriter (hd ∪ rw_header (pr_ResponseWriter pr))
               (rw_status (pr_ResponseWriter pr))
               (rw_body (pr_ResponseWriter pr))))) pr in
  exists st1 st2 tl,
    CheckResponse e pr1 st =
      (Ok (false, served (header_entries (header p)) "" pr1 r1), st1) /\
    errpages st1 = errpages st /\
    trace st1 =
      trace st ++
      [EvLog Debug "Fetching error page from %s" [AStr (Location p)];
       EvGet (Location p);
       EvLog Warn "Could not fetch %s: %s" [AStr (Location p); AStr err]] /\
    CheckResponse e pr2 st1 =
      (Ok (false,
           served (capture_headers ErrorHeaders (resp_Header resp) ∅) b
             pr2 r2), st2) /\
    trace st2 =
      trace st1 ++
      EvLog Debug "Fetching error page from %s" [AStr (Location p)]
      :: EvGet (Location p) :: tl /\
    (exists p', errpages st2 !! pl = Some p' /\ body p' = Some b).
Proof.
  intros Hr1 Hr2 Hp1 Hp2 Hp Hnil Hget Heff Hb Hne served.
  set (st1 :=
    set_env_get (inl resp :: rest)
      (set_trace
         (trace st ++
          [EvLog Debug "Fetching error page from %s" [AStr (Location p)];
           EvGet (Location p);
           EvLog Warn "Could not fetch %s: %s" [AStr (Location p); AStr err]])
         st)).
  assert (Hfetch : fetch pl st = (Ok tt, st1)).
  { unfold fetch.
    erewrite bind_ok by (by apply deref_page_ok).
    erewrite bind_ok by reflexivity.
    erewrite bind_ok by apply client_Get_ok.
    st_goal. rewrite Hget. cbn [tail]. unfold log, emit, modify. st_goal.
    subst st1. st_goal. by rewrite <- !app_assoc. }
  destruct (CheckResponse_fetches e pl p pr2 r2 resp b rest st1
              Hr2 Hp2 Hp Hnil eq_refl Heff Hb Hne)
    as (st2 & tl & Hc2 & Htr2 & _ & Hpages2).
  exists st1, st2, tl. split_and!; try done.
  - by apply (CheckResponse_unpopulated e pr1 r1 pl p st st1).
  - eexists. rewrite Hpages2, lookup_insert_eq. split; reflexivity.
Qed.

Lemma failed_fetch_is_retried_witness :
  let st :=
    st_pages [inr "connection refused";
              inl (mkResponse 200 ∅ (inl "maint"))] in
  exists pr1 st1 pr2 st2,
    CheckResponse pages_503 pr_upstream_503 st = (Ok (false, pr1), st1) /\
    rw_body (pr_ResponseWriter pr1) = "" /\
    CheckResponse pages_503 pr_upstream_503 st1 = (Ok (false, pr2), st2) /\
    rw_body (pr_ResponseWriter pr2) = "maint" /\
    rw_status (pr_ResponseWriter pr2) = Some 503.
Proof.
  intros st.
  destruct (failed_fetch_is_retried pages_503 0%nat page_503
              pr_upstream_503 pr_upstream_503
              (mkResponse 503 ∅ (inl "upstream"))
              (mkResponse 503 ∅ (inl "upstream"))
              (mkResponse 200 ∅ (inl "maint"))
              "connection refused" "maint" [] st
              eq_refl eq_refl eq_refl eq_refl eq_refl eq_refl eq_refl eq_refl
              eq_refl ltac:(discriminate))
    as (st1 & st2 & tl & Hc1 & _ & _ & Hc2 & _).
  eexists _, st1, _, st2. split; [exact Hc1|]. split; [reflexivity|].
  split; [exact Hc2|]. split; reflexivity.
Defined.

(** ** [ServeHTTP] and [Stats] *)

Lemma wrap_wrap_add a b : Int64.add (Int64.wrap a) b = Int64.wrap (a + b).
Proof.
  unfold Int64.add, Int64.wrap. f_equal.
  replace ((a + Int64.half) mod Int64.modulus - Int64.half + b + Int64.half)
    with ((a + Int64.half) mod Int64.modulus + b) by lia.
  rewrite Zplus_mod_idemp_l. f_equal. lia.
Qed.

Lemma add_one_sub_one a :
  Int64.in_range a -> Int64.add (Int64.add a 1) (-1) = a.
Proof.
  intros H. unfold Int64.add at 2. rewrite wrap_wrap_add.
  replace (a + 1 + -1) with a by lia. by apply wrap_in_range.
Qed.

Lemma addrs_of_ok bs st :
  allocated st bs ->
  exists addrs,
    addrs_of bs st = (Ok addrs, st) /\
    Forall2 (fun l a => exists b, backends st !! l = Some b /\ Addr b = a)
      bs addrs.
Proof.
  induction 1 as [|l bs [b Hb] _ (addrs & Hrun & Haddrs)]; cbn [addrs_of].
  - exists []. split; [done | constructor].
  - exists (Addr b :: addrs).
    erewrite bind_ok by (by apply deref_backend_ok).
    erewrite bind_ok by exact Hrun. split; [done|]. constructor; eauto.
Qed.

Lemma Service_NextAddrs_ok sl s bs nexts st :
  services st !! sl = Some s ->
  is_Some (next s) ->
  env_next st = bs :: nexts ->
  allocated st bs ->
  exists addrs,
    Forall2 (fun l a => exists b, backends st !! l = Some b /\ Addr b = a)
      bs addrs /\
    Service_NextAddrs sl st =
      (Ok addrs,
       mkState (services st) (backends st) (errpages st) (Registry st) nexts
         (env_dial st) (env_listen st) (env_get st) (env_close st)
         (env_ids st) (trace st)).
Proof.
  intros Hs Hnext Hn Hall.
  destruct (addrs_of_ok bs (set_env_next nexts st)) as (addrs & Hrun & Hfa).
  { exact Hall. }
  exists addrs. split; [exact Hfa|]. unfold Service_NextAddrs.
  erewrite bind_ok by (by apply deref_service_ok).
  erewrite bind_ok by (by apply call_next_ok).
  exact Hrun.
Qed.

(** X17: [ServeHTTP] of a service adds one to [HTTPConns] and to
    [HTTPActive], takes the addresses of the backends in the order the
    balancer gives them, and enters the reverse proxy once, with these
    addresses and on the state so far.  When the proxy returns, and also
    when it panics, one is taken from [HTTPActive] again and nothing else is
    changed; a proxy that leaves the service alone thus finds [HTTPActive]
    back at its old value and [HTTPConns] one higher. *)
Theorem ServeHTTP_counts_the_request
    (serve : loc -> ReverseProxy -> ResponseWriter -> Request ->
             list string -> M ResponseWriter)
    (sl : loc) (s : Service) (p : ReverseProxy) (w : ResponseWriter)
    (r : Request) (bs : list loc) (nexts : list (list loc)) (st : State) :
  let with_http (conns active : Z) (s0 : Service) :=
    mkService (s_Name s0) (s_Addr s0) (s_VirtualHosts s0) (s_Backends s0)
      (s_Balance s0) (s_CheckInterval s0) (s_Fall s0) (s_Rise s0)
      (s_ClientTimeout s0) (s_ServerTimeout s0) (s_DialTimeout s0) conns
      (s_HTTPErrors s0) active (next s0) (listener s0) (httpProxy s0)
      (errorPages s0) (errPagesCfg s0) (dialer s0) in
  let entered :=
    mkState
      (<[sl := with_http (Int64.add (s_HTTPConns s) 1)
                 (Int64.add (s_HTTPActive s) 1) s]> (services st))
      (backends st) (errpages st) (Registry st) nexts (env_dial st)
      (env_listen st) (env_get st) (env_close st) (env_ids st) (trace st) in
  let left (st2 : State) (s2 : Service) :=
    mkState
      (<[sl := with_http (s_HTTPConns s2) (Int64.add (s_HTTPActive s2) (-1))
                 s2]> (services st2))
      (backends st2) (errpages st2) (Registry st2) (env_next st2)
      (env_dial st2) (env_listen st2) (env_get st2) (env_close st2)
      (env_ids st2) (trace st2) in
  services st !! sl = Some s ->
  is_Some (next s) ->
  httpProxy s = Some p ->
  env_next st = bs :: nexts ->
  allocated st bs ->
  exists addrs,
    Forall2 (fun l a => exists b, backends st !! l = Some b /\ Addr b = a)
      bs addrs /\
    (forall w' st2 s2,
        serve sl p w r addrs entered = (Ok w', st2) ->
        services st2 !! sl = Some s2 ->
        Service_ServeHTTP serve sl w r st = (Ok w', left st2 s2)) /\
    (forall msg st2 s2,
        serve sl p w r addrs entered = (Panic msg, st2) ->
        services st2 !! sl = Some s2 ->
        Service_ServeHTTP serve sl w r st = (Panic msg, left st2 s2)) /\
    (forall w' st2,
        serve sl p w r addrs entered = (Ok w', st2) ->
        services st2 !! sl = services entered !! sl ->
        Int64.in_range (s_HTTPActive s) ->
        exists st3 s3,
          Service_ServeHTTP serve sl w r st = (Ok w', st3) /\
          services st3 !! sl = Some s3 /\
          s_HTTPConns s3 = Int64.add (s_HTTPConns s) 1 /\
          s_HTTPActive s3 = s_HTTPActive s /\
          backends st3 = backends st2 /\
          trace st3 = trace st2).
Proof.
  intros with_http entered left Hs Hnext Hp Hn Hall.
  set (s1 := with_http (Int64.add (s_HTTPConns s) 1)
               (Int64.add (s_HTTPActive s) 1) s).
  set (st1 := set_services (<[sl := s1]> (services st)) st).
  assert (Hs1 : services st1 !! sl = Some s1).
  { subst st1. st_goal. apply lookup_insert_eq. }
  destruct (Service_NextAddrs_ok sl s1 bs nexts st1 Hs1 Hnext Hn Hall)
    as (addrs & Hfa & Haddrs).
  change (mkState (services st1) (backends st1) (errpages st1) (Registry st1)
            nexts (env_dial st1) (env_listen st1) (env_get st1)
            (env_close st1) (env_ids st1) (trace st1))
    with entered in Haddrs.
  assert (Hbody : forall res st2,
    serve sl p w r addrs entered = (res, st2) ->
    bind (Service_NextAddrs sl)
      (fun addrs =>
         bind (deref_service sl)
           (fun s =>
              match httpProxy s with
              | Some p => serve sl p w r addrs
              | None => panic "nil pointer dereference"
              end)) st1 = (res, st2)).
  { intros res st2 Hserve.
    erewrite bind_ok by exact Haddrs.
    erewrite bind_ok by (apply deref_service_ok; subst entered; st_goal;
                         apply lookup_insert_eq).
    cbn [httpProxy s1 with_http]. rewrite Hp. exact Hserve. }
  assert (Hstart :
    Service_ServeHTTP serve sl w r st =
      deferred (add_HTTPActive sl (-1))
        (bind (Service_NextAddrs sl)
           (fun addrs =>
              bind (deref_service sl)
                (fun s =>
                   match httpProxy s with
                   | Some p => serve sl p w r addrs
                   | None => panic "nil pointer dereference"
                   end))) st1).
  { unfold Service_ServeHTTP.
    erewrite bind_ok.
    2:{ unfold add_HTTPConns.
        erewrite bind_ok by (by apply deref_service_ok). reflexivity. }
    erewrite bind_ok.
    2:{ unfold add_HTTPActive.
        erewrite bind_ok by (apply deref_service_ok; st_goal;
                             apply lookup_insert_eq).
        reflexivity. }
    f_equal. subst st1 s1 with_http. unfold set_HTTP. st_goal.
    cbn. by rewrite insert_insert_eq. }
  assert (Hleave : forall st2 s2,
    services st2 !! sl = Some s2 ->
    add_HTTPActive sl (-1) st2 = (Ok tt, left st2 s2)).
  { intros st2 s2 Hs2. unfold add_HTTPActive.
    erewrite bind_ok by (by apply deref_service_ok). reflexivity. }
  exists addrs. split; [exact Hfa|]. split_and!.
  - intros w' st2 s2 Hserve Hs2. rewrite Hstart. unfold deferred.
    rewrite (Hbody _ _ Hserve). by rewrite (Hleave st2 s2 Hs2).
  - intros msg st2 s2 Hserve Hs2. rewrite Hstart. unfold deferred.
    rewrite (Hbody _ _ Hserve). by rewrite (Hleave st2 s2 Hs2).
  - intros w' st2 Hserve Hsame Hrange.
    assert (Hs2 : services st2 !! sl = Some s1).
    { rewrite Hsame. subst entered. st_goal. apply lookup_insert_eq. }
    eexists _, _. split.
    { rewrite Hstart. unfold deferred.
      rewrite (Hbody _ _ Hserve). by rewrite (Hleave st2 s1 Hs2). }
    subst left. st_goal. split; [apply lookup_insert_eq|].
    subst s1 with_http. cbn. split; [done|]. split; [|done].
    by apply add_one_sub_one.
Qed.

Lemma ServeHTTP_counts_the_request_witness :
  let req := mkRequest "a.example" "/" ∅ in
  let st := set_env_next [[1; 2; 0]%nat] st_web in
  (exists st',
     Service_ServeHTTP serve_ok 0%nat new_ResponseWriter req st =
       (Ok (Write "ok" new_ResponseWriter), st') /\
     trace st' =
       [EvProxyServeHTTP 0%nat req
          ["10.0.0.2:80"; "10.0.0.3:80"; "10.0.0.1:80"]] /\
     s_HTTPConns <$> services st' !! 0%nat = Some 1 /\
     s_HTTPActive <$> services st' !! 0%nat = Some 0) /\
  (exists st',
     Service_ServeHTTP (fun _ _ _ _ _ => panic "proxy") 0%nat
       new_ResponseWriter req st = (Panic "proxy", st') /\
     s_HTTPConns <$> services st' !! 0%nat = Some 1 /\
     s_HTTPActive <$> services st' !! 0%nat = Some 0).
Proof.
  intros req st.
  assert (Hall : allocated st [1; 2; 0]%nat).
  { repeat constructor; eexists; reflexivity. }
  assert (Haddrs : forall addrs,
    Forall2 (fun l a => exists b, backends st !! l = Some b /\ Addr b = a)
      [1; 2; 0]%nat addrs ->
    addrs = ["10.0.0.2:80"; "10.0.0.3:80"; "10.0.0.1:80"]).
  { intros addrs H.
    repeat match goal with
           | H : Forall2 _ _ _ |- _ => inversion H; subst; clear H
           end.
    repeat match goal with
           | H : exists _, _ |- _ => destruct H as (? & [= <-] & <-)
           end.
    reflexivity. }
  split.
  - destruct (ServeHTTP_counts_the_request serve_ok 0%nat svc_web
                (mkReverseProxy 10 Second [cb_sslRedirect]
                   [cb_logProxyRequest; cb_errStats; cb_CheckResponse])
                new_ResponseWriter req [1; 2; 0]%nat [] st eq_refl
                (mk_is_Some _ _ eq_refl) eq_refl eq_refl Hall)
      as (addrs & Hfa & Hok & _ & _).
    apply Haddrs in Hfa as ->.
    eexists. split; [by apply (Hok _ _ _ eq_refl eq_refl)|].
    split_and!; reflexivity.
  - destruct (ServeHTTP_counts_the_request (fun _ _ _ _ _ => panic "proxy")
                0%nat svc_web
                (mkReverseProxy 10 Second [cb_sslRedirect]
                   [cb_logProxyRequest; cb_errStats; cb_CheckResponse])
                new_ResponseWriter req [1; 2; 0]%nat [] st eq_refl
                (mk_is_Some _ _ eq_refl) eq_refl eq_refl Hall)
      as (addrs & Hfa & _ & Hpanic & _).
    apply Haddrs in Hfa as ->.
    eexists. split; [by apply (Hpanic _ _ _ eq_refl eq_refl)|].
    split; reflexivity.
Defined.

Lemma Stats_loop_totals bs : forall n a v bk s1 s2 s3 s4 s5 st,
  allocated st bs ->
  exists snap,
    Forall2 (fun l b => backends st !! l = Some b) bs snap /\
    Stats_loop bs
      (mkServiceStat n a v bk (Int64.wrap s1) (Int64.wrap s2) (Int64.wrap s3)
         (Int64.wrap s4) (Int64.wrap s5)) st =
      (Ok (mkServiceStat n a v (bk ++ snap)
             (Int64.wrap (s1 + counter_sum Sent snap))
             (Int64.wrap (s2 + counter_sum Rcvd snap))
             (Int64.wrap (s3 + counter_sum Errors snap))
             (Int64.wrap (s4 + counter_sum Conns snap))
             (Int64.wrap (s5 + counter_sum Active snap))), st).
Proof.
  induction bs as [|bl bs IH]; intros n a v bk s1 s2 s3 s4 s5 st Hall;
    cbn [Stats_loop].
  - exists []. split; [constructor|]. cbn [counter_sum foldr].
    by rewrite app_nil_r, !Z.add_0_r.
  - inversion Hall as [|?? [b Hb] Hall']; subst.
    erewrite bind_ok by (by apply deref_backend_ok).
    cbn [st_Name st_Addr st_VirtualHosts st_Backends st_Sent st_Rcvd
         st_Errors st_Conns st_Active].
    rewrite !wrap_wrap_add.
    destruct (IH n a v (bk ++ [b]) (s1 + Sent b) (s2 + Rcvd b)
                (s3 + Errors b) (s4 + Conns b) (s5 + Active b) st Hall')
      as (snap & Hsnap & Hrun).
    exists (b :: snap). split; [by constructor|].
    rewrite Hrun. cbn [counter_sum foldr]. fold (counter_sum Sent snap).
    fold (counter_sum Rcvd snap). fold (counter_sum Errors snap).
    fold (counter_sum Conns snap). fold (counter_sum Active snap).
    rewrite <- app_assoc, !Z.add_assoc. reflexivity.
Qed.

(** X18: [Stats] changes nothing.  It reports the backends of the service as the
    store has them, in order, and as totals the sums of their counters,
    wrapped around like any 64-bit sum. *)
Theorem Stats_totals_are_sums (sl : loc) (s : Service) (st : State) :
  services st !! sl = Some s ->
  allocated st (s_Backends s) ->
  exists snap,
    Forall2 (fun l b => backends st !! l = Some b) (s_Backends s) snap /\
    Service_Stats sl st =
      (Ok (mkServiceStat (s_Name s) (s_Addr s) (s_VirtualHosts s) snap
             (Int64.wrap (counter_sum Sent snap))
             (Int64.wrap (counter_sum Rcvd snap))
             (Int64.wrap (counter_sum Errors snap))
             (Int64.wrap (counter_sum Conns snap))
             (Int64.wrap (counter_sum Active snap))), st).
Proof.
  intros Hs Hall. unfold Service_Stats.
  erewrite bind_ok by (by apply deref_service_ok).
  destruct (Stats_loop_totals (s_Backends s) (s_Name s) (s_Addr s)
              (s_VirtualHosts s) [] 0 0 0 0 0 st Hall) as (snap & Hsnap & Hrun).
  exists snap. split; [exact Hsnap|].
  change (Int64.wrap 0) with 0 in Hrun. exact Hrun.
Qed.

Lemma Stats_totals_are_sums_witness :
  exists x,
    Service_Stats 0%nat
      (set_backends
         (<[1%nat := counter_set cErrors 3 (backend_at "B" "10.0.0.2:80")]>
            (<[2%nat := counter_set cErrors 4 (backend_at "C" "10.0.0.3:80")]>
               (backends st_web))) st_web) = (Ok x, 
      (set_backends
         (<[1%nat := counter_set cErrors 3 (backend_at "B" "10.0.0.2:80")]>
            (<[2%nat := counter_set cErrors 4 (backend_at "C" "10.0.0.3:80")]>
               (backends st_web))) st_web)) /\
    st_Errors x = 7 /\ length (st_Backends x) = 3%nat.
Proof.
  destruct (Stats_totals_are_sums 0%nat svc_web
      (set_backends
         (<[1%nat := counter_set cErrors 3 (backend_at "B" "10.0.0.2:80")]>
            (<[2%nat := counter_set cErrors 4 (backend_at "C" "10.0.0.3:80")]>
               (backends st_web))) st_web) eq_refl)
    as (snap & Hsnap & Hrun).
  - repeat constructor; eexists; reflexivity.
  - eexists. split; [exact Hrun|].
    cbn [st_Errors st_Backends].
    repeat match goal with
           | H : Forall2 _ _ _ |- _ => inversion H; subst; clear H
           end.
    repeat match goal with
           | H : _ !! _ = Some _ |- _ => vm_compute in H; injection H as <-
           end.
    split; reflexivity.
Defined.

(** ** The port check of [postService] *)

Lemma strings_Index_colon s :
  strings_Index s ":" =
    match IndexByte ":" s with
    | Some i => Z.of_nat i
    | None => -1
    end.
Proof.
  unfold strings_Index. induction s as [|a s IH]; [done|].
  rewrite IndexByte_cons. cbn [String.index String.prefix].
  destruct (ascii_dec ":" a) as [<-|Hne].
  - rewrite Ascii.eqb_refl. by destruct s.
  - rewrite (proj2 (Ascii.eqb_neq a ":")) by congruence.
    destruct (String.index 0 ":" s) as [n|], (IndexByte ":" s) as [i|];
      cbn in *; try done; lia.
Qed.

Lemma IndexByte_app_first c h s :
  IndexByte c h = None ->
  IndexByte c (h +:+ String c s) = Some (String.length h).
Proof.
  intros Hh. induction h as [|a h IH].
  - by rewrite append_nil, IndexByte_cons, Ascii.eqb_refl.
  - rewrite append_cons, IndexByte_cons. rewrite IndexByte_cons in Hh.
    destruct (Ascii.eqb a c); [done|].
    destruct (IndexByte c h); [done|]. by rewrite IH.
Qed.

(** The port text that [postService] cuts from a listen address. *)
Lemma port_of_listen_address h port :
  IndexByte ":" h = None ->
  slice_from (Z.to_nat (strings_Index (h +:+ ":" +:+ port) ":" + 1))
    (h +:+ ":" +:+ port) = port.
Proof.
  intros Hh. rewrite strings_Index_colon.
  change (":" +:+ port) with (String ":" port).
  rewrite IndexByte_app_first by done.
  replace (Z.to_nat (Z.of_nat (String.length h) + 1))
    with (S (String.length h)) by lia.
  apply slice_from_app.
Qed.

Lemma length_append (s1 s2 : string) :
  String.length (s1 +:+ s2) = (String.length s1 + String.length s2)%nat.
Proof.
  induction s1 as [|a s1 IH]; [done|].
  rewrite append_cons. cbn [String.length]. by rewrite IH.
Qed.

Lemma slice_from_length_app h s : slice_from (String.length h) (h +:+ s) = s.
Proof. induction h as [|a h IH]; [done|]. exact IH. Qed.

Lemma HasSuffix_app h s : strings_HasSuffix (h +:+ s) s = true.
Proof.
  unfold strings_HasSuffix. rewrite length_append.
  rewrite bool_decide_eq_true_2 by lia.
  replace (String.length h + String.length s - String.length s)%nat
    with (String.length h) by lia.
  by rewrite slice_from_length_app, bool_decide_eq_true_2.
Qed.

Lemma append_empty_r s : s +:+ "" = s.
Proof.
  induction s as [|a s IH]; [done|]. by rewrite append_cons, IH.
Qed.

Lemma HasSuffix_empty s : strings_HasSuffix s "" = true.
Proof.
  pose proof (HasSuffix_app s "") as H. by rewrite append_empty_r in H.
Qed.

Lemma colliding_port_found addr port ports :
  port ∈ ports ->
  strings_HasSuffix addr port = true ->
  exists p, colliding_port addr ports = Some p /\ p ∈ ports /\
            strings_HasSuffix addr p = true.
Proof.
  intros Hin Hsuf. induction ports as [|q ports IH].
  - by apply not_elem_of_nil in Hin.
  - cbn [colliding_port]. destruct (strings_HasSuffix addr q) eqn:Hq.
    + exists q. split; [done|]. split; [apply list_elem_of_here | done].
    + apply elem_of_cons in Hin as [->|Hin]; [congruence|].
      destruct (IH Hin) as (p & Hp & Hpin & Hps).
      exists p. split; [done|]. split; [by apply list_elem_of_further | done].
Qed.

(** X19: [postService] refuses a listener on the port of the proxy or of the
    admin interface: when the listen address of either reads host:port and
    the submitted address ends in that port, the answer is 400, one line is
    logged, and neither registry call is made. *)
Theorem postService_refuses_shuttle_ports
    (listenAddr adminListenAddr : string)
    (json_Unmarshal : string -> ServiceConfig -> ServiceConfig + string)
    (marshal_Config : M string)
    (AddService UpdateService : ServiceConfig -> M (option string))
    (w : ResponseWriter) (service body : string) (cfg : ServiceConfig)
    (lh h port : string) (st : State) :
  json_Unmarshal body (mkServiceConfig service "" [] [] "" 0 0 0 0 0 0 None)
    = inl cfg ->
  IndexByte ":" lh = None ->
  listenAddr = lh +:+ ":" +:+ port \/ adminListenAddr = lh +:+ ":" +:+ port ->
  sc_Addr cfg = h +:+ ":" +:+ port ->
  exists p,
    p ∈ invalidPorts listenAddr adminListenAddr /\
    strings_HasSuffix (sc_Addr cfg) p = true /\
    postService listenAddr adminListenAddr json_Unmarshal marshal_Config
      AddService UpdateService w service (inl body) st =
      (Ok (http_Error ("cannot use " +:+ p +:+ " for listener port") 400 w),
       set_trace
         (trace st ++
          [EvLog Error
             "Cannot use shuttle port: %s for %s service listener. Shuttle is using it."
             [AStr p; AStr (sc_Name cfg)]]) st).
Proof.
  intros Hjson Hlh Hlisten Haddr.
  destruct (colliding_port_found (sc_Addr cfg) port
              (invalidPorts listenAddr adminListenAddr))
    as (p & Hp & Hin & Hsuf).
  - unfold invalidPorts.
    destruct Hlisten as [-> | ->]; rewrite port_of_listen_address by done.
    + apply list_elem_of_here.
    + apply list_elem_of_further, list_elem_of_here.
  - rewrite Haddr.
    change (h +:+ ":" +:+ port) with (h +:+ (":" +:+ port)).
    replace (h +:+ (":" +:+ port)) with ((h +:+ ":") +:+ port).
    + apply HasSuffix_app.
    + clear. induction h as [|a h IH]; [done|].
      rewrite !append_cons. by rewrite IH.
  - exists p. split; [exact Hin|]. split; [exact Hsuf|].
    by apply postService_port_check.
Qed.

Lemma postService_refuses_shuttle_ports_witness :
  exists p,
    postService ":8080" "127.0.0.1:9090"
      (fun _ cfg =>
         inl (mkServiceConfig (sc_Name cfg) "10.0.0.5:9090" [] [] "" 0 0 0
                0 0 0 None))
      (ret "[]") (fun _ => ret None) (fun _ => ret None)
      new_ResponseWriter "web" (inl "{}") empty_State =
      (Ok (http_Error ("cannot use " +:+ p +:+ " for listener port") 400
             new_ResponseWriter),
       set_trace
         (trace empty_State ++
          [EvLog Error
             "Cannot use shuttle port: %s for %s service listener. Shuttle is using it."
             [AStr p; AStr "web"]]) empty_State).
Proof.
  destruct (postService_refuses_shuttle_ports ":8080" "127.0.0.1:9090"
              (fun _ cfg =>
                 inl (mkServiceConfig (sc_Name cfg) "10.0.0.5:9090" [] [] ""
                        0 0 0 0 0 0 None))
              (ret "[]") (fun _ => ret None) (fun _ => ret None)
              new_ResponseWriter "web" "{}"
              (mkServiceConfig "web" "10.0.0.5:9090" [] [] "" 0 0 0 0 0 0
                 None)
              "127.0.0.1" "10.0.0.5" "9090" empty_State eq_refl eq_refl
              (or_intror eq_refl) eq_refl)
    as (p & _ & _ & Hrun).
  exists p. exact Hrun.
Defined.

(** X20: When the listen address of the proxy is empty, or has nothing after its
    first colon, [postService] refuses every configuration it can parse:
    the port text is empty, and every address ends in it. *)
Theorem postService_empty_port_refuses_all
    (listenAddr adminListenAddr : string)
    (json_Unmarshal : string -> ServiceConfig -> ServiceConfig + string)
    (marshal_Config : M string)
    (AddService UpdateService : ServiceConfig -> M (option string))
    (w : ResponseWriter) (service body : string) (cfg : ServiceConfig)
    (lh : string) (st : State) :
  json_Unmarshal body (mkServiceConfig service "" [] [] "" 0 0 0 0 0 0 None)
    = inl cfg ->
  IndexByte ":" lh = None ->
  listenAddr = "" \/ listenAddr = lh +:+ ":" ->
  postService listenAddr adminListenAddr json_Unmarshal marshal_Config
    AddService UpdateService w service (inl body) st =
    (Ok (http_Error "cannot use  for listener port" 400 w),
     set_trace
       (trace st ++
        [EvLog Error
           "Cannot use shuttle port: %s for %s service listener. Shuttle is using it."
           [AStr ""; AStr (sc_Name cfg)]]) st).
Proof.
  intros Hjson Hlh Hlisten.
  apply (postService_port_check listenAddr adminListenAddr json_Unmarshal
           marshal_Config AddService UpdateService w service body cfg "" st
           Hjson).
  unfold invalidPorts. cbn [colliding_port].
  assert (Hport :
    slice_from (Z.to_nat (strings_Index listenAddr ":" + 1)) listenAddr = "").
  { destruct Hlisten as [-> | ->]; [done|].
    apply (port_of_listen_address lh "" Hlh). }
  by rewrite Hport, HasSuffix_empty.
Qed.

Lemma postService_empty_port_refuses_all_witness :
  postService "" "127.0.0.1:9090"
    (fun _ cfg =>
       inl (mkServiceConfig (sc_Name cfg) "127.0.0.1:4000" [] [] "" 0 0 0 0 0
              0 None))
    (ret "[]") (fun _ => ret None) (fun _ => ret None)
    new_ResponseWriter "web" (inl "{}") empty_State =
    (Ok (http_Error "cannot use  for listener port" 400 new_ResponseWriter),
     set_trace
       (trace empty_State ++
        [EvLog Error
           "Cannot use shuttle port: %s for %s service listener. Shuttle is using it."
           [AStr ""; AStr "web"]]) empty_State).
Proof.
  apply (postService_empty_port_refuses_all "" "127.0.0.1:9090"
           (fun _ cfg =>
              inl (mkServiceConfig (sc_Name cfg) "127.0.0.1:4000" [] [] "" 0
                     0 0 0 0 0 None))
           (ret "[]") (fun _ => ret None) (fun _ => ret None)
           new_ResponseWriter "web" "{}"
           (mkServiceConfig "web" "127.0.0.1:4000" [] [] "" 0 0 0 0 0 0 None)
           "" empty_State eq_refl eq_refl (or_introl eq_refl)).
Defined.
